(** * Yandex Disk photo exporter: the traversal engine and its date filter

    A shallow embedding of the Go sources

    - [internal/datefilter/datefilter.go]  (package [datefilter]),
    - [internal/browser]      ([IsBrowserClosed], [IsContextCanceled]),
    - [internal/navigation]   ([ScrollDown], [ScrollToPosition]),
    - [internal/selection]    ([SelectFirstVisibleDate], ...),
    - [internal/report]       ([Stats] and its counters),
    - [cmd/.../main.go]       ([run], the traversal loop),

    followed by the properties of the specification, proved or refuted
    on that embedding.

    Conventions of the model.
    - Go strings are byte strings; they are modelled by [string], and the
      text handled here (date labels, error messages) is ASCII.  On such
      text [strings.ToLower] maps [A-Z] to [a-z] and [strings.TrimSpace]
      strips tab, newline, vertical tab, form feed, carriage return and
      space.
    - A [time.Time] is modelled by the instant it denotes, in nanoseconds
      since the Unix epoch ([Z]); [Before] and [After] compare instants.
    - A [float64] pixel coordinate is modelled by a rational ([Q]).
    - The calls the loop makes on the browser are commands answered by an
      environment; the loop itself is run with a bound on the number of
      iterations, since the Go loop need not terminate. *)

From Stdlib Require Import ZArith QArith List Sorted String Ascii Bool Lia Lqa.
From Stdlib Require Import DecimalString.
Import ListNotations.

Set Implicit Arguments.

(** ** Results of fallible Go functions: [(T, error)] *)

Inductive result (E A : Type) : Type :=
| Ok (a : A)
| Err (e : E).
Arguments Ok {E A} a.
Arguments Err {E A} e.

(** ** Package [strings] and [strconv] on ASCII text *)

Module strings.
Local Open Scope string_scope.

Definition code (c : ascii) : nat := nat_of_ascii c.

(** [unicode.IsSpace] restricted to ASCII: '\t' '\n' '\v' '\f' '\r' ' '. *)
Definition isSpace (c : ascii) : bool :=
  ((9 <=? code c) && (code c <=? 13))%nat || (code c =? 32)%nat.

Definition isUpper (c : ascii) : bool := ((65 <=? code c) && (code c <=? 90))%nat.
Definition isLower (c : ascii) : bool := ((97 <=? code c) && (code c <=? 122))%nat.
Definition isDigit (c : ascii) : bool := ((48 <=? code c) && (code c <=? 57))%nat.
Definition isLetter (c : ascii) : bool := isUpper c || isLower c.

Definition toLowerChar (c : ascii) : ascii :=
  if isUpper c then ascii_of_nat (code c + 32) else c.

(** [strings.ToLower], on ASCII text: [A-Z] become [a-z] and every other
    byte is kept.  Go's function also lowers the letters outside ASCII;
    on a text with such letters the model and the code can differ. *)
Fixpoint ToLower (s : string) : string :=
  match s with
  | EmptyString => EmptyString
  | String c r => String (toLowerChar c) (ToLower r)
  end.

(** [strings.HasPrefix] *)
Fixpoint HasPrefix (s p : string) : bool :=
  match p, s with
  | EmptyString, _ => true
  | String _ _, EmptyString => false
  | String b q, String a r => Ascii.eqb a b && HasPrefix r q
  end.

(** [strings.Contains s substr] *)
Fixpoint Contains (s substr : string) : bool :=
  HasPrefix s substr ||
  match s with
  | EmptyString => false
  | String _ r => Contains r substr
  end.

(** The longest prefix of [s] whose characters satisfy [p], and the rest. *)
Fixpoint span (p : ascii -> bool) (s : string) : string * string :=
  match s with
  | EmptyString => (EmptyString, EmptyString)
  | String c r =>
      if p c then let '(a, b) := span p r in (String c a, b)
      else (EmptyString, s)
  end.

Fixpoint rev_acc (s acc : string) : string :=
  match s with
  | EmptyString => acc
  | String c r => rev_acc r (String c acc)
  end.
Definition rev (s : string) : string := rev_acc s EmptyString.

Definition TrimLeft (s : string) : string := snd (span isSpace s).

(** [strings.TrimSpace], on ASCII text: the six ASCII blanks are
    stripped at both ends.  Go's function also strips U+0085, U+00A0 and
    the other Unicode white space; on a text that starts or ends with
    one of these the model keeps what the code strips. *)
Definition TrimSpace (s : string) : string := rev (TrimLeft (rev (TrimLeft s))).

Fixpoint forallb (p : ascii -> bool) (s : string) : bool :=
  match s with
  | EmptyString => true
  | String c r => p c && forallb p r
  end.

End strings.

Module strconv.
Local Open Scope Z_scope.

Definition digitVal (c : ascii) : Z := Z.of_nat (strings.code c) - 48.

Fixpoint digits_acc (s : string) (acc : Z) : Z :=
  match s with
  | EmptyString => acc
  | String c r => digits_acc r (10 * acc + digitVal c)
  end.

Definition maxInt64 : Z := 9223372036854775807.
Definition minInt64 : Z := - 9223372036854775808.

(** [strconv.Atoi]: an optional sign, then one or more decimal digits; the
    value must fit a 64-bit [int].  [None] stands for the error. *)
Definition Atoi (s : string) : option Z :=
  let '(neg, body) :=
    match s with
    | String "-"%char r => (true, r)
    | String "+"%char r => (false, r)
    | _ => (false, s)
    end in
  match body with
  | EmptyString => None
  | _ =>
      if strings.forallb strings.isDigit body then
        let n := digits_acc body 0 in
        let v := if neg then - n else n in
        if (minInt64 <=? v) && (v <=? maxInt64) then Some v else None
      else None
  end.

End strconv.

(** ** Package [time], as far as [datefilter] uses it *)

Module time.
Local Open Scope Z_scope.

(** An instant, in nanoseconds since 1970-01-01T00:00:00Z. *)
Definition Time : Type := Z.

Definition Before (t u : Time) : bool := t <? u.
Definition After (t u : Time) : bool := u <? t.

Definition Month : Type := Z.
Definition January : Month := 1.
Definition February : Month := 2.
Definition March : Month := 3.
Definition April : Month := 4.
Definition May : Month := 5.
Definition June : Month := 6.
Definition July : Month := 7.
Definition August : Month := 8.
Definition September : Month := 9.
Definition October : Month := 10.
Definition November : Month := 11.
Definition December : Month := 12.

Definition isLeap (year : Z) : bool :=
  (year mod 4 =? 0) && (negb (year mod 100 =? 0) || (year mod 400 =? 0)).

(** [daysBefore[m]]: days of a non-leap year before month [m+1]. *)
Definition daysBefore (m : Z) : Z :=
  nth (Z.to_nat m) [0; 31; 59; 90; 120; 151; 181; 212; 243; 273; 304; 334; 365] 0.

Definition daysIn (m : Month) (year : Z) : Z :=
  if (m =? February) && isLeap year then 29
  else daysBefore m - daysBefore (m - 1).

(** Days from 0001-01-01 to the first of January of [year] in the
    proleptic Gregorian calendar. *)
Definition daysBeforeYear (year : Z) : Z :=
  let y := year - 1 in
  365 * y + y / 4 - y / 100 + y / 400.

Definition unixEpochDays : Z := 719162.  (* daysBeforeYear 1970 *)
Definition secondsPerDay : Z := 86400.
Definition nanosPerSecond : Z := 1000000000.

(** Day number (relative to the Unix epoch) that [time.Date] computes:
    the month overflows into the year, the day is then added as it is,
    so that a day outside the month spills into the neighbouring ones. *)
Definition dateDays (year : Z) (month : Month) (day : Z) : Z :=
  let m0 := month - 1 in
  let year' := year + m0 / 12 in
  let month' := m0 mod 12 + 1 in
  daysBeforeYear year' + daysBefore (month' - 1)
  + (if isLeap year' && (March <=? month') then 1 else 0)
  + (day - 1) - unixEpochDays.

(** [time.Date(year, month, day, 0, 0, 0, 0, time.UTC)] *)
Definition Date (year : Z) (month : Month) (day : Z) : Time :=
  dateDays year month day * secondsPerDay * nanosPerSecond.

(** The zero [time.Time{}]: 0001-01-01T00:00:00Z. *)
Definition zero : Time := Date 1 January 1.

(** [time.Parse("2006-01-02", s)]: four digits, '-', two digits, '-', two
    digits and nothing else; month 1..12 and a day that exists in that
    month.  The error value is its message class. *)
Inductive ParseError := errBad | errMonthRange | errDayRange | errExtra.

Definition take_digits (n : nat) (s : string) : option (string * string) :=
  let a := String.substring 0 n s in
  let b := String.substring n (String.length s - n) s in
  if (String.length a =? n)%nat && strings.forallb strings.isDigit a
  then Some (a, b) else None.

Definition expect (c : ascii) (s : string) : option string :=
  match s with
  | String d r => if Ascii.eqb c d then Some r else None
  | EmptyString => None
  end.

Definition Parse_2006_01_02 (s : string) : result ParseError Time :=
  match take_digits 4 s with
  | None => Err errBad
  | Some (ys, s1) =>
    match expect "-" s1 with
    | None => Err errBad
    | Some s2 =>
      match take_digits 2 s2 with
      | None => Err errBad
      | Some (ms, s3) =>
        let month := strconv.digits_acc ms 0 in
        if (month <=? 0) || (12 <? month) then Err errMonthRange else
        match expect "-" s3 with
        | None => Err errBad
        | Some s4 =>
          match take_digits 2 s4 with
          | None => Err errBad
          | Some (ds, s5) =>
            match s5 with
            | String _ _ => Err errExtra
            | EmptyString =>
              let year := strconv.digits_acc ys 0 in
              let day := strconv.digits_acc ds 0 in
              if (day <? 1) || (daysIn month year <? day) then Err errDayRange
              else Ok (Date year month day)
            end
          end
        end
      end
    end
  end.

End time.

(** ** Package [datefilter] *)

Module datefilter.
Local Open Scope string_scope.
Local Open Scope Z_scope.
Import time.

(** [type DateRange struct { From, To time.Time; Enabled bool }] *)
Record DateRange : Type := mkDateRange {
  From : Time;
  To : Time;
  Enabled : bool
}.

(** The errors built with [fmt.Errorf] in this package. *)
Inductive error : Type :=
| errInvalidFrom (e : ParseError)
| errInvalidTo (e : ParseError)
| errFromAfterTo (from to : string)
| errInvalidFormat (dateText : string)
| errInvalidDay (s : string)
| errInvalidMonth (s : string)
| errInvalidYear (s : string).

Definition isEmpty (s : string) : bool :=
  match s with EmptyString => true | _ => false end.

(** [NewDateRange(from, to)]; [now] is what [time.Now()] returns when the
    range is built. *)
Definition NewDateRange (now : Time) (from to : string)
  : result error DateRange :=
  if isEmpty from && isEmpty to then
    Ok (mkDateRange zero zero false)
  else
    match (if negb (isEmpty from) then
             match Parse_2006_01_02 from with
             | Ok d => Ok d
             | Err e => Err (errInvalidFrom e)
             end
           else Ok zero) with
    | Err e => Err e
    | Ok from1 =>
      match (if negb (isEmpty to) then
               match Parse_2006_01_02 to with
               | Ok d => Ok d
               | Err e => Err (errInvalidTo e)
               end
             else Ok zero) with
      | Err e => Err e
      | Ok to1 =>
        (* If only one date is specified, use sensible defaults *)
        let to2 := if negb (isEmpty from) && isEmpty to then now else to1 in
        let from2 :=
          if negb (isEmpty to) && isEmpty from then Date 1970 January 1
          else from1 in
        (* Validate range *)
        if After from2 to2 then Err (errFromAfterTo from to)
        else Ok (mkDateRange from2 to2 true)
      end
    end.

(** [monthMap] *)
Definition monthMap : list (string * Month) :=
  [ ("january", January); ("february", February); ("march", March);
    ("april", April); ("may", May); ("june", June); ("july", July);
    ("august", August); ("september", September); ("october", October);
    ("november", November); ("december", December) ].

Fixpoint lookup (k : string) (m : list (string * Month)) : option Month :=
  match m with
  | [] => None
  | (k', v) :: r => if String.eqb k k' then Some v else lookup k r
  end.

(** Character class [\s] of the regular expression: [\t\n\f\r ]. *)
Definition reSpace (c : ascii) : bool :=
  let n := strings.code c in
  ((n =? 9) || (n =? 10) || (n =? 12) || (n =? 13) || (n =? 32))%nat.

(** [datePattern.FindStringSubmatch]: the three groups of
    [^(\d{1,2})\s+([A-Za-z]+)(?:\s+(\d{4}))?$], the third one empty when
    the year is absent; [None] when the text does not match.  Every
    repetition is followed by a character outside its class, so the
    greedy reading below is the only possible match. *)
Definition datePattern (s : string) : option (string * string * string) :=
  let '(ds, r1) := strings.span strings.isDigit s in
  let '(day, r1) :=
    match ds with
    | String a (String b (String c t)) => (String a (String b EmptyString), String c (t ++ r1))
    | _ => (ds, r1)
    end in
  if isEmpty day then None else
  let '(ws, r2) := strings.span reSpace r1 in
  if isEmpty ws then None else
  let '(name, r3) := strings.span strings.isLetter r2 in
  if isEmpty name then None else
  if isEmpty r3 then Some (day, name, EmptyString) else
  let '(ws', r4) := strings.span reSpace r3 in
  if isEmpty ws' then None else
  match r4 with
  | String a (String b (String c (String d EmptyString))) =>
      if strings.isDigit a && strings.isDigit b && strings.isDigit c && strings.isDigit d
      then Some (day, name, r4) else None
  | _ => None
  end.

(** [ParseYandexDate(dateText)]; [nowYear] is [time.Now().Year()]. *)
Definition ParseYandexDate (nowYear : Z) (dateText : string)
  : result error Time :=
  let dateText := strings.TrimSpace dateText in
  match datePattern dateText with
  | None => Err (errInvalidFormat dateText)
  | Some (m1, m2, m3) =>
    match strconv.Atoi m1 with
    | None => Err (errInvalidDay m1)
    | Some day =>
      let monthName := strings.ToLower m2 in
      match lookup monthName monthMap with
      | None => Err (errInvalidMonth m2)
      | Some month =>
        if isEmpty m3 then Ok (Date nowYear month day)
        else
          match strconv.Atoi m3 with
          | None => Err (errInvalidYear m3)
          | Some year => Ok (Date year month day)
          end
      end
    end
  end.

(** [(dr *DateRange) IsInRange(dateText)] *)
Definition IsInRange (nowYear : Z) (dr : DateRange) (dateText : string)
  : result error bool :=
  if negb (Enabled dr) then Ok true
  else
    match ParseYandexDate nowYear dateText with
    | Err e => Err e
    | Ok parsedDate =>
      if Before parsedDate (From dr) then Ok false
      else if After parsedDate (To dr) then Ok false
      else Ok true
    end.

(** [(dr *DateRange) IsBeforeRange(dateText)] *)
Definition IsBeforeRange (nowYear : Z) (dr : DateRange) (dateText : string) : bool :=
  if negb (Enabled dr) then false
  else
    match ParseYandexDate nowYear dateText with
    | Err _ => false
    | Ok parsedDate => Before parsedDate (From dr)
    end.

(** [(dr *DateRange) IsAfterRange(dateText)] *)
Definition IsAfterRange (nowYear : Z) (dr : DateRange) (dateText : string) : bool :=
  if negb (Enabled dr) then false
  else
    match ParseYandexDate nowYear dateText with
    | Err _ => false
    | Ok parsedDate => After parsedDate (To dr)
    end.

End datefilter.

(** ** Go [error] values that reach the traversal loop *)

(** The two sentinel errors of package [context], and any other error,
    known by its message (what [err.Error()] returns). *)
Inductive error : Type :=
| context_Canceled
| context_DeadlineExceeded
| errorString (msg : string).

Definition Error (e : error) : string :=
  match e with
  | context_Canceled => "context canceled"
  | context_DeadlineExceeded => "context deadline exceeded"
  | errorString msg => msg
  end.

(** [fmt.Errorf(prefix + "%w", err)]: a new error value whose message is
    the prefix followed by the message of [err]. *)
Definition Errorf (prefix : string) (err : error) : error :=
  errorString (prefix ++ Error err).

(** ** Package [browser]: the fault classifier *)

Module browser.
Local Open Scope string_scope.

Definition closedPatterns : list string :=
  [ "context canceled";
    "context deadline exceeded";
    "websocket: close";
    "target closed";
    "browser: not connected";
    "session closed";
    "page closed";
    "connection refused";
    "broken pipe" ].

(** [IsBrowserClosed(err)]; [None] is the nil error. *)
Definition IsBrowserClosed (err : option error) : bool :=
  match err with
  | None => false
  | Some e =>
    let errMsg := Error e in
    match e with
    | context_Canceled | context_DeadlineExceeded => true
    | _ =>
      existsb (fun pattern => strings.Contains (strings.ToLower errMsg) pattern)
              closedPatterns
    end
  end.

End browser.

(** ** Package [navigation]: the scroll cursor *)

Module navigation.
Local Open Scope Q_scope.

(** [DefaultScrollAmount] *)
Definition DefaultScrollAmount : Q := 600.

(** The vertical amount handed to [window.scrollBy] by [ScrollDown]. *)
Definition ScrollDown_delta : Q := DefaultScrollAmount.

(** The vertical amount handed to [window.scrollBy] by
    [ScrollToPosition(yPosition)]: the script is [window.scrollBy(0, y - 50)]. *)
Definition ScrollToPosition_delta (yPosition : Q) : Q := yPosition - 50.

End navigation.

(** ** Package [report]: the counters of the final report *)

Module report.
Local Open Scope Z_scope.

(** [ErrorEntry] (the timestamp is left out). *)
Record ErrorEntry : Type := mkErrorEntry {
  DateInfo : string;
  Message : string
}.

(** [Stats] (start and end times are left out). *)
Record Stats : Type := mkStats {
  DatesProcessed : Z;
  DownloadsStarted : Z;
  DownloadsFailed : Z;
  SkippedDates : Z;
  Errors : list ErrorEntry
}.

Definition New : Stats := mkStats 0 0 0 0 [].

Definition AddError (s : Stats) (dateInfo message : string) : Stats :=
  mkStats (DatesProcessed s) (DownloadsStarted s) (DownloadsFailed s)
          (SkippedDates s) (Errors s ++ [mkErrorEntry dateInfo message]).

Definition IncrementDownloadsStarted (s : Stats) : Stats :=
  mkStats (DatesProcessed s) (DownloadsStarted s + 1) (DownloadsFailed s)
          (SkippedDates s) (Errors s).

Definition IncrementDownloadsFailed (s : Stats) : Stats :=
  mkStats (DatesProcessed s) (DownloadsStarted s) (DownloadsFailed s + 1)
          (SkippedDates s) (Errors s).

Definition IncrementDatesProcessed (s : Stats) : Stats :=
  mkStats (DatesProcessed s + 1) (DownloadsStarted s) (DownloadsFailed s)
          (SkippedDates s) (Errors s).

Definition IncrementSkippedDates (s : Stats) : Stats :=
  mkStats (DatesProcessed s) (DownloadsStarted s) (DownloadsFailed s)
          (SkippedDates s + 1) (Errors s).

End report.

(** ** Package [selection]: the group locator and the selection step *)

Module selection.
Local Open Scope string_scope.
Local Open Scope Q_scope.

(** [type DateInfo struct { Text string; YPosition float64 }] *)
Record DateInfo : Type := mkDateInfo {
  Text : string;
  YPosition : Q
}.

(** An element of the page as the locating script sees it: its text
    content and its box, the top edge in document coordinates (what
    [getBoundingClientRect().top] is when nothing has been scrolled). *)
Record Element : Type := mkElement {
  textContent : string;
  rectLeft : Q;
  docTop : Q;
  rectWidth : Q;
  rectHeight : Q
}.

(** The object [{text, x, y}] the locating script returns. *)
Record Candidate : Type := mkCandidate {
  c_text : string;
  c_x : Q;
  c_y : Q
}.

Definition monthNames : list string :=
  [ "january"; "february"; "march"; "april"; "may"; "june"; "july";
    "august"; "september"; "october"; "november"; "december" ].

(** The test [/^\d{1,2}\s+(January|...|December)$/i] of the script, with
    [\s] taken as the six ASCII blanks.  JavaScript's [\s] and [trim()]
    also take U+00A0 and the other Unicode spaces: a label written with
    one of these is located by the code and not by the model. *)
Definition isDateLabel (text : string) : bool :=
  let '(ds, r1) := strings.span strings.isDigit text in
  let '(day, r1) :=
    match ds with
    | String a (String b (String c t)) =>
        (String a (String b EmptyString), (String c (t ++ r1))%string)
    | _ => (ds, r1)
    end in
  if datefilter.isEmpty day then false else
  let '(ws, r2) := strings.span strings.isSpace r1 in
  if datefilter.isEmpty ws then false else
  existsb (String.eqb (strings.ToLower r2)) monthNames.

(** [rect.top] of an element once the window has been scrolled by [scrollY]. *)
Definition rectTop (scrollY : Q) (el : Element) : Q := docTop el - scrollY.

(** The scan band: [rect.top >= 80 && rect.top < innerHeight - 50 &&
    rect.width > 0]. *)
Definition inBand (innerHeight scrollY : Q) (el : Element) : bool :=
  Qle_bool 80 (rectTop scrollY el)
  && negb (Qle_bool (innerHeight - 50) (rectTop scrollY el))
  && negb (Qle_bool (rectWidth el) 0).

Definition candidate (scrollY : Q) (el : Element) : Candidate :=
  mkCandidate (strings.TrimSpace (textContent el)) (rectLeft el)
              (rectTop scrollY el + rectHeight el / 2).

(** [dates.sort((a, b) => a.y - b.y)]: a stable sort by [y]. *)
Fixpoint insertByY (a : Candidate) (l : list Candidate) : list Candidate :=
  match l with
  | [] => [a]
  | b :: r => if Qle_bool (c_y a) (c_y b) then a :: l else b :: insertByY a r
  end.

Fixpoint sortByY (l : list Candidate) : list Candidate :=
  match l with
  | [] => []
  | a :: r => insertByY a (sortByY r)
  end.

(** The locating script of [SelectFirstVisibleDate]: the date labels in
    the scan band, sorted by [y]; the first one, or [null]. *)
Definition firstVisibleDate (elements : list Element) (innerHeight scrollY : Q)
  : option Candidate :=
  let dates :=
    map (candidate scrollY)
        (filter (fun el => isDateLabel (strings.TrimSpace (textContent el))
                           && inBand innerHeight scrollY el) elements) in
  hd_error (sortByY dates).

(** What the browser answers to the four [chromedp.Run] calls of
    [SelectFirstVisibleDate]. *)
Record Answers : Type := mkAnswers {
  ansLocate : result error (option Candidate);
  ansHover : option error;
  ansClick : result error bool;
  ansFallback : option error
}.

(** [SelectFirstVisibleDate(ctx)] as a function of those answers; the
    pointer result is [None] for [nil]. *)
Definition SelectFirstVisibleDate (a : Answers)
  : result error (option DateInfo) :=
  match ansLocate a with
  | Err err => Err (Errorf "error fetching dates: " err)
  | Ok None => Ok None
  | Ok (Some dateInfo) =>
    let x := c_x dateInfo in
    let y := c_y dateInfo in
    let text := c_text dateInfo in
    (* Hover on left side to reveal checkbox *)
    let hoverX := if Qle_bool 10 (x - 30) then x - 30 else 10 in
    match ansHover a with
    | Some err => Err (Errorf "error moving mouse: " err)
    | None =>
      match ansClick a with
      | Err err => Err (Errorf "error clicking checkbox: " err)
      | Ok true => Ok (Some (mkDateInfo text y))
      | Ok false =>
        (* Fallback: click directly *)
        match ansFallback a with
        | None => Ok (Some (mkDateInfo text y))
        | Some _ => Ok None
        end
      end
    end
  end.

End selection.

(** ** The program [main.run]: calls, programs and their interpretation *)

(** The lines [run] writes with [log.Printf] and [log.Println]. *)
Inductive LogLine : Type :=
| logOpening
| logWarnConfigureDownloads (err : error)
| logWarnLoginStatus (err : error)
| logWarnNavigateAfterLogin (err : error)
| logLoggedIn
| logApplyingFilter
| logWarnFilter (err : error)
| logContinuingWithoutFilter
| logBrowserClosed
| logProcessingDate (n : Z)
| logErrorSelecting (err : error)
| logTooManyErrors (n : Z)
| logContextNoLongerValid
| logNoDateFound
| logWarnScrollFailed (err : error)
| logEndOfPhotos
| logDateFound (text : string)
| logCouldNotParse (text : string) (err : datefilter.error)
| logBeforeRange (text : string)
| logAfterRange (text : string)
| logWithinRange (text : string)
| logDateSelected (text : string)
| logDownloadError (err : error)
| logDownloadStarted
| logErrorDeselecting (attempt : Z) (err : error)
| logSelectionStillActive
| logDeselected
| logWarnScrollToPosition (err : error)
| logProcessingComplete.

(** Everything [run] does to the outside world, with the type of the
    answer: the functions of the other packages, the context check, the
    two deferred calls, sleeping and logging. *)
Inductive Call : Type -> Type :=
| log_Print (l : LogLine) : Call unit
| time_Sleep (milliseconds : Z) : Call unit
| browser_New : Call (option error)
| browser_Navigate : Call (option error)
| browser_ConfigureDownloads : Call (option error)
| auth_CheckLoginStatus : Call (result error bool)
| auth_WaitForLogin : Call (option error)
| navigation_FilterByUnlimitedStorage : Call (option error)
| browser_IsContextCanceled : Call bool
| selection_ClearPendingSelection : Call unit
| selection_SelectFirstVisibleDate : Call (result error (option selection.DateInfo))
| selection_Deselect : Call (option error)
| selection_HasActiveSelection : Call bool
| navigation_ScrollDown : Call (option error)
| navigation_ScrollToPosition (yPosition : Q) : Call (option error)
| download_ClickDownloadButton : Call (option error)
| stats_Print (s : report.Stats) : Call unit
| browserCtx_Close : Call unit.

(** A call together with its answer. *)
Inductive Event : Type :=
| Ev {R : Type} (c : Call R) (r : R).

Inductive Prog : Type -> Type :=
| Ret {A : Type} (a : A) : Prog A
| Do {R : Type} (c : Call R) : Prog R
| Bind {A B : Type} (p : Prog A) (k : A -> Prog B) : Prog B.

Declare Scope prog_scope.
Delimit Scope prog_scope with prog.
Notation "x <- p ;; k" := (Bind p (fun x => k))
  (at level 61, p at next level, right associativity) : prog_scope.
Notation "p ;; k" := (Bind p (fun _ => k))
  (at level 61, right associativity) : prog_scope.
Local Open Scope prog_scope.

Definition log (l : LogLine) : Prog unit := Do (log_Print l).
Definition sleep (ms : Z) : Prog unit := Do (time_Sleep ms).

(** The environment: a state and the answer it gives to every call. *)
Record Env : Type := mkEnv {
  World : Type;
  respond : forall R, Call R -> World -> R * World
}.

(** Running a program: its result, the final state of the environment
    and the calls made, in order. *)
Fixpoint interp (E : Env) {A} (p : Prog A) (w : World E)
  : A * World E * list Event :=
  match p with
  | Ret a => (a, w, [])
  | Do c => let '(r, w') := respond E c w in (r, w', [Ev c r])
  | Bind p k =>
      let '(a, w1, t1) := interp E p w in
      let '(b, w2, t2) := interp E (k a) w1 in
      (b, w2, t1 ++ t2)
  end.

Definition result_of {E A} (x : A * World E * list Event) : A := fst (fst x).
Definition world_of {E A} (x : A * World E * list Event) : World E := snd (fst x).
Definition trace_of {E A} (x : A * World E * list Event) : list Event := snd x.

(** ** Package [main]: the traversal loop of [run] *)

Module main.
Local Open Scope Z_scope.
Import report.

(** The variables of [run] that live across iterations. *)
Record LoopState : Type := mkLoopState {
  stats : Stats;
  emptyRounds : Z;
  consecutiveErrors : Z;
  currentDateInfo : string
}.

Definition maxConsecutiveErrors : Z := 3.

(** How an iteration ends: [break] or the next iteration ([continue] or
    the end of the body). *)
Inductive Step : Type :=
| Break (st : LoopState)
| Continue (st : LoopState).

Definition withStats (st : LoopState) (s : Stats) : LoopState :=
  mkLoopState s (emptyRounds st) (consecutiveErrors st) (currentDateInfo st).

(** The inner loop [for retry := 0; retry < 3; retry++]; [n] counts the
    iterations left, [retry] is the Go variable.  Its [break]s leave this
    loop only. *)
Fixpoint deselectRetry (n : nat) (retry : Z) : Prog unit :=
  match n with
  | O => Ret tt
  | S n' =>
    err <- Do selection_Deselect ;;
    if browser.IsBrowserClosed err then
      log logBrowserClosed
    else
      match err with
      | Some e => log (logErrorDeselecting (retry + 1) e)
      | None => Ret tt
      end ;;
      sleep 1000 ;;
      active <- Do selection_HasActiveSelection ;;
      if negb active then Ret tt
      else
        log logSelectionStillActive ;;
        deselectRetry n' (retry + 1)
  end.

(** One iteration of the [for] loop of [run]. *)
Definition body (nowYear : Z) (dateRange : datefilter.DateRange)
  (st : LoopState) : Prog Step :=
  (* Check if browser/context is still valid *)
  canceled <- Do browser_IsContextCanceled ;;
  if canceled then
    log logBrowserClosed ;; Ret (Break st)
  else
  log (logProcessingDate (DatesProcessed (stats st) + 1)) ;;
  (* Check for pending selection and clear it *)
  Do selection_ClearPendingSelection ;;
  (* Select the FIRST visible date (always the top one) *)
  r <- Do selection_SelectFirstVisibleDate ;;
  match r with
  | Err err =>
    (* Check if this is a fatal error (browser closed) *)
    if browser.IsBrowserClosed (Some err) then
      log logBrowserClosed ;; Ret (Break st)
    else
      log (logErrorSelecting err) ;;
      let st := mkLoopState (stats st) (emptyRounds st)
                            (consecutiveErrors st + 1) (currentDateInfo st) in
      if maxConsecutiveErrors <=? consecutiveErrors st then
        log (logTooManyErrors (consecutiveErrors st)) ;;
        (* Double-check if context is still valid *)
        canceled <- Do browser_IsContextCanceled ;;
        if canceled then
          log logContextNoLongerValid ;; Ret (Break st)
        else
          sleep 1000 ;; Ret (Continue st)
      else
        sleep 1000 ;; Ret (Continue st)
  | Ok dateInfo =>
    (* Reset on success *)
    let st := mkLoopState (stats st) (emptyRounds st) 0 (currentDateInfo st) in
    match dateInfo with
    | None =>
      log logNoDateFound ;;
      err <- Do navigation_ScrollDown ;;
      if browser.IsBrowserClosed err then
        log logBrowserClosed ;; Ret (Break st)
      else
        match err with
        | Some e => log (logWarnScrollFailed e)
        | None => Ret tt
        end ;;
        sleep 3000 ;;
        let st := mkLoopState (stats st) (emptyRounds st + 1)
                              (consecutiveErrors st) (currentDateInfo st) in
        if 5 <=? emptyRounds st then
          log logEndOfPhotos ;; Ret (Break st)
        else
          Ret (Continue st)
    | Some dateInfo =>
      let text := selection.Text dateInfo in
      let st := mkLoopState (stats st) 0 (consecutiveErrors st) text in
      log (logDateFound text) ;;
      (* Check if date is within the specified range *)
      let process (st : LoopState) : Prog Step :=
        log (logDateSelected text) ;;
        (* Click Download *)
        sleep 1500 ;;
        err <- Do download_ClickDownloadButton ;;
        if browser.IsBrowserClosed err then
          log logBrowserClosed ;; Ret (Break st)
        else
          st <- match err with
                | Some e =>
                  log (logDownloadError e) ;;
                  Ret (withStats st
                         (AddError (IncrementDownloadsFailed (stats st))
                                   (currentDateInfo st)
                                   ("Download failed: " ++ Error e)))
                | None =>
                  log logDownloadStarted ;;
                  Ret (withStats st (IncrementDownloadsStarted (stats st)))
                end ;;
          (* Wait for download to start *)
          sleep 4000 ;;
          (* Deselect *)
          deselectRetry 3 0 ;;
          (* Check again if browser is still open before continuing *)
          canceled <- Do browser_IsContextCanceled ;;
          if canceled then
            log logBrowserClosed ;; Ret (Break st)
          else
            log logDeselected ;;
            (* IMPORTANT: Scroll to move processed date off screen *)
            err <- Do (navigation_ScrollToPosition (selection.YPosition dateInfo)) ;;
            if browser.IsBrowserClosed err then
              log logBrowserClosed ;; Ret (Break st)
            else
              match err with
              | Some e => log (logWarnScrollToPosition e)
              | None => Ret tt
              end ;;
              sleep 1000 ;;
              Ret (Continue (withStats st (IncrementDatesProcessed (stats st))))
      in
      if datefilter.Enabled dateRange then
        match datefilter.IsInRange nowYear dateRange text with
        | Err err =>
          log (logCouldNotParse text err) ;;
          (* Continue processing anyway if date can't be parsed *)
          log (logWithinRange text) ;;
          process st
        | Ok false =>
          (* Check if we're past the range (dates are in reverse
             chronological order) *)
          if datefilter.IsBeforeRange nowYear dateRange text then
            log (logBeforeRange text) ;;
            (* Deselect before stopping *)
            Do selection_Deselect ;;
            Ret (Break st)
          else
            (* Date is after range, skip it and scroll *)
            log (logAfterRange text) ;;
            let st := withStats st (IncrementSkippedDates (stats st)) in
            Do selection_Deselect ;;
            sleep 500 ;;
            err <- Do (navigation_ScrollToPosition (selection.YPosition dateInfo)) ;;
            match err with
            | Some e => log (logWarnScrollFailed e)
            | None => Ret tt
            end ;;
            sleep 1000 ;;
            Ret (Continue st)
        | Ok true =>
          log (logWithinRange text) ;;
          process st
        end
      else
        process st
    end
  end.

(** How the loop is left. *)
Inductive LoopEnd : Type :=
| Finished (st : LoopState)      (* a [break] was reached *)
| StillRunning (st : LoopState). (* the bound on iterations was reached *)

(** The loop [for { ... }], cut after [fuel] iterations. *)
Fixpoint loop (fuel : nat) (nowYear : Z) (dateRange : datefilter.DateRange)
  (st : LoopState) : Prog LoopEnd :=
  match fuel with
  | O => Ret (StillRunning st)
  | S fuel' =>
    s <- body nowYear dateRange st ;;
    match s with
    | Break st' => Ret (Finished st')
    | Continue st' => loop fuel' nowYear dateRange st'
    end
  end.

(** How [run] ends. *)
Inductive RunEnd : Type :=
| Returned (err : error) (s : Stats) (* [return err], after the deferred calls *)
| Blocked (s : Stats)                (* the final [select {}] was reached *)
| Looping (st : LoopState).          (* the loop was cut by the bound *)

(** [run(profile, batchSize, execPath, downloadDir, dateRange)].  The two
    [defer]red calls, [stats.Print()] and then [browserCtx.Close()], are
    written out at each [return], last registered first.  After the loop
    the function logs and blocks on [select {}]; it does not return. *)
Definition run (fuel : nat) (nowYear : Z) (dateRange : datefilter.DateRange)
  : Prog RunEnd :=
  (* Initialize stats for final report *)
  let stats0 := New in
  (* Initialize browser *)
  err <- Do browser_New ;;
  match err with
  | Some e => Do (stats_Print stats0) ;; Ret (Returned e stats0)
  | None =>
    let returning (e : error) : Prog RunEnd :=
      Do browserCtx_Close ;; Do (stats_Print stats0) ;; Ret (Returned e stats0) in
    (* 1. Open page *)
    log logOpening ;;
    err <- Do browser_Navigate ;;
    match err with
    | Some e => returning e
    | None =>
      (* Configure download directory *)
      err <- Do browser_ConfigureDownloads ;;
      match err with
      | Some e => log (logWarnConfigureDownloads e)
      | None => Ret tt
      end ;;
      (* 2. Check login status *)
      r <- Do auth_CheckLoginStatus ;;
      isLoggedIn <- match r with
                    | Err e => log (logWarnLoginStatus e) ;; Ret false
                    | Ok b => Ret b
                    end ;;
      let continue_ : Prog RunEnd :=
        log logLoggedIn ;;
        (* 3. Apply filter to show only photos from unlimited storage *)
        log logApplyingFilter ;;
        err <- Do navigation_FilterByUnlimitedStorage ;;
        match err with
        | Some e => log (logWarnFilter e) ;; log logContinuingWithoutFilter
        | None => Ret tt
        end ;;
        (* Wait for page to update after filter *)
        sleep 2000 ;;
        (* 4. Main loop - process one date at a time *)
        e <- loop fuel nowYear dateRange (mkLoopState stats0 0 0 "") ;;
        match e with
        | StillRunning st => Ret (Looping st)
        | Finished st =>
          log logProcessingComplete ;;
          Ret (Blocked (stats st))
        end in
      if negb isLoggedIn then
        err <- Do auth_WaitForLogin ;;
        match err with
        | Some e => returning e
        | None =>
          (* Navigate to photos after successful login *)
          err <- Do browser_Navigate ;;
          match err with
          | Some e => log (logWarnNavigateAfterLogin e)
          | None => Ret tt
          end ;;
          continue_
        end
      else continue_
    end
  end.

End main.

(** ** Environments *)

(** *** A scripted browser

    A test double: for each function of the browser packages, the list
    of answers it will give, in order.  A function whose list is used up
    succeeds with the plain answer: no error, [false], signed in,
    nothing located.  Logging, sleeping, clearing a pending selection,
    printing the report and closing the session answer nothing. *)

Module scripted.

Record Script : Type := mkScript {
  sNew : list (option error);
  sNavigate : list (option error);
  sConfigureDownloads : list (option error);
  sCheckLoginStatus : list (result error bool);
  sWaitForLogin : list (option error);
  sFilter : list (option error);
  sIsContextCanceled : list bool;
  sSelect : list (result error (option selection.DateInfo));
  sDeselect : list (option error);
  sHasActiveSelection : list bool;
  sScrollDown : list (option error);
  sScrollToPosition : list (option error);
  sDownload : list (option error)
}.

(** The script on which nothing is scripted: every call succeeds. *)
Definition quiet : Script :=
  mkScript [] [] [] [] [] [] [] [] [] [] [] [] [].

Definition next {A} (default : A) (l : list A) : A * list A :=
  match l with
  | [] => (default, [])
  | a :: r => (a, r)
  end.

Definition respond (R : Type) (c : Call R) (w : Script) : R * Script :=
  match c in Call R return R * Script with
  | log_Print _ => (tt, w)
  | time_Sleep _ => (tt, w)
  | stats_Print _ => (tt, w)
  | browserCtx_Close => (tt, w)
  | selection_ClearPendingSelection => (tt, w)
  | browser_New =>
      let '(a, r) := next None (sNew w) in
      (a, mkScript r (sNavigate w) (sConfigureDownloads w) (sCheckLoginStatus w)
                   (sWaitForLogin w) (sFilter w) (sIsContextCanceled w) (sSelect w)
                   (sDeselect w) (sHasActiveSelection w) (sScrollDown w)
                   (sScrollToPosition w) (sDownload w))
  | browser_Navigate =>
      let '(a, r) := next None (sNavigate w) in
      (a, mkScript (sNew w) r (sConfigureDownloads w) (sCheckLoginStatus w)
                   (sWaitForLogin w) (sFilter w) (sIsContextCanceled w) (sSelect w)
                   (sDeselect w) (sHasActiveSelection w) (sScrollDown w)
                   (sScrollToPosition w) (sDownload w))
  | browser_ConfigureDownloads =>
      let '(a, r) := next None (sConfigureDownloads w) in
      (a, mkScript (sNew w) (sNavigate w) r (sCheckLoginStatus w)
                   (sWaitForLogin w) (sFilter w) (sIsContextCanceled w) (sSelect w)
                   (sDeselect w) (sHasActiveSelection w) (sScrollDown w)
                   (sScrollToPosition w) (sDownload w))
  | auth_CheckLoginStatus =>
      let '(a, r) := next (Ok true) (sCheckLoginStatus w) in
      (a, mkScript (sNew w) (sNavigate w) (sConfigureDownloads w) r
                   (sWaitForLogin w) (sFilter w) (sIsContextCanceled w) (sSelect w)
                   (sDeselect w) (sHasActiveSelection w) (sScrollDown w)
                   (sScrollToPosition w) (sDownload w))
  | auth_WaitForLogin =>
      let '(a, r) := next None (sWaitForLogin w) in
      (a, mkScript (sNew w) (sNavigate w) (sConfigureDownloads w) (sCheckLoginStatus w)
                   r (sFilter w) (sIsContextCanceled w) (sSelect w)
                   (sDeselect w) (sHasActiveSelection w) (sScrollDown w)
                   (sScrollToPosition w) (sDownload w))
  | navigation_FilterByUnlimitedStorage =>
      let '(a, r) := next None (sFilter w) in
      (a, mkScript (sNew w) (sNavigate w) (sConfigureDownloads w) (sCheckLoginStatus w)
                   (sWaitForLogin w) r (sIsContextCanceled w) (sSelect w)
                   (sDeselect w) (sHasActiveSelection w) (sScrollDown w)
                   (sScrollToPosition w) (sDownload w))
  | browser_IsContextCanceled =>
      let '(a, r) := next false (sIsContextCanceled w) in
      (a, mkScript (sNew w) (sNavigate w) (sConfigureDownloads w) (sCheckLoginStatus w)
                   (sWaitForLogin w) (sFilter w) r (sSelect w)
                   (sDeselect w) (sHasActiveSelection w) (sScrollDown w)
                   (sScrollToPosition w) (sDownload w))
  | selection_SelectFirstVisibleDate =>
      let '(a, r) := next (Ok None) (sSelect w) in
      (a, mkScript (sNew w) (sNavigate w) (sConfigureDownloads w) (sCheckLoginStatus w)
                   (sWaitForLogin w) (sFilter w) (sIsContextCanceled w) r
                   (sDeselect w) (sHasActiveSelection w) (sScrollDown w)
                   (sScrollToPosition w) (sDownload w))
  | selection_Deselect =>
      let '(a, r) := next None (sDeselect w) in
      (a, mkScript (sNew w) (sNavigate w) (sConfigureDownloads w) (sCheckLoginStatus w)
                   (sWaitForLogin w) (sFilter w) (sIsContextCanceled w) (sSelect w)
                   r (sHasActiveSelection w) (sScrollDown w)
                   (sScrollToPosition w) (sDownload w))
  | selection_HasActiveSelection =>
      let '(a, r) := next false (sHasActiveSelection w) in
      (a, mkScript (sNew w) (sNavigate w) (sConfigureDownloads w) (sCheckLoginStatus w)
                   (sWaitForLogin w) (sFilter w) (sIsContextCanceled w) (sSelect w)
                   (sDeselect w) r (sScrollDown w)
                   (sScrollToPosition w) (sDownload w))
  | navigation_ScrollDown =>
      let '(a, r) := next None (sScrollDown w) in
      (a, mkScript (sNew w) (sNavigate w) (sConfigureDownloads w) (sCheckLoginStatus w)
                   (sWaitForLogin w) (sFilter w) (sIsContextCanceled w) (sSelect w)
                   (sDeselect w) (sHasActiveSelection w) r
                   (sScrollToPosition w) (sDownload w))
  | navigation_ScrollToPosition _ =>
      let '(a, r) := next None (sScrollToPosition w) in
      (a, mkScript (sNew w) (sNavigate w) (sConfigureDownloads w) (sCheckLoginStatus w)
                   (sWaitForLogin w) (sFilter w) (sIsContextCanceled w) (sSelect w)
                   (sDeselect w) (sHasActiveSelection w) (sScrollDown w)
                   r (sDownload w))
  | download_ClickDownloadButton =>
      let '(a, r) := next None (sDownload w) in
      (a, mkScript (sNew w) (sNavigate w) (sConfigureDownloads w) (sCheckLoginStatus w)
                   (sWaitForLogin w) (sFilter w) (sIsContextCanceled w) (sSelect w)
                   (sDeselect w) (sHasActiveSelection w) (sScrollDown w)
                   (sScrollToPosition w) r)
  end.

Definition env : Env := mkEnv respond.

(** The script of a browser that presents the given groups, one per
    scan, and on which nothing fails. *)
Definition presents (groups : list selection.DateInfo) : Script :=
  mkScript [] [] [] [] [] [] [] (map (fun g => Ok (Some g)) groups)
           [] [] [] [] [].

End scripted.

(** *** A page of fixed date groups behind a scrolling window

    The page holds a fixed list of elements.  [SelectFirstVisibleDate]
    runs its locating script on them at the current scroll offset.
    Whether a call fails, and every other answer, is decided by an
    oracle, indexed by the number of calls answered so far; this holds
    for the two scroll functions as for the others.  A scroll that
    fails leaves the window where it is; one that succeeds moves it by
    the amount asked for (the page is long enough for the scroll to take
    full effect).  The page keeps a record of what
    [SelectFirstVisibleDate] handed to the loop: each [DateInfo] it
    returned, with the scroll offset of the window at that scan. *)

Module surface.
Local Open Scope Q_scope.

Record Fault : Type := mkFault {
  f_err : option error;
  f_bool : bool;
  f_locate : option error;
  f_hover : option error;
  f_click : result error bool;
  f_fallback : option error
}.

Definition Oracle : Type := nat -> Fault.

Record Page : Type := mkPage {
  elements : list selection.Element;
  innerHeight : Q;
  scrollY : Q;
  clock : nat;
  handed : list (selection.DateInfo * Q)
}.

Definition tick (w : Page) : Page :=
  mkPage (elements w) (innerHeight w) (scrollY w) (S (clock w)) (handed w).

Definition scrollBy (dy : Q) (w : Page) : Page :=
  mkPage (elements w) (innerHeight w) (scrollY w + dy) (S (clock w)) (handed w).

Definition answers (o : Oracle) (w : Page) : selection.Answers :=
  let f := o (clock w) in
  selection.mkAnswers
    (match f_locate f with
     | Some e => Err e
     | None => Ok (selection.firstVisibleDate (elements w) (innerHeight w) (scrollY w))
     end)
    (f_hover f) (f_click f) (f_fallback f).

Definition select (o : Oracle) (w : Page)
  : result error (option selection.DateInfo) * Page :=
  let r := selection.SelectFirstVisibleDate (answers o w) in
  (r,
   match r with
   | Ok (Some di) =>
       mkPage (elements w) (innerHeight w) (scrollY w) (S (clock w))
              (handed w ++ [(di, scrollY w)])
   | _ => tick w
   end).

(** [ScrollDown] and [ScrollToPosition]: [window.scrollBy(0, dy)]. *)
Definition scroll (o : Oracle) (dy : Q) (w : Page) : option error * Page :=
  match f_err (o (clock w)) with
  | Some e => (Some e, tick w)
  | None => (None, scrollBy dy w)
  end.

Definition respond (o : Oracle) (R : Type) (c : Call R) (w : Page) : R * Page :=
  match c in Call R return R * Page with
  | log_Print _ => (tt, tick w)
  | time_Sleep _ => (tt, tick w)
  | stats_Print _ => (tt, tick w)
  | browserCtx_Close => (tt, tick w)
  | selection_ClearPendingSelection => (tt, tick w)
  | browser_New => (f_err (o (clock w)), tick w)
  | browser_Navigate => (f_err (o (clock w)), tick w)
  | browser_ConfigureDownloads => (f_err (o (clock w)), tick w)
  | auth_CheckLoginStatus =>
      (match f_err (o (clock w)) with
       | Some e => Err e
       | None => Ok (f_bool (o (clock w)))
       end, tick w)
  | auth_WaitForLogin => (f_err (o (clock w)), tick w)
  | navigation_FilterByUnlimitedStorage => (f_err (o (clock w)), tick w)
  | browser_IsContextCanceled => (f_bool (o (clock w)), tick w)
  | selection_SelectFirstVisibleDate => select o w
  | selection_Deselect => (f_err (o (clock w)), tick w)
  | selection_HasActiveSelection => (f_bool (o (clock w)), tick w)
  | navigation_ScrollDown => scroll o navigation.ScrollDown_delta w
  | navigation_ScrollToPosition y => scroll o (navigation.ScrollToPosition_delta y) w
  | download_ClickDownloadButton => (f_err (o (clock w)), tick w)
  end.

Definition env (o : Oracle) : Env := mkEnv (respond o).

(** The oracle of a browser on which nothing fails. *)
Definition quiet : Oracle :=
  fun _ => mkFault None false None None (Ok true) None.

End surface.

(** ** What is observed on a trace *)

Module trace.
Local Open Scope Q_scope.

(** The amount a call scrolls the window by, when it is a scroll. *)
Definition scroll_delta (ev : Event) : option Q :=
  match ev with
  | Ev navigation_ScrollDown _ => Some navigation.ScrollDown_delta
  | Ev (navigation_ScrollToPosition y) _ =>
      Some (navigation.ScrollToPosition_delta y)
  | _ => None
  end.

(** The cumulative scroll offset asked for by the calls of a trace. *)
Fixpoint scrolled (t : list Event) : Q :=
  match t with
  | [] => 0
  | ev :: r =>
      match scroll_delta ev with
      | Some d => d + scrolled r
      | None => scrolled r
      end
  end.

Definition is_report (ev : Event) : bool :=
  match ev with Ev (stats_Print _) _ => true | _ => false end.

Definition is_close (ev : Event) : bool :=
  match ev with Ev browserCtx_Close _ => true | _ => false end.

Definition reports (t : list Event) : nat := List.length (filter is_report t).
Definition closes (t : list Event) : nat := List.length (filter is_close t).

End trace.

Unset Implicit Arguments.

(** ** A weakest-precondition reading of programs

    [wp E p Q w]: running [p] in environment [E] from state [w] ends
    with a result, a state and a trace that satisfy [Q]. *)
Fixpoint wp (E : Env) {A} (p : Prog A)
  : (A -> World E -> list Event -> Prop) -> World E -> Prop :=
  match p in Prog A return (A -> World E -> list Event -> Prop) -> World E -> Prop with
  | Ret a => fun Q w => Q a w []
  | Do c => fun Q w =>
      Q (fst (respond E c w)) (snd (respond E c w)) [Ev c (fst (respond E c w))]
  | Bind p k => fun Q w =>
      wp E p (fun a w1 t1 => wp E (k a) (fun b w2 t2 => Q b w2 (t1 ++ t2)) w1) w
  end.

(** ** The statements of the specification *)

(** *** Date labels *)

(** Labels of the shape the date pattern accepts: one or two digits,
    spaces, letters and, optionally, spaces and four digits. *)
Module label.
Local Open Scope string_scope.

Definition nonEmpty (s : string) : bool := negb (datefilter.isEmpty s).

Definition YearPart : Type := option (string * string).

Definition suffix (yp : YearPart) : string :=
  match yp with
  | None => ""
  | Some (ws, ys) => ws ++ ys
  end.

Definition make (day ws name : string) (yp : YearPart) : string :=
  day ++ ws ++ name ++ suffix yp.

Definition shape (day ws name : string) (yp : YearPart) : bool :=
  ((String.length day =? 1) || (String.length day =? 2))%nat
  && strings.forallb strings.isDigit day
  && nonEmpty ws && strings.forallb datefilter.reSpace ws
  && nonEmpty name && strings.forallb strings.isLetter name
  && match yp with
     | None => true
     | Some (ws', ys) =>
       nonEmpty ws' && strings.forallb datefilter.reSpace ws'
       && (String.length ys =? 4)%nat && strings.forallb strings.isDigit ys
     end.

Definition yearOf (nowYear : Z) (yp : YearPart) : Z :=
  match yp with
  | None => nowYear
  | Some (_, ys) => strconv.digits_acc ys 0
  end.

(** The text [s] is empty or starts with a character outside [p]. *)
Definition starts_outside (p : ascii -> bool) (s : string) : Prop :=
  match s with
  | EmptyString => True
  | String c _ => p c = false
  end.

End label.

Module examples.
Local Open Scope string_scope.

(** The range from 2024-06-01 to 2024-06-30. *)
Definition june2024 : datefilter.DateRange :=
  datefilter.mkDateRange (time.Date 2024 time.June 1)
                         (time.Date 2024 time.June 30) true.

(** The range of a run without date filter. *)
Definition allDates : datefilter.DateRange :=
  datefilter.mkDateRange time.zero time.zero false.

(** The variables of the loop when [run] enters it. *)
Definition start : main.LoopState := main.mkLoopState report.New 0 0 "".

Definition threeGroups (y1 y2 y3 : Q) : list selection.DateInfo :=
  [ selection.mkDateInfo "5 June 2024" y1;
    selection.mkDateInfo "1 June 2024" y2;
    selection.mkDateInfo "25 May 2024" y3 ].

(** An error that [IsBrowserClosed] classifies as fatal. *)
Definition websocketClosed : error :=
  errorString "websocket: close 1006 (abnormal closure): unexpected EOF".

(** A browser that presents one group and fails the first [Deselect]
    with that error, while the context is not cancelled. *)
Definition fatalDeselect : scripted.Script :=
  scripted.mkScript [] [] [] [] [] [] []
    [Ok (Some (selection.mkDateInfo "12 January" 100))]
    [Some websocketClosed] [] [] [] [].

(** An error that [IsBrowserClosed] does not classify as fatal. *)
Definition nodeDetached : error := errorString "exception: node is detached".

(** A browser on which nothing fails but the call answered at [n]. *)
Definition failsAt (n : nat) (e : error) : surface.Oracle :=
  fun k =>
    if Nat.eqb k n then surface.mkFault (Some e) false None None (Ok true) None
    else surface.quiet k.

(** A page with two groups. *)
Definition twoGroups : list selection.Element :=
  [ selection.mkElement "12 January" 40 100 200 20;
    selection.mkElement "11 January" 40 400 200 20 ].

(** A page that shows the three groups of the early stop, labelled with
    their year, and the same page with the labels of the current year. *)
Definition page2024 : list selection.Element :=
  [ selection.mkElement "5 June 2024" 40 100 200 20;
    selection.mkElement "1 June 2024" 40 400 200 20;
    selection.mkElement "25 May 2024" 40 700 200 20 ].

Definition pageThisYear : list selection.Element :=
  [ selection.mkElement "5 June" 40 100 200 20;
    selection.mkElement "1 June" 40 400 200 20;
    selection.mkElement "25 May" 40 700 200 20 ].

(** A page with two groups of the same label, a year apart, another
    group between them and a title. *)
Definition page : list selection.Element :=
  [ selection.mkElement "12 January" 40 100 200 20;
    selection.mkElement " 11 January " 40 400 200 20;
    selection.mkElement "Photos" 40 500 200 20;
    selection.mkElement "12 January" 40 700 200 20 ].

End examples.

(** *** Dates *)

Module as_stated.
Import time datefilter.
Local Open Scope string_scope.
Local Open Scope Z_scope.

Definition nanosPerDay : Z := secondsPerDay * nanosPerSecond.

(** "The lower bound of a range without a from date is the earliest
    representable date": no label denotes an earlier date. *)
Definition from_is_earliest_date : Prop :=
  forall now dr,
    NewDateRange now "" "2023-12-31" = Ok dr ->
    forall nowYear text t,
      ParseYandexDate nowYear text = Ok t -> From dr <= t.

(** "A day that does not exist in the month is normalized into the
    following month". *)
Definition overflows_into_following_month : Prop :=
  forall nowYear day ws name yp m,
    label.shape day ws name yp = true ->
    lookup (strings.ToLower name) monthMap = Some m ->
    let d := strconv.digits_acc day 0 in
    let year := label.yearOf nowYear yp in
    d < 1 \/ daysIn m year < d ->
    exists t,
      ParseYandexDate nowYear (label.make day ws name yp) = Ok t
      /\ Date year (m + 1) 1 <= t < Date year (m + 2) 1.

(** "Whenever [run] is past its loop, the report has been printed once
    and the session has been closed once". *)
Definition report_and_close_exactly_once : Prop :=
  forall (E : Env) fuel nowYear dateRange (w : World E) s,
    result_of (interp E (main.run fuel nowYear dateRange) w) = main.Blocked s ->
    trace.reports (trace_of (interp E (main.run fuel nowYear dateRange) w)) = 1%nat
    /\ trace.closes (trace_of (interp E (main.run fuel nowYear dateRange) w)) = 1%nat.

End as_stated.

(** *** The fault classifier *)

Module classifier.
Local Open Scope string_scope.

(** What the specification calls an error of a session that has ended:
    one of the two context errors, or a message that contains, whatever
    the case of its letters, one of the patterns. *)
Definition sessionEnded (e : error) : Prop :=
  e = context_Canceled \/ e = context_DeadlineExceeded \/
  exists pattern pre post,
    In pattern browser.closedPatterns
    /\ strings.ToLower (Error e) = pre ++ pattern ++ post.

End classifier.

(** *** The scroll cursor *)

Module cursor.
Local Open Scope Q_scope.

(** The group located by this call, if any, lies in the scan band: the
    script only offers elements whose top is at 80 or below it, and the
    position it reports is the middle of the element. *)
Definition located_in_band (ev : Event) : Prop :=
  match ev with
  | Ev selection_SelectFirstVisibleDate (Ok (Some di)) => 80 <= selection.YPosition di
  | _ => True
  end.

(** This call, if it scrolls, scrolls forward. *)
Definition scrolls_forward (ev : Event) : Prop :=
  match trace.scroll_delta ev with
  | Some d => 0 < d
  | None => True
  end.

(** The calls of a trace that scroll the window. *)
Definition scrolls (t : list Event) : list Event :=
  filter (fun ev => match trace.scroll_delta ev with Some _ => true | None => false end) t.

(** The calls of a trace that click the download button. *)
Definition downloads (t : list Event) : list Event :=
  filter (fun ev => match ev with
                    | Ev download_ClickDownloadButton _ => true
                    | _ => false
                    end) t.

(** Date groups the loop was handed by [SelectFirstVisibleDate], as the
    trace shows them. *)
Fixpoint located (t : list Event) : list selection.DateInfo :=
  match t with
  | [] => []
  | Ev selection_SelectFirstVisibleDate (Ok (Some di)) :: r => di :: located r
  | _ :: r => located r
  end.

(** The calls of the inner de-selection loop: [Deselect],
    [HasActiveSelection], sleeping and three log lines. *)
Definition quiet_event (ev : Event) : Prop :=
  match ev with
  | Ev selection_Deselect _ => True
  | Ev selection_HasActiveSelection _ => True
  | Ev (time_Sleep _) _ => True
  | Ev (log_Print l) _ =>
      match l with
      | logBrowserClosed | logErrorDeselecting _ _ | logSelectionStillActive => True
      | _ => False
      end
  | _ => False
  end.

(** A trace on which the report is not printed and the session is not
    closed. *)
Definition untouched (t : list Event) : Prop :=
  trace.closes t = 0%nat /\ trace.reports t = 0%nat.

Definition ends_with (ev : Event) (t : list Event) : Prop :=
  exists t', t = t' ++ [ev].

End cursor.

(** *** Fatal answers *)

Module fatal.

(** An answer that the loop submits to [IsBrowserClosed] and that is
    classified as fatal, at the three calls where the answer alone tells
    so: locating a date, scrolling down, clicking the download button.
    ([ScrollToPosition] is classified after a download and not after a
    skipped date; [Deselect] is the subject of
    [fatal_deselect_keeps_going].) *)
Definition classified_fatal (ev : Event) : bool :=
  match ev with
  | Ev selection_SelectFirstVisibleDate (Err e) => browser.IsBrowserClosed (Some e)
  | Ev navigation_ScrollDown err => browser.IsBrowserClosed err
  | Ev download_ClickDownloadButton err => browser.IsBrowserClosed err
  | _ => false
  end.

(** After a fatal answer the loop only logs that the browser was closed. *)
Definition stops_after (ev : Event) (rest : list Event) : Prop :=
  classified_fatal ev = true -> rest = [Ev (log_Print logBrowserClosed) tt].

Fixpoint fatal_stops (t : list Event) : Prop :=
  match t with
  | [] => True
  | ev :: rest => stops_after ev rest /\ fatal_stops rest
  end.

Definition no_fatal (t : list Event) : Prop :=
  Forall (fun ev => classified_fatal ev = false) t.

End fatal.

(** *** Labels that do not parse *)

Module conservatism.

(** What the loop does next with a located group whose label does not
    parse: it logs the failure, treats the group as within the range and
    goes on to click the download button. *)
Definition processed_anyway (di : selection.DateInfo) (e : datefilter.error)
  (rest : list Event) : Prop :=
  exists r rest',
    rest = [ Ev (log_Print (logDateFound (selection.Text di))) tt;
             Ev (log_Print (logCouldNotParse (selection.Text di) e)) tt;
             Ev (log_Print (logWithinRange (selection.Text di))) tt;
             Ev (log_Print (logDateSelected (selection.Text di))) tt;
             Ev (time_Sleep 1500) tt;
             Ev download_ClickDownloadButton r ] ++ rest'.

Definition after_location (nowYear : Z) (ev : Event) (rest : list Event) : Prop :=
  match ev with
  | Ev selection_SelectFirstVisibleDate (Ok (Some di)) =>
      forall e, datefilter.ParseYandexDate nowYear (selection.Text di) = Err e ->
                processed_anyway di e rest
  | _ => True
  end.

(** Every located group of the trace with an unparseable label is
    followed by the steps of [processed_anyway]. *)
Fixpoint conservative (nowYear : Z) (t : list Event) : Prop :=
  match t with
  | [] => True
  | ev :: rest => after_location nowYear ev rest /\ conservative nowYear rest
  end.

End conservatism.

(** *** Groups handed over at most once *)

Module once.
Local Open Scope Q_scope.


(** The pair of label and vertical position that the loop receives, the
    position in lowest terms: two pairs are equal when the labels are
    the same text and the positions the same number. *)
Definition pair (di : selection.DateInfo) : string * Q :=
  (selection.Text di, Qred (selection.YPosition di)).

(** Where a group handed over stands on the page: its position in the
    window plus the scroll offset of the window at that scan. *)
Definition position (h : selection.DateInfo * Q) : Q :=
  snd h + selection.YPosition (fst h).




(** The call is not a scroll that failed. *)
Definition scroll_succeeded (ev : Event) : bool :=
  match ev with
  | Ev navigation_ScrollDown (Some _) => false
  | Ev (navigation_ScrollToPosition _) (Some _) => false
  | _ => true
  end.

(** The label of a group with its place on the page, in lowest terms. *)
Definition placed (h : selection.DateInfo * Q) : string * Q :=
  (selection.Text (fst h), Qred (position h)).





End once.

(** ** Errors wrapped on their way to the loop *)

Module wrapping.
Local Open Scope string_scope.

(** [ScrollDown(ctx)] of package [navigation], as a function of what
    [chromedp.Run] answers. *)
Definition ScrollDown (answer : option error) : option error :=
  match answer with
  | Some err => Some (Errorf "scroll down failed: " err)
  | None => None
  end.

(** [ScrollToPosition(ctx, yPosition)], likewise; the line it logs when
    the call succeeds is left out. *)
Definition ScrollToPosition (yPosition : Q) (answer : option error) : option error :=
  match answer with
  | Some err => Some (Errorf "scroll failed: " err)
  | None => None
  end.

(** The error of the [chromedp.Run] call that made
    [SelectFirstVisibleDate] fail, if one did. *)
Definition underlying (a : selection.Answers) : option error :=
  match selection.ansLocate a with
  | Err err => Some err
  | Ok None => None
  | Ok (Some _) =>
    match selection.ansHover a with
    | Some err => Some err
    | None =>
      match selection.ansClick a with
      | Err err => Some err
      | Ok _ => None
      end
    end
  end.

(** [a] and [p] agree as far as both go: one is a prefix of the other. *)
Fixpoint agree (a p : string) : bool :=
  match a, p with
  | EmptyString, _ => true
  | _, EmptyString => true
  | String x a', String y p' => Ascii.eqb x y && agree a' p'
  end.

(** No occurrence of [p] can start inside [pre], whatever follows [pre]. *)
Fixpoint clear (pre p : string) : bool :=
  match pre with
  | EmptyString => true
  | String _ r => negb (agree pre p) && clear r p
  end.

(** The prefixes put before an error by [SelectFirstVisibleDate],
    [ScrollDown] and [ScrollToPosition]. *)
Definition prefixes : list string :=
  [ "error fetching dates: "; "error moving mouse: "; "error clicking checkbox: ";
    "scroll down failed: "; "scroll failed: " ].

End wrapping.

(** *** Calendar days *)

Module calendar.
Local Open Scope Z_scope.

(** A day of the calendar: year, month, day. *)
Definition Day : Type := (Z * Z * Z)%type.

(** The day exists: a month from 1 to 12 and a day of that month. *)
Definition valid (c : Day) : bool :=
  let '(y, m, d) := c in
  (1 <=? m) && (m <=? 12) && (1 <=? d) && (d <=? time.daysIn m y).

(** The order of the calendar: by year, then month, then day. *)
Definition leb (a b : Day) : bool :=
  let '(y1, m1, d1) := a in
  let '(y2, m2, d2) := b in
  (y1 <? y2) || ((y1 =? y2) && ((m1 <? m2) || ((m1 =? m2) && (d1 <=? d2)))).

(** The day that a text of the form YYYY-MM-DD names. *)
Definition ofText (s : string) : Day :=
  (strconv.digits_acc (String.substring 0 4 s) 0,
   strconv.digits_acc (String.substring 5 2 s) 0,
   strconv.digits_acc (String.substring 8 2 s) 0).

End calendar.

(** *** What the date filter lets through *)

Module filtering.

(** Whether the download button is clicked before the page is scanned
    again. *)
Fixpoint clicked_before_next_scan (t : list Event) : bool :=
  match t with
  | [] => false
  | Ev download_ClickDownloadButton _ :: _ => true
  | Ev selection_SelectFirstVisibleDate _ :: _ => false
  | _ :: r => clicked_before_next_scan r
  end.

Definition kept_out (nowYear : Z) (dr : datefilter.DateRange)
  (ev : Event) (rest : list Event) : Prop :=
  match ev with
  | Ev selection_SelectFirstVisibleDate (Ok (Some di)) =>
      datefilter.IsInRange nowYear dr (selection.Text di) = Ok false ->
      clicked_before_next_scan rest = false
  | _ => True
  end.

(** No group found outside the range is downloaded. *)
Fixpoint safe (nowYear : Z) (dr : datefilter.DateRange) (t : list Event) : Prop :=
  match t with
  | [] => True
  | ev :: rest => kept_out nowYear dr ev rest /\ safe nowYear dr rest
  end.

(** The steps from a located group to the click on the download button. *)
Definition steps_to_download (dr : datefilter.DateRange) (text : string)
  (r : option error) : list Event :=
  [ Ev (log_Print (logDateFound text)) tt ]
  ++ (if datefilter.Enabled dr then [ Ev (log_Print (logWithinRange text)) tt ] else [])
  ++ [ Ev (log_Print (logDateSelected text)) tt;
       Ev (time_Sleep 1500) tt;
       Ev download_ClickDownloadButton r ].

Definition let_through (nowYear : Z) (dr : datefilter.DateRange)
  (ev : Event) (rest : list Event) : Prop :=
  match ev with
  | Ev selection_SelectFirstVisibleDate (Ok (Some di)) =>
      datefilter.IsInRange nowYear dr (selection.Text di) = Ok true ->
      exists r rest', rest = steps_to_download dr (selection.Text di) r ++ rest'
  | _ => True
  end.

(** Every group found within the range is downloaded. *)
Fixpoint complete (nowYear : Z) (dr : datefilter.DateRange) (t : list Event) : Prop :=
  match t with
  | [] => True
  | ev :: rest => let_through nowYear dr ev rest /\ complete nowYear dr rest
  end.

(** A group older than the range has been located. *)
Definition before_range (nowYear : Z) (dr : datefilter.DateRange) (ev : Event) : bool :=
  match ev with
  | Ev selection_SelectFirstVisibleDate (Ok (Some di)) =>
      datefilter.IsBeforeRange nowYear dr (selection.Text di)
  | _ => false
  end.

(** What the loop still does once it has located such a group. *)
Definition last_steps (ev : Event) (rest : list Event) : Prop :=
  match ev with
  | Ev selection_SelectFirstVisibleDate (Ok (Some di)) =>
      exists r,
        rest = [ Ev (log_Print (logDateFound (selection.Text di))) tt;
                 Ev (log_Print (logBeforeRange (selection.Text di))) tt;
                 Ev selection_Deselect r ]
  | _ => True
  end.

Fixpoint stops (nowYear : Z) (dr : datefilter.DateRange) (t : list Event) : Prop :=
  match t with
  | [] => True
  | ev :: rest =>
      (before_range nowYear dr ev = true -> last_steps ev rest)
      /\ stops nowYear dr rest
  end.

Definition none_before (nowYear : Z) (dr : datefilter.DateRange) (t : list Event) : Prop :=
  Forall (fun ev => before_range nowYear dr ev = false) t.

End filtering.

(** *** The counters of the report against the trace *)

Module accounting.
Local Open Scope Z_scope.

Fixpoint count (f : Event -> bool) (t : list Event) : Z :=
  match t with
  | [] => 0
  | ev :: r => (if f ev then 1 else 0) + count f r
  end.

(** A click on the download button that succeeded. *)
Definition is_started (ev : Event) : bool :=
  match ev with
  | Ev download_ClickDownloadButton None => true
  | _ => false
  end.

(** A click on the download button that failed with an error that is
    not fatal. *)
Definition is_failed (ev : Event) : bool :=
  match ev with
  | Ev download_ClickDownloadButton (Some e) => negb (browser.IsBrowserClosed (Some e))
  | _ => false
  end.

(** The log line of a group skipped because it is after the range. *)
Definition is_skipped (ev : Event) : bool :=
  match ev with
  | Ev (log_Print (logAfterRange _)) _ => true
  | _ => false
  end.

Definition started (t : list Event) : Z := count is_started t.
Definition failed (t : list Event) : Z := count is_failed t.
Definition skipped (t : list Event) : Z := count is_skipped t.

(** The statistics [s'] are [s] plus what the trace [t] shows; [slack]
    is the number of groups downloaded but not counted as processed. *)
Definition accounted (s s' : report.Stats) (t : list Event) (slack : Z) : Prop :=
  report.DownloadsStarted s' = report.DownloadsStarted s + started t
  /\ report.DownloadsFailed s' = report.DownloadsFailed s + failed t
  /\ report.SkippedDates s' = report.SkippedDates s + skipped t
  /\ report.DatesProcessed s' + slack = report.DatesProcessed s + started t + failed t
  /\ exists new,
       report.Errors s' = report.Errors s ++ new
       /\ Z.of_nat (List.length new) = failed t
       /\ Forall (fun en => strings.HasPrefix (report.Message en) "Download failed: " = true)
                 new.

Definition final (e : main.LoopEnd) : report.Stats :=
  match e with
  | main.Finished st => main.stats st
  | main.StillRunning st => main.stats st
  end.

End accounting.

(** *** The end of the photos *)

Module exhaustion.
Local Open Scope Z_scope.

(** The number of scans in a row that found no date, starting from [n]:
    a scan that finds a date sets it back to zero, a scan that fails
    leaves it as it is. *)
Fixpoint streak (n : Z) (t : list Event) : Z :=
  match t with
  | [] => n
  | Ev selection_SelectFirstVisibleDate (Ok None) :: r => streak (n + 1) r
  | Ev selection_SelectFirstVisibleDate (Ok (Some _)) :: r => streak 0 r
  | _ :: r => streak n r
  end.

Definition is_end (ev : Event) : bool :=
  match ev with
  | Ev (log_Print logEndOfPhotos) _ => true
  | _ => false
  end.

(** The loop has logged "End of photos!". *)
Definition ended (t : list Event) : bool := existsb is_end t.

End exhaustion.

(** *** Scans that keep failing *)

Module persistence.

(** Nothing but failed scans, none of them fatal, and a context that is
    not cancelled. *)
Definition calm (ev : Event) : bool :=
  match ev with
  | Ev selection_SelectFirstVisibleDate (Err e) => negb (browser.IsBrowserClosed (Some e))
  | Ev selection_SelectFirstVisibleDate (Ok _) => false
  | Ev browser_IsContextCanceled b => negb b
  | _ => true
  end.

Definition is_scan (ev : Event) : bool :=
  match ev with
  | Ev selection_SelectFirstVisibleDate _ => true
  | _ => false
  end.

End persistence.

(** *** The set-up of [run] *)

Module setup.

(** The three calls whose failure makes [run] return. *)
Definition cause (e : error) (ev : Event) : Prop :=
  ev = Ev browser_New (Some e)
  \/ ev = Ev browser_Navigate (Some e)
  \/ ev = Ev auth_WaitForLogin (Some e).

(** The deferred calls that run when [run] returns after [ev] failed:
    the session is closed if it was opened, then the report is printed. *)
Definition teardown (ev : Event) : list Event :=
  match ev with
  | Ev browser_New _ => [ Ev (stats_Print report.New) tt ]
  | _ => [ Ev browserCtx_Close tt; Ev (stats_Print report.New) tt ]
  end.

End setup.

(** ** Package [auth]: is the user signed in? *)

Module auth.

(** What the browser answers to the three [chromedp.Run] calls of
    [CheckLoginStatus]: the location of the page, whether the page shows
    an element of the login form, whether it shows two elements at
    least of Yandex Disk. *)
Record Answers : Type := mkAnswers {
  ansLocation : result error string;
  ansLoginPage : result error bool;
  ansDiskElements : result error bool
}.

(** The lines [CheckLoginStatus] and [WaitForLogin] log. *)
Inductive LogLine : Type :=
| logLoginPageDetected (url : string)
| logLoginElementsDetected
| logWarnDiskElements (err : error)
| logDiskElementsDetected
| logCouldNotConfirm
| logNotLoggedIn
| logPleaseLogIn
| logWaitingForLogin
| logWarnLoginCheck (err : error)
| logLoginDetected
| logStillWaiting.

(** [CheckLoginStatus(ctx)]: the result, and the lines logged. *)
Definition CheckLoginStatus (a : Answers) : result error bool * list LogLine :=
  (* First check URL *)
  match ansLocation a with
  | Err err => (Err (Errorf "could not get current URL: " err), [])
  | Ok url =>
    (* If URL contains passport or auth, definitely not logged in *)
    if strings.Contains url "passport" || strings.Contains url "auth" then
      (Ok false, [logLoginPageDetected url])
    else
      (* Check for login page elements in the DOM *)
      match ansLoginPage a with
      | Err err => (Err (Errorf "could not check login elements: " err), [])
      | Ok true => (Ok false, [logLoginElementsDetected])
      | Ok false =>
        (* Additional check: verify Yandex Disk elements are present *)
        match ansDiskElements a with
        | Err err =>
            (* If we can't verify but URL looks OK, assume logged in *)
            (Ok true, [logWarnDiskElements err])
        | Ok true => (Ok true, [logDiskElementsDetected])
        | Ok false => (Ok false, [logCouldNotConfirm])
        end
      end
  end.

(** What wakes the [select] of [WaitForLogin]: the timer of
    [LoginTimeout], or a tick of [LoginCheckInterval], on which the
    login is checked with the answers the browser then gives. *)
Inductive Wake : Type :=
| Expired
| Tick (a : Answers).

Definition errLoginTimeout : error :=
  errorString "login timeout: user did not log in within 5m0s".

(** The loop of [WaitForLogin] on the wakes to come: [Some] of what is
    returned, or [None] when they are used up and the function still
    waits. *)
Fixpoint waiting (wakes : list Wake) : option (option error) * list LogLine :=
  match wakes with
  | [] => (None, [])
  | Expired :: _ => (Some (Some errLoginTimeout), [])
  | Tick a :: rest =>
      let '(r, logs) := CheckLoginStatus a in
      match r with
      | Err err =>
          let '(out, logs') := waiting rest in
          (out, logs ++ [logWarnLoginCheck err] ++ logs')
      | Ok true => (Some None, logs ++ [logLoginDetected])
      | Ok false =>
          let '(out, logs') := waiting rest in
          (out, logs ++ [logStillWaiting] ++ logs')
      end
  end.

(** [WaitForLogin(ctx)] *)
Definition WaitForLogin (wakes : list Wake) : option (option error) * list LogLine :=
  let '(out, logs) := waiting wakes in
  (out, [logNotLoggedIn; logPleaseLogIn; logWaitingForLogin] ++ logs).

(** The check made on a tick finds the user signed in. *)
Definition signedIn (w : Wake) : bool :=
  match w with
  | Expired => false
  | Tick a => match fst (CheckLoginStatus a) with Ok true => true | _ => false end
  end.

Definition isTimeout (w : Wake) : bool :=
  match w with Expired => true | Tick _ => false end.

End auth.

(** ** Package [report]: the final report as it is printed

    The texts printed hold emojis and ANSI colour codes, and the code
    goes through them rune by rune: a text is modelled here by the
    sequence of its runes (Unicode code points), which is what
    [for _, r := range s] yields on valid UTF-8.  What [Print] writes to
    the standard output is modelled by the list of its lines. *)

Module printing.
Local Open Scope Z_scope.

Definition rune : Type := Z.
Definition text : Type := list rune.

(** The runes of an ASCII text.  The messages and the dates of the
    errors go through it as well: [Print] writes their bytes as they
    are and measures none of them, and a byte above 127 stands here for
    itself. *)
Definition lit (s : string) : text :=
  map (fun c => Z.of_nat (nat_of_ascii c)) (list_ascii_of_string s).

(** [fmt.Sprintf("%d", n)] *)
Definition itoa (n : Z) : text := lit (NilZero.string_of_int (Z.to_int n)).

(** [strings.Repeat(s, count)], for a count that is not negative. *)
Definition Repeat (s : text) (count : Z) : text :=
  List.concat (List.repeat s (Z.to_nat count)).

(** ANSI color codes *)
Definition ESC : rune := 27.
Definition colorReset : text := ESC :: lit "[0m".
Definition colorGreen : text := ESC :: lit "[32m".
Definition colorYellow : text := ESC :: lit "[33m".
Definition colorRed : text := ESC :: lit "[31m".
Definition colorCyan : text := ESC :: lit "[36m".
Definition colorBold : text := ESC :: lit "[1m".
Definition colorDim : text := ESC :: lit "[2m".

(** The loop of [stripAnsiCodes], with its variable [inEscape]. *)
Fixpoint strip (inEscape : bool) (s : text) : text :=
  match s with
  | [] => []
  | r :: rest =>
      if r =? ESC then strip true rest
      else if inEscape then strip (negb (r =? 109)) rest (* 'm' *)
      else r :: strip false rest
  end.

(** [stripAnsiCodes(s)] *)
Definition stripAnsiCodes (s : text) : text := strip false s.

(** [visualLength(s)]: the variation selector U+FE0F counts for nothing,
    a rune above 256 for two columns, any other for one. *)
Fixpoint visualLength (s : text) : Z :=
  match s with
  | [] => 0
  | r :: rest =>
      (if r =? 65039 then 0 else if 256 <? r then 2 else 1) + visualLength rest
  end.

(** [measureString(s)] *)
Definition measureString (s : text) : Z := visualLength (stripAnsiCodes s).

(** *** Durations: [time.Duration], a 64-bit count of nanoseconds *)

Definition wrap64 (z : Z) : Z := (z + 2 ^ 63) mod 2 ^ 64 - 2 ^ 63.
Definition minDuration : Z := - 2 ^ 63.
Definition maxDuration : Z := 2 ^ 63 - 1.
Definition Second : Z := 1000000000.
Definition Minute : Z := 60 * Second.
Definition Hour : Z := 60 * Minute.

(** [lessThanHalf(x, y)]: [uint64(x)+uint64(x) < uint64(y)] *)
Definition lessThanHalf (x y : Z) : bool :=
  ((x mod 2 ^ 64 + x mod 2 ^ 64) mod 2 ^ 64 <? y mod 2 ^ 64).

(** [d.Round(m)]: to the nearest multiple of [m], halfway values away
    from zero; the largest or smallest duration when that overflows. *)
Definition Round (d m : Z) : Z :=
  if m <=? 0 then d
  else
    let r := Z.rem d m in
    if d <? 0 then
      let r := - r in
      if lessThanHalf r m then wrap64 (d + r)
      else
        let d1 := wrap64 (d - m + r) in
        if d1 <? d then d1 else minDuration
    else
      if lessThanHalf r m then wrap64 (d - r)
      else
        let d1 := wrap64 (d + m - r) in
        if d <? d1 then d1 else maxDuration.

(** The three numbers that [formatDuration] prints. *)
Definition hms (d : Z) : Z * Z * Z :=
  let d := Round d Second in
  let h := Z.quot d Hour in
  let d := wrap64 (d - wrap64 (h * Hour)) in
  let m := Z.quot d Minute in
  let d := wrap64 (d - wrap64 (m * Minute)) in
  let s := Z.quot d Second in
  (h, m, s).

(** [formatDuration(d)] *)
Definition formatDuration (d : Z) : text :=
  let '(h, m, s) := hms d in
  if 0 <? h then itoa h ++ lit "h " ++ itoa m ++ lit "m " ++ itoa s ++ lit "s"
  else if 0 <? m then itoa m ++ lit "m " ++ itoa s ++ lit "s"
  else itoa s ++ lit "s".

(** *** Sizes *)

(** [float64(n)] for a 64-bit integer [n], as the integer it denotes:
    [n] itself up to 53 bits, and otherwise the nearest number with 53
    significant bits, halfway values to the even one. *)
Definition roundHalfEven (num den : Z) : Z :=
  let q := num / den in
  let r := num mod den in
  if 2 * r <? den then q
  else if den <? 2 * r then q + 1
  else if Z.even q then q else q + 1.

Definition float64 (n : Z) : Z :=
  if Z.abs n <? 2 ^ 53 then n
  else
    let e := Z.log2 (Z.abs n) - 52 in
    Z.sgn n * roundHalfEven (Z.abs n) (2 ^ e) * 2 ^ e.

(** [fmt.Sprintf("%.2f", float64(bytes)/unit)] for a unit that is a
    power of two and a size that is not negative: the quotient is exact,
    and is printed rounded to two decimals, halfway values to the even
    one. *)
Definition twoDecimals (bytes unit : Z) : text :=
  let hundredths := roundHalfEven (float64 bytes * 100) unit in
  let frac := hundredths mod 100 in
  itoa (hundredths / 100) ++ lit "."
  ++ (if frac <? 10 then lit "0" else []) ++ itoa frac.

Definition KB : Z := 1024.
Definition MB : Z := KB * 1024.
Definition GB : Z := MB * 1024.

(** [formatBytes(bytes)] *)
Definition formatBytes (bytes : Z) : text :=
  if GB <=? bytes then twoDecimals bytes GB ++ lit " GB"
  else if MB <=? bytes then twoDecimals bytes MB ++ lit " MB"
  else if KB <=? bytes then twoDecimals bytes KB ++ lit " KB"
  else itoa bytes ++ lit " bytes".

(** *** The statistics, with the fields that the loop does not touch *)

Record Stats : Type := mkStats {
  counters : report.Stats;
  StartTime : time.Time;
  EndTime : time.Time;
  TotalSize : Z;
  DownloadDir : string
}.

(** [t.Sub(u)]: the difference of two instants, within the range of a
    duration. *)
Definition Sub (t u : time.Time) : Z :=
  Z.max minDuration (Z.min maxDuration (t - u)).

(** [(s *Stats) Duration()]; [now] is what [time.Now()] returns. *)
Definition Duration (now : time.Time) (s : Stats) : Z :=
  if EndTime s =? time.zero then Sub now (StartTime s)
  else Sub (EndTime s) (StartTime s).

(** [(s *Stats) Finish()]; [dirSize] is [calculateDirSize], the size of
    the files found under a directory. *)
Definition Finish (now : time.Time) (dirSize : string -> Z) (s : Stats) : Stats :=
  mkStats (counters s) (StartTime s) now
          (if datefilter.isEmpty (DownloadDir s) then TotalSize s
           else dirSize (DownloadDir s))
          (DownloadDir s).

(** *** The lines of the report *)

(** [printBoxTop(width)] and [printBoxBottom(width)] *)
Definition printBoxTop (width : Z) : text :=
  colorCyan ++ Repeat (lit "=") width ++ colorReset.
Definition printBoxBottom (width : Z) : text :=
  colorCyan ++ Repeat (lit "=") width ++ colorReset.

(** [printBoxSeparator(width)] *)
Definition printBoxSeparator (width : Z) : text :=
  colorCyan ++ Repeat (lit "-") width ++ colorReset.

(** [printBoxTitle(title, width)] *)
Definition printBoxTitle (title : text) (width : Z) : text :=
  let visLen := measureString title in
  let padding := Z.quot (width - visLen) 2 in
  let padding := if padding <? 0 then 0 else padding in
  Repeat (lit " ") padding ++ colorBold ++ title ++ colorReset ++ colorCyan.

(** The label as [printDataRow] lays it out: the emoji, two spaces and
    the label, padded with spaces to 22 columns. *)
Definition fullLabel (emoji label : text) : text :=
  match emoji with
  | [] => label
  | _ => emoji ++ lit "  " ++ label
  end.

Definition labelField (emoji label : text) : text :=
  let labelVis := measureString (fullLabel emoji label) in
  let labelPadding := 22 - labelVis in
  let labelPadding := if labelPadding <? 0 then 0 else labelPadding in
  fullLabel emoji label ++ Repeat (lit " ") labelPadding.

Definition valueField (value valueColor : text) : text :=
  match valueColor with
  | [] => value
  | _ => valueColor ++ value ++ colorReset
  end.

(** [printDataRow(emoji, label, value, width, valueColor)] *)
Definition printDataRow (emoji label value : text) (width : Z) (valueColor : text)
  : text :=
  colorCyan ++ lit "  " ++ (colorReset ++ labelField emoji label)
  ++ lit "   " ++ valueField value valueColor ++ colorReset.

(** [printErrorLine(text, width)] *)
Definition printErrorLine (txt : text) (width : Z) : text :=
  colorCyan ++ lit "      " ++ (colorRed ++ txt ++ colorReset) ++ colorReset.

(** The loop of [Print] over the errors: [i] is the index, [total] the
    length of the whole list. *)
Fixpoint errorLines (i total : Z) (errors : list report.ErrorEntry) (width : Z)
  : list text :=
  match errors with
  | [] => []
  | err :: rest =>
      if 5 <=? i then
        [ printErrorLine (lit "... and " ++ itoa (total - 5) ++ lit " more errors") width ]
      else
        let errText := lit "- " ++ lit (report.Message err) in
        let errText :=
          if datefilter.isEmpty (report.DateInfo err) then errText
          else errText ++ lit " (" ++ lit (report.DateInfo err) ++ lit ")" in
        printErrorLine errText width :: errorLines (i + 1) total rest width
  end.

(** The emojis of the rows. *)
Definition chart : text := [128202].      (* U+1F4CA *)
Definition stopwatch : text := [9201; 65039; 32]. (* U+23F1 U+FE0F and a space *)
Definition calendarSign : text := [128197].   (* U+1F4C5 *)
Definition downArrow : text := [11015; 65039; 32]. (* U+2B07 U+FE0F and a space *)
Definition floppy : text := [128190].     (* U+1F4BE *)
Definition nextTrack : text := [9197; 65039; 32]. (* U+23ED U+FE0F and a space *)
Definition crossMark : text := [10060].   (* U+274C *)
Definition checkMark : text := [9989].    (* U+2705 *)

(** The rows of [Print] between the two separators; [now] is what
    [time.Now()] returns should [Duration] ask for it. *)
Definition dataRows (now : time.Time) (s : Stats) (contentWidth : Z) : list text :=
  let c := counters s in
  [ printDataRow stopwatch (lit "Duration") (formatDuration (Duration now s))
                 contentWidth [];
    printDataRow calendarSign (lit "Dates processed") (itoa (report.DatesProcessed c))
                 contentWidth [] ]
  ++ (let downloadValue := itoa (report.DownloadsStarted c) ++ lit " started" in
      if 0 <? report.DownloadsFailed c then
        [ printDataRow downArrow (lit "Downloads")
            (downloadValue ++ lit ", " ++ itoa (report.DownloadsFailed c) ++ lit " failed")
            contentWidth colorYellow ]
      else
        [ printDataRow downArrow (lit "Downloads") downloadValue contentWidth colorGreen ])
  ++ (if 0 <? TotalSize s then
        [ printDataRow floppy (lit "Total size") (formatBytes (TotalSize s)) contentWidth [] ]
      else [])
  ++ (if 0 <? report.SkippedDates c then
        [ printDataRow nextTrack (lit "Skipped")
            (itoa (report.SkippedDates c) ++ lit " (out of date range)")
            contentWidth colorYellow ]
      else []).

(** The errors section of [Print]. *)
Definition errorsSection (s : Stats) (contentWidth : Z) : list text :=
  let errors := report.Errors (counters s) in
  let n := Z.of_nat (List.length errors) in
  if 0 <? n then
    printDataRow crossMark (lit "Errors (" ++ itoa n ++ lit "):") [] contentWidth colorRed
    :: errorLines 0 n errors contentWidth
  else
    [ printDataRow checkMark (lit "No errors occurred") [] contentWidth colorGreen ].

(** [(s *Stats) Print()]: the statistics once finished, and the lines
    written; [now] is what [time.Now()] returns in [Finish], [later]
    what it returns after that. *)
Definition Print (now later : time.Time) (dirSize : string -> Z) (s : Stats)
  : Stats * list text :=
  let s := Finish now dirSize s in
  (* Box width (internal content width, excluding borders) *)
  let contentWidth := 52 in
  (s,
   [ [];
     printBoxTop contentWidth;
     printBoxTitle (chart ++ lit " FINAL REPORT") contentWidth;
     printBoxSeparator contentWidth ]
   ++ dataRows later s contentWidth
   ++ [ printBoxSeparator contentWidth ]
   ++ errorsSection s contentWidth
   ++ [ printBoxBottom contentWidth; [] ]).

(** [(s *Stats) Summary()] *)
Definition Summary (now : time.Time) (s : Stats) : text :=
  let c := counters s in
  itoa (report.DatesProcessed c) ++ lit " dates processed, "
  ++ itoa (report.DownloadsStarted c) ++ lit " downloads ("
  ++ itoa (report.DownloadsFailed c) ++ lit " failed), "
  ++ itoa (report.SkippedDates c) ++ lit " skipped, "
  ++ itoa (Z.of_nat (List.length (report.Errors c))) ++ lit " errors in "
  ++ formatDuration (Duration now s).

(** A text without escape character. *)
Definition plain (s : text) : Prop := Forall (fun r => r <> ESC) s.

(** Whether [stripAnsiCodes] is inside an escape sequence once it has
    gone through a text: the value of [inEscape] at the end. *)
Fixpoint escaping (inEscape : bool) (s : text) : bool :=
  match s with
  | [] => inEscape
  | r :: rest =>
      if r =? ESC then escaping true rest
      else if inEscape then escaping (negb (r =? 109)) rest
      else escaping false rest
  end.

(** The line of [Print] for one error. *)
Definition shown (err : report.ErrorEntry) (width : Z) : text :=
  printErrorLine
    (lit "- " ++ lit (report.Message err)
     ++ (if datefilter.isEmpty (report.DateInfo err) then []
         else lit " (" ++ lit (report.DateInfo err) ++ lit ")"))
    width.

(** The line of [Print] that stands for the errors left out. *)
Definition more (remaining width : Z) : text :=
  printErrorLine (lit "... and " ++ itoa remaining ++ lit " more errors") width.

(** The colours [Print] gives to values. *)
Definition colours : list text := [ []; colorGreen; colorYellow; colorRed ].

(** The whole seconds of a duration that is not negative, halves
    rounded up. *)
Definition seconds (d : Z) : Z := (d + 500000000) / 1000000000.

End printing.

(** * Properties *)

(** ** Texts *)

Module strings_facts.
Import strings label.
Local Open Scope string_scope.

Lemma span_app p a b :
  forallb p a = true -> starts_outside p b -> span p (a ++ b) = (a, b).
Proof.
  induction a as [| c a IH]; cbn [forallb append span]; intros Ha Hb.
  - destruct b as [| c b]; cbn in *; [ reflexivity | now rewrite Hb ].
  - apply andb_prop in Ha as [Hc Ha]. rewrite Hc, (IH Ha Hb). reflexivity.
Qed.

Lemma span_all p a : forallb p a = true -> span p a = (a, "").
Proof.
  induction a as [| c a IH]; cbn; [ reflexivity | ].
  intros H; apply andb_prop in H as [Hc Ha]. rewrite Hc, (IH Ha). reflexivity.
Qed.

Lemma append_nil_r s : s ++ "" = s.
Proof. induction s; cbn; congruence. Qed.

Lemma append_assoc a b c : (a ++ b) ++ c = a ++ b ++ c.
Proof. induction a; cbn; congruence. Qed.

Lemma rev_acc_app a b acc : rev_acc (a ++ b) acc = rev_acc b (rev_acc a acc).
Proof. revert acc; induction a; cbn; intros; auto. Qed.

Lemma rev_acc_spec s acc : rev_acc s acc = rev s ++ acc.
Proof.
  unfold rev. revert acc. induction s as [| c s IH]; cbn; intros acc; [ reflexivity | ].
  rewrite IH, (IH (String c "")), append_assoc. reflexivity.
Qed.

Lemma rev_app a b : rev (a ++ b) = rev b ++ rev a.
Proof.
  unfold rev at 1. rewrite rev_acc_app, rev_acc_spec. reflexivity.
Qed.

Lemma rev_involutive s : rev (rev s) = s.
Proof.
  induction s as [| c s IH]; [ reflexivity | ].
  change (String c s) with (String c "" ++ s) at 1.
  rewrite rev_app, rev_app, IH. reflexivity.
Qed.

Lemma TrimLeft_id s : starts_outside isSpace s -> TrimLeft s = s.
Proof.
  destruct s as [| c s]; cbn; [ reflexivity | ].
  intros H. unfold TrimLeft. cbn. rewrite H. reflexivity.
Qed.

(** A text that neither starts nor ends with a space is left as it is. *)
Lemma TrimSpace_id s :
  starts_outside isSpace s -> starts_outside isSpace (rev s) -> TrimSpace s = s.
Proof.
  intros H1 H2. unfold TrimSpace.
  rewrite (TrimLeft_id _ H1), (TrimLeft_id _ H2). apply rev_involutive.
Qed.

Lemma forallb_last p s :
  s <> "" -> forallb p s = true ->
  exists pre c, s = pre ++ String c "" /\ p c = true.
Proof.
  induction s as [| c s IH]; [ congruence | ].
  intros _ H. cbn in H. apply andb_prop in H as [Hc Hs].
  destruct s as [| d s].
  - exists "", c. auto.
  - destruct IH as (pre & l & E & Hl); [ discriminate | exact Hs | ].
    exists (String c pre), l. cbn. rewrite <- E. auto.
Qed.

Lemma forallb_first p s :
  s <> "" -> forallb p s = true -> exists c r, s = String c r /\ p c = true.
Proof.
  destruct s as [| c r]; [ congruence | ].
  cbn; intros _ H; apply andb_prop in H as [H _]; eauto.
Qed.

Lemma HasPrefix_iff s p :
  HasPrefix s p = true <-> exists post, s = p ++ post.
Proof.
  revert s. induction p as [| b q IH]; intros s.
  - destruct s; cbn; split; eauto.
  - destruct s as [| a r]; cbn.
    + split; [ discriminate | intros [post H]; discriminate ].
    + rewrite andb_true_iff, IH. split.
      * intros [E [post ->]]. apply Ascii.eqb_eq in E. subst. eauto.
      * intros [post E]. injection E as -> ->. split; [ apply Ascii.eqb_refl | eauto ].
Qed.

(** [Contains] finds exactly the texts that have the pattern inside. *)
Lemma Contains_iff s p :
  Contains s p = true <-> exists pre post, s = pre ++ p ++ post.
Proof.
  induction s as [| a r IH].
  - cbn [Contains]. rewrite orb_false_r, HasPrefix_iff. split.
    + intros [post E]. exists "", post. exact E.
    + intros (pre & post & E). destruct pre; [ eauto | discriminate ].
  - cbn [Contains]. rewrite orb_true_iff, HasPrefix_iff, IH. split.
    + intros [[post E] | (pre & post & E)].
      * exists "", post. exact E.
      * exists (String a pre), post. cbn. congruence.
    + intros (pre & post & E). destruct pre as [| c pre].
      * left. eauto.
      * right. cbn in E. injection E as _ E. eauto.
Qed.

End strings_facts.

(** ** Characters and numbers *)

Module parse_facts.
Import strings label strings_facts time datefilter.
Local Open Scope string_scope.
Local Open Scope Z_scope.

Lemma isDigit_code c : isDigit c = true -> (48 <= code c <= 57)%nat.
Proof.
  unfold isDigit. intros H. apply andb_prop in H as [H1 H2].
  apply Nat.leb_le in H1, H2. lia.
Qed.

Lemma digit_not_reSpace c : isDigit c = true -> reSpace c = false.
Proof.
  intros H. apply isDigit_code in H. unfold reSpace.
  repeat (apply orb_false_intro); apply Nat.eqb_neq; lia.
Qed.

Lemma digit_not_isSpace c : isDigit c = true -> isSpace c = false.
Proof.
  intros H. apply isDigit_code in H. unfold isSpace.
  apply orb_false_intro; [ apply andb_false_intro2; apply Nat.leb_gt; lia
                         | apply Nat.eqb_neq; lia ].
Qed.

Lemma isLetter_code c :
  isLetter c = true -> (65 <= code c <= 90 \/ 97 <= code c <= 122)%nat.
Proof.
  unfold isLetter, isUpper, isLower. intros H.
  apply orb_prop in H as [H | H]; apply andb_prop in H as [H1 H2];
    apply Nat.leb_le in H1, H2; lia.
Qed.

Lemma letter_not_reSpace c : isLetter c = true -> reSpace c = false.
Proof.
  intros H. apply isLetter_code in H. unfold reSpace.
  repeat (apply orb_false_intro); apply Nat.eqb_neq; lia.
Qed.

Lemma letter_not_isSpace c : isLetter c = true -> isSpace c = false.
Proof.
  intros H. apply isLetter_code in H. unfold isSpace.
  apply orb_false_intro; [ apply andb_false_intro2; apply Nat.leb_gt; lia
                         | apply Nat.eqb_neq; lia ].
Qed.

Lemma reSpace_code c :
  reSpace c = true -> (code c = 9 \/ code c = 10 \/ code c = 12 \/ code c = 13 \/ code c = 32)%nat.
Proof.
  unfold reSpace. intros H.
  repeat (apply orb_prop in H as [H | H]); apply Nat.eqb_eq in H; lia.
Qed.

Lemma reSpace_not_digit c : reSpace c = true -> isDigit c = false.
Proof.
  intros H. apply reSpace_code in H. unfold isDigit.
  destruct (48 <=? code c)%nat eqn:E1; [ | reflexivity ].
  apply Nat.leb_le in E1. lia.
Qed.

Lemma reSpace_not_letter c : reSpace c = true -> isLetter c = false.
Proof.
  intros H. apply reSpace_code in H. unfold isLetter, isUpper, isLower.
  apply orb_false_intro; apply andb_false_intro1; apply Nat.leb_gt; lia.
Qed.

Lemma digitVal_range c : isDigit c = true -> 0 <= strconv.digitVal c <= 9.
Proof. intros H. apply isDigit_code in H. unfold strconv.digitVal. lia. Qed.

Lemma digits_acc_bound s acc :
  forallb isDigit s = true -> 0 <= acc ->
  0 <= strconv.digits_acc s acc
  /\ strconv.digits_acc s acc < (acc + 1) * 10 ^ Z.of_nat (String.length s).
Proof.
  revert acc. induction s as [| c s IH]; intros acc Hs Hacc.
  - cbn. lia.
  - cbn [forallb] in Hs. apply andb_prop in Hs as [Hc Hs].
    pose proof (digitVal_range _ Hc) as Hd.
    cbn [strconv.digits_acc String.length].
    destruct (IH (10 * acc + strconv.digitVal c) Hs ltac:(lia)) as [H1 H2].
    split; [ exact H1 | ].
    rewrite Nat2Z.inj_succ, Z.pow_succ_r by lia.
    eapply Z.lt_le_trans; [ exact H2 | ].
    assert (0 < 10 ^ Z.of_nat (String.length s)) by (apply Z.pow_pos_nonneg; lia).
    nia.
Qed.

(** [Atoi] succeeds on a short run of digits. *)
Lemma Atoi_digits s :
  s <> "" -> forallb isDigit s = true -> (String.length s <= 4)%nat ->
  strconv.Atoi s = Some (strconv.digits_acc s 0).
Proof.
  intros Hne Hs Hlen.
  destruct (digits_acc_bound s 0 Hs ltac:(lia)) as [H1 H2].
  assert (Hb : strconv.digits_acc s 0 < 10 ^ 4).
  { eapply Z.lt_le_trans; [ exact H2 | ].
    rewrite Z.mul_1_l. apply Z.pow_le_mono_r; lia. }
  destruct s as [| c r]; [ congruence | ].
  assert (Hc : isDigit c = true) by (cbn in Hs; apply andb_prop in Hs; tauto).
  apply isDigit_code in Hc.
  unfold strconv.Atoi.
  assert (Hsign : match String c r with
                  | String "-"%char r0 => (true, r0)
                  | String "+"%char r0 => (false, r0)
                  | _ => (false, String c r)
                  end = (false, String c r)).
  { destruct c as [[] [] [] [] [] [] [] []]; try reflexivity;
      vm_compute in Hc; lia. }
  rewrite Hsign, Hs.
  change (10 ^ 4) with 10000 in Hb.
  unfold strconv.minInt64, strconv.maxInt64.
  destruct (_ <=? _) eqn:E1; [ | apply Z.leb_gt in E1; lia ].
  destruct (strconv.digits_acc (String c r) 0 <=? 9223372036854775807) eqn:E2;
    [ reflexivity | apply Z.leb_gt in E2; lia ].
Qed.

End parse_facts.

(** ** The date pattern on well-shaped labels *)

Module parse_label.
Import strings label strings_facts parse_facts time datefilter.
Local Open Scope string_scope.
Local Open Scope Z_scope.

Lemma nonEmpty_neq s : label.nonEmpty s = true -> s <> "".
Proof. destruct s; cbn; congruence. Qed.

Lemma starts_outside_app (p q : ascii -> bool) a b :
  a <> "" -> forallb q a = true -> (forall c, q c = true -> p c = false) ->
  starts_outside p (a ++ b).
Proof.
  intros Hne Ha Hq. destruct (forallb_first q a Hne Ha) as (c & r & -> & Hc).
  cbn. auto.
Qed.

Lemma starts_outside_self (p q : ascii -> bool) a :
  a <> "" -> forallb q a = true -> (forall c, q c = true -> p c = false) ->
  starts_outside p a.
Proof.
  intros Hne Ha Hq. rewrite <- (append_nil_r a).
  now apply (starts_outside_app p q).
Qed.

Lemma day_nonempty day :
  (String.length day = 1 \/ String.length day = 2)%nat -> day <> "".
Proof. destruct day; cbn; intros [H | H]; congruence. Qed.

Lemma day_short day r1 :
  (String.length day = 1 \/ String.length day = 2)%nat ->
  match day with
  | String a (String b (String c t)) =>
      (String a (String b EmptyString), String c (t ++ r1))
  | _ => (day, r1)
  end = (day, r1).
Proof.
  destruct day as [| a [| b [| c t]]]; cbn; intros [H | H]; congruence.
Qed.

Lemma isEmpty_false s : s <> "" -> isEmpty s = false.
Proof. destruct s; cbn; congruence. Qed.

Lemma isEmpty_app_false a b : a <> "" -> isEmpty (a ++ b) = false.
Proof. destruct a; cbn; congruence. Qed.

Lemma four_digits ys :
  String.length ys = 4%nat -> forallb isDigit ys = true ->
  match ys with
  | String a (String b (String c (String d EmptyString))) =>
      if isDigit a && isDigit b && isDigit c && isDigit d
      then Some ys else None
  | _ => None
  end = Some ys.
Proof.
  destruct ys as [| a [| b [| c [| d [| e t]]]]]; cbn; try congruence.
  intros _ H. rewrite andb_true_r in H. rewrite !andb_assoc in H. now rewrite H.
Qed.

Lemma shape_inv day ws name yp :
  label.shape day ws name yp = true ->
  (String.length day = 1 \/ String.length day = 2)%nat
  /\ forallb isDigit day = true
  /\ ws <> "" /\ forallb reSpace ws = true
  /\ name <> "" /\ forallb isLetter name = true
  /\ match yp with
     | None => True
     | Some (ws', ys) =>
       ws' <> "" /\ forallb reSpace ws' = true
       /\ String.length ys = 4%nat /\ forallb isDigit ys = true
     end.
Proof.
  unfold label.shape. intros H.
  apply andb_prop in H as [H Hyp].
  apply andb_prop in H as [H Hname].
  apply andb_prop in H as [H Hne_name].
  apply andb_prop in H as [H Hws].
  apply andb_prop in H as [H Hne_ws].
  apply andb_prop in H as [Hlen Hday].
  apply nonEmpty_neq in Hne_name, Hne_ws.
  repeat split; auto.
  - apply orb_prop in Hlen as [E | E]; apply Nat.eqb_eq in E; auto.
  - destruct yp as [[ws' ys] |]; [ | exact I ].
    apply andb_prop in Hyp as [Hyp Hys].
    apply andb_prop in Hyp as [Hyp Hlen_ys].
    apply andb_prop in Hyp as [Hne_ws' Hws'].
    apply nonEmpty_neq in Hne_ws'. apply Nat.eqb_eq in Hlen_ys. auto.
Qed.

Lemma datePattern_make day ws name yp :
  label.shape day ws name yp = true ->
  datePattern (label.make day ws name yp)
  = Some (day, name, match yp with None => "" | Some (_, ys) => ys end).
Proof.
  intros H. apply shape_inv in H.
  destruct H as (Hlen & Hday & Hne_ws & Hws & Hne_name & Hname & Hyp).
  pose proof (day_nonempty _ Hlen) as Hne_day.
  unfold datePattern, label.make.
  rewrite (span_app isDigit day _ Hday
             (starts_outside_app isDigit reSpace ws _ Hne_ws Hws reSpace_not_digit)).
  rewrite (day_short day _ Hlen), (isEmpty_false _ Hne_day).
  rewrite (span_app reSpace ws _ Hws
             (starts_outside_app reSpace isLetter name _ Hne_name Hname letter_not_reSpace)).
  rewrite (isEmpty_false _ Hne_ws).
  destruct yp as [[ws' ys] |]; cbn [label.suffix].
  - destruct Hyp as (Hne_ws' & Hws' & Hlen_ys & Hys).
    rewrite (span_app isLetter name _ Hname
               (starts_outside_app isLetter reSpace ws' _ Hne_ws' Hws' reSpace_not_letter)).
    rewrite (isEmpty_false _ Hne_name), (isEmpty_app_false _ ys Hne_ws').
    assert (Hys_ne : ys <> "") by (destruct ys; cbn in *; congruence).
    rewrite (span_app reSpace ws' _ Hws'
               (starts_outside_self reSpace isDigit ys Hys_ne Hys digit_not_reSpace)).
    rewrite (isEmpty_false _ Hne_ws').
    pose proof (four_digits ys Hlen_ys Hys) as H4.
    destruct ys as [| a [| b [| c [| d [| e t]]]]]; cbn in Hlen_ys; try congruence.
    cbn in H4 |- *. destruct (isDigit a && isDigit b && isDigit c && isDigit d);
      [ reflexivity | discriminate ].
  - rewrite append_nil_r, (span_all isLetter name Hname).
    rewrite (isEmpty_false _ Hne_name). reflexivity.
Qed.

End parse_label.

Module parse_dates.
Import strings label strings_facts parse_facts parse_label time datefilter as_stated.
Local Open Scope string_scope.
Local Open Scope Z_scope.

Lemma rev_ends (p q : ascii -> bool) a b :
  b <> "" -> forallb q b = true -> (forall c, q c = true -> p c = false) ->
  starts_outside p (rev (a ++ b)).
Proof.
  intros Hne Hb Hq.
  destruct (forallb_last q b Hne Hb) as (pre & c & -> & Hc).
  rewrite rev_app, rev_app. cbn. auto.
Qed.

Lemma TrimSpace_make day ws name yp :
  label.shape day ws name yp = true ->
  TrimSpace (label.make day ws name yp) = label.make day ws name yp.
Proof.
  intros H. apply shape_inv in H.
  destruct H as (Hlen & Hday & Hne_ws & Hws & Hne_name & Hname & Hyp).
  apply TrimSpace_id.
  - unfold label.make.
    exact (starts_outside_app isSpace isDigit day _ (day_nonempty _ Hlen) Hday
             digit_not_isSpace).
  - unfold label.make. destruct yp as [[ws' ys] |]; cbn [label.suffix].
    + destruct Hyp as (Hne_ws' & Hws' & Hlen_ys & Hys).
      assert (Hys_ne : ys <> "") by (destruct ys; cbn in *; congruence).
      rewrite <- !append_assoc.
      apply (rev_ends isSpace isDigit _ ys Hys_ne); [ assumption | apply digit_not_isSpace ].
    + rewrite append_nil_r, <- append_assoc.
      apply (rev_ends isSpace isLetter _ name Hne_name); [ assumption | apply letter_not_isSpace ].
Qed.

Lemma Date_day_linear year month day :
  Date year month day = Date year month 1 + (day - 1) * nanosPerDay.
Proof. unfold Date, dateDays, nanosPerDay, Time. ring. Qed.

Lemma ParseYandexDate_make nowYear day ws name yp m :
  label.shape day ws name yp = true ->
  lookup (ToLower name) monthMap = Some m ->
  ParseYandexDate nowYear (label.make day ws name yp)
  = Ok (Date (label.yearOf nowYear yp) m (strconv.digits_acc day 0)).
Proof.
  intros Hshape Hm. unfold ParseYandexDate.
  rewrite (TrimSpace_make _ _ _ _ Hshape), (datePattern_make _ _ _ _ Hshape).
  apply shape_inv in Hshape.
  destruct Hshape as (Hlen & Hday & Hne_ws & Hws & Hne_name & Hname & Hyp).
  rewrite (Atoi_digits day (day_nonempty _ Hlen) Hday ltac:(lia)), Hm.
  destruct yp as [[ws' ys] |]; cbn [label.yearOf isEmpty]; [ | reflexivity ].
  destruct Hyp as (Hne_ws' & Hws' & Hlen_ys & Hys).
  assert (Hys_ne : ys <> "") by (destruct ys; cbn in *; congruence).
  rewrite (isEmpty_false _ Hys_ne), (Atoi_digits ys Hys_ne Hys ltac:(lia)).
  reflexivity.
Qed.

End parse_dates.

(** ** The range filter *)

Section RangeFilter.
Import time datefilter as_stated.
Local Open Scope string_scope.
Local Open Scope Z_scope.

(** C4. Range inclusion is inclusive on both bounds: with the range from
    2024-06-01 to 2024-06-30 (what [NewDateRange] builds from those two
    dates), [IsInRange] is true for "1 June 2024" and for "30 June 2024";
    for "31 May 2024" [IsInRange] is false and [IsBeforeRange] is true; for
    "1 July 2024" [IsInRange] is false and [IsAfterRange] is true. *)
Theorem range_inclusion (now : Time) (nowYear : Z) :
  NewDateRange now "2024-06-01" "2024-06-30" = Ok examples.june2024
  /\ IsInRange nowYear examples.june2024 "1 June 2024" = Ok true
  /\ IsInRange nowYear examples.june2024 "30 June 2024" = Ok true
  /\ IsInRange nowYear examples.june2024 "31 May 2024" = Ok false
  /\ IsBeforeRange nowYear examples.june2024 "31 May 2024" = true
  /\ IsInRange nowYear examples.june2024 "1 July 2024" = Ok false
  /\ IsAfterRange nowYear examples.june2024 "1 July 2024" = true.
Proof. repeat split; vm_compute; reflexivity. Qed.

Lemma parse_nonempty from d : Parse_2006_01_02 from = Ok d -> isEmpty from = false.
Proof. destruct from; [ discriminate | reflexivity ]. Qed.

(** C10. [NewDateRange(from, "")] with a well-formed [from] date that lies
    after the instant of construction returns the error "'from' date is
    after 'to' date" and no range: the missing upper bound is the instant
    of construction, and the check of the bounds rejects it. *)
Theorem future_from_rejected (now : Time) (from : string) (fromDate : Time) :
  Parse_2006_01_02 from = Ok fromDate ->
  now < fromDate ->
  NewDateRange now from "" = Err (errFromAfterTo from "").
Proof.
  intros Hp Hlt. unfold NewDateRange.
  rewrite (parse_nonempty _ _ Hp). cbn [andb negb isEmpty]. rewrite Hp.
  unfold After. apply Z.ltb_lt in Hlt. rewrite Hlt. reflexivity.
Qed.

Lemma future_from_rejected_witness :
  Parse_2006_01_02 "2030-01-01" = Ok (Date 2030 January 1)
  /\ Date 2026 October 30 < Date 2030 January 1
  /\ NewDateRange (Date 2026 October 30) "2030-01-01" ""
     = Err (errFromAfterTo "2030-01-01" "").
Proof.
  split; [ reflexivity | split; [ reflexivity | ] ].
  apply (future_from_rejected (Date 2026 October 30) "2030-01-01" (Date 2030 January 1));
    reflexivity.
Defined.

(** C5, as amended. Built at an instant [now] that is not before
    2024-01-01, [NewDateRange("2024-01-01", "")] is the enabled range from
    2024-01-01 to [now]; and [NewDateRange("", "2023-12-31")] is the
    enabled range from 1970-01-01T00:00:00Z, the Unix epoch, to
    2023-12-31. *)
Theorem unbounded_defaults (now : Time) :
  Date 2024 January 1 <= now ->
  NewDateRange now "2024-01-01" "" = Ok (mkDateRange (Date 2024 January 1) now true)
  /\ NewDateRange now "" "2023-12-31"
     = Ok (mkDateRange (Date 1970 January 1) (Date 2023 December 31) true).
Proof.
  intros H. split; [ | reflexivity ].
  unfold NewDateRange. cbn [isEmpty andb negb].
  change (Parse_2006_01_02 "2024-01-01") with (@Ok ParseError Time (Date 2024 January 1)).
  cbv iota. unfold After.
  destruct (now <? Date 2024 January 1) eqn:E; [ apply Z.ltb_lt in E; lia | reflexivity ].
Qed.

Lemma unbounded_defaults_witness :
  Date 2024 January 1 <= Date 2026 October 30
  /\ NewDateRange (Date 2026 October 30) "2024-01-01" ""
     = Ok (mkDateRange (Date 2024 January 1) (Date 2026 October 30) true).
Proof.
  split; [ vm_compute; discriminate | ].
  refine (proj1 (unbounded_defaults (Date 2026 October 30) _)).
  vm_compute. discriminate.
Defined.

(** C5 as the specification words it fails: the lower bound of
    [NewDateRange("", "2023-12-31")] is not the earliest date there is,
    the label "31 December 1969" denotes an earlier one (and is classified
    as before the range). *)
Lemma epoch_is_not_earliest_date : ~ from_is_earliest_date.
Proof.
  intros H.
  specialize (H 0 _ eq_refl 2024 "31 December 1969" _ eq_refl).
  vm_compute in H. apply H. reflexivity.
Qed.

(** C9, as amended. [ParseYandexDate] does not check the day against the
    month: every label made of one or two digits, spaces and the name of a
    month (in any case), with or without a year of four digits, parses;
    the result is the date [day - 1] days after the first of that month,
    whatever the day, so that a day outside the month lands in a
    neighbouring month; and the three range tests compare that date with
    the bounds. *)
Theorem day_not_validated nowYear day ws name yp m :
  label.shape day ws name yp = true ->
  lookup (strings.ToLower name) monthMap = Some m ->
  let text := label.make day ws name yp in
  let year := label.yearOf nowYear yp in
  let t := Date year m (strconv.digits_acc day 0) in
  ParseYandexDate nowYear text = Ok t
  /\ t = Date year m 1 + (strconv.digits_acc day 0 - 1) * nanosPerDay
  /\ forall dr, Enabled dr = true ->
       IsInRange nowYear dr text
       = Ok (negb (Before t (From dr)) && negb (After t (To dr)))
       /\ IsBeforeRange nowYear dr text = Before t (From dr)
       /\ IsAfterRange nowYear dr text = After t (To dr).
Proof.
  intros Hshape Hm text year t.
  pose proof (parse_dates.ParseYandexDate_make nowYear _ _ _ _ _ Hshape Hm) as Hp.
  fold text year t in Hp.
  split; [ exact Hp | split; [ apply parse_dates.Date_day_linear | ] ].
  intros dr Hen. unfold IsInRange, IsBeforeRange, IsAfterRange.
  rewrite Hen, Hp. cbn [negb].
  repeat split. destruct (Before t (From dr)), (After t (To dr)); reflexivity.
Qed.

Lemma day_not_validated_witness :
  ParseYandexDate 2026 "31 February 2024" = Ok (Date 2024 March 2)
  /\ Date 2024 March 2 = Date 2024 February 1 + 30 * nanosPerDay.
Proof.
  destruct (day_not_validated 2026 "31" " " "February" (Some (" ", "2024")) February
              eq_refl eq_refl) as (Hp & Hd & _).
  split; [ exact Hp | exact Hd ].
Defined.

(** C9 as it is worded fails: a day outside the month does not always
    land in the following month; "99 February 2024" is 2024-05-09. *)
Lemma day_99_skips_a_month : ~ overflows_into_following_month.
Proof.
  intros H.
  destruct (H 2026 "99" " " "February" (Some (" ", "2024")) February eq_refl eq_refl)
    as (t & Ht & _ & Hlt).
  - right. reflexivity.
  - vm_compute in Ht. injection Ht as <-. vm_compute in Hlt. discriminate.
Qed.

(** Day 0 goes the other way, into the month before. *)
Example day_0_is_the_month_before (nowYear : Z) :
  ParseYandexDate nowYear "0 March 2024" = Ok (Date 2024 February 29).
Proof. reflexivity. Qed.

End RangeFilter.

(** ** The fault classifier *)

Section Classifier.
Import classifier.
Local Open Scope string_scope.

(** [IsBrowserClosed] answers true exactly on the errors of a session
    that has ended. *)
Theorem IsBrowserClosed_iff (e : error) :
  browser.IsBrowserClosed (Some e) = true <-> sessionEnded e.
Proof.
  unfold sessionEnded, browser.IsBrowserClosed. destruct e as [| | msg].
  - split; auto.
  - split; auto.
  - rewrite existsb_exists. split.
    + intros (p & Hin & Hc). right; right. apply strings_facts.Contains_iff in Hc.
      destruct Hc as (pre & post & E). eauto 6.
    + intros [H | [H | (p & pre & post & Hin & E)]]; try discriminate.
      exists p. split; [ exact Hin | ]. apply strings_facts.Contains_iff. eauto.
Qed.

Lemma IsBrowserClosed_nil : browser.IsBrowserClosed None = false.
Proof. reflexivity. Qed.

Example element_not_found_is_transient :
  browser.IsBrowserClosed
    (Some (errorString "could not find element: node not found")) = false.
Proof. reflexivity. Qed.

Example wrapped_cancellation_is_fatal :
  browser.IsBrowserClosed
    (Some (Errorf "error fetching dates: " context_Canceled)) = true.
Proof. reflexivity. Qed.

End Classifier.

(** ** Reasoning on programs *)

Section ProgramLogic.
Context (E : Env).

Lemma wp_interp {A} (p : Prog A) Q w :
  wp E p Q w <->
  Q (result_of (interp E p w)) (world_of (interp E p w)) (trace_of (interp E p w)).
Proof.
  revert Q w. induction p as [A a | R c | A B p IHp k IHk]; intros Q w.
  - reflexivity.
  - cbn. destruct (respond E c w) as [r w']. reflexivity.
  - cbn [wp interp]. rewrite IHp.
    destruct (interp E p w) as [[a w1] t1]. cbn [result_of world_of trace_of fst snd].
    rewrite IHk.
    destruct (interp E (k a) w1) as [[b w2] t2]. reflexivity.
Qed.

Lemma wp_conseq {A} (p : Prog A) (Q1 Q2 : A -> World E -> list Event -> Prop) w :
  wp E p Q1 w -> (forall a w' t, Q1 a w' t -> Q2 a w' t) -> wp E p Q2 w.
Proof. rewrite !wp_interp. auto. Qed.


End ProgramLogic.

(** Symbolic execution of a program under [wp]: unfold one step, name the
    answer of the environment, split on what the program tests. *)
Ltac wp_step :=
  cbn [wp log sleep fst snd];
  lazymatch goal with
  | |- context [respond ?E ?c ?w] =>
      let r := fresh "r" in let w' := fresh "w" in let Hr := fresh "Hr" in
      destruct (respond E c w) as [r w'] eqn:Hr; cbn [fst snd]
  | |- wp _ (Bind (match ?x with _ => _ end) _) _ _ => destruct x eqn:?
  | |- wp _ (match ?x with _ => _ end) _ _ => destruct x eqn:?
  | |- _ => idtac
  end.


Section Loop.
Context (E : Env).
Import cursor.

(** The inner de-selection loop never scrolls and never looks for a date. *)
Lemma deselectRetry_quiet n retry w :
  wp E (main.deselectRetry n retry) (fun _ _ t => Forall quiet_event t) w.
Proof.
  revert retry w. induction n as [| n IH]; intros retry w.
  - constructor.
  - cbn [main.deselectRetry]. repeat wp_step;
      try (eapply wp_conseq; [ apply IH | cbn beta; intros ]);
      cbn [wp app]; repeat (apply Forall_cons; [ exact I | ]); auto.
Qed.

(** A property of traces that holds of every iteration, and is kept by
    putting traces end to end, holds of the whole loop. *)
Lemma loop_wp (P : list Event -> Prop) nowYear dateRange :
  P [] ->
  (forall t1 t2, P t1 -> P t2 -> P (t1 ++ t2)) ->
  (forall st w, wp E (main.body nowYear dateRange st) (fun _ _ t => P t) w) ->
  forall fuel st w,
    wp E (main.loop fuel nowYear dateRange st) (fun _ _ t => P t) w.
Proof.
  intros Hnil Happ Hbody. induction fuel as [| fuel IH]; intros st w.
  - exact Hnil.
  - cbn [main.loop wp]. eapply wp_conseq; [ apply Hbody | ].
    cbn beta. intros [st' | st'] w1 t1 Ht1.
    + cbn [wp]. apply Happ; auto.
    + eapply wp_conseq; [ apply IH | ]. cbn beta. intros _ _ t2 Ht2.
      apply Happ; auto.
Qed.

End Loop.

(** ** The scroll cursor *)

Section Cursor.
Context (E : Env).
Import cursor.

Lemma quiet_scrolls_forward t : Forall quiet_event t -> Forall scrolls_forward t.
Proof.
  apply Forall_impl. intros [R c r]. destruct c; cbn; try tauto; exact (fun _ => I).
Qed.

(** In an iteration, [ScrollDown] asks for 600 and [ScrollToPosition] for
    the position of the group located in that iteration, less 50. *)
Lemma body_scrolls_forward nowYear dateRange st w :
  wp E (main.body nowYear dateRange st)
     (fun _ _ t => Forall located_in_band t -> Forall scrolls_forward t) w.
Proof.
  unfold main.body.
  repeat wp_step.
  all: try (eapply wp_conseq; [ apply deselectRetry_quiet | cbn beta; intros ? ? td Htd ];
            apply quiet_scrolls_forward in Htd; repeat wp_step).
  all: cbn [wp app]; intros HB.
  all: rewrite ?Forall_cons_iff, ?Forall_app, ?Forall_cons_iff in HB;
       cbn [located_in_band] in HB.
  all: repeat first [ apply Forall_nil | apply Forall_cons
                    | apply Forall_app; split | assumption ].
  all: unfold scrolls_forward, trace.scroll_delta,
         navigation.ScrollDown_delta, navigation.ScrollToPosition_delta,
         navigation.DefaultScrollAmount; try exact I.
  all: try reflexivity.
  all: decompose [and] HB; lra.
Qed.

(** The set-up of [run] before the loop and the log line after it do not
    scroll and do not locate dates. *)
Lemma run_wp (P : list Event -> Prop) nowYear dateRange :
  P [] ->
  (forall t1 t2, P t1 -> P t2 -> P (t1 ++ t2)) ->
  (forall ev, trace.scroll_delta ev = None -> trace.is_close ev = false ->
              (forall r, ev <> Ev selection_SelectFirstVisibleDate r) -> P [ev]) ->
  (forall ev, trace.is_close ev = true -> P [ev]) ->
  (forall st w, wp E (main.body nowYear dateRange st) (fun _ _ t => P t) w) ->
  forall fuel w,
    wp E (main.run fuel nowYear dateRange) (fun _ _ t => P t) w.
Proof.
  intros Hnil Happ Hev Hclose Hbody fuel w.
  assert (Hcons : forall ev t, P [ev] -> P t -> P (ev :: t)).
  { intros ev t H1 H2. change (P ([ev] ++ t)). auto. }
  unfold main.run. repeat wp_step.
  all: try (eapply wp_conseq; [ apply (loop_wp E P nowYear dateRange Hnil Happ Hbody) | ];
            cbn beta; intros [st' | st'] ? tl Htl; repeat wp_step).
  all: cbn [wp app].
  all: repeat lazymatch goal with
              | |- ?Q (@nil Event) => exact Hnil
              | |- ?Q (@cons Event _ (@nil Event)) => idtac
              | |- ?Q (@cons Event _ _) => apply Hcons
              | |- ?Q (@app Event _ _) => apply Happ
              end.
  all: try assumption.
  all: try (apply Hclose; reflexivity).
  all: apply Hev; try reflexivity; intros; discriminate.
Qed.

Lemma run_scrolls_forward fuel nowYear dateRange w :
  wp E (main.run fuel nowYear dateRange)
     (fun _ _ t => Forall located_in_band t -> Forall scrolls_forward t) w.
Proof.
  apply run_wp.
  - intros _; constructor.
  - intros t1 t2 H1 H2 H. apply Forall_app in H as [Ha Hb].
    apply Forall_app; auto.
  - intros ev Hd _ _ _. constructor; [ | constructor ].
    unfold scrolls_forward. rewrite Hd. exact I.
  - intros [R c r] Hc _. destruct c; try discriminate.
    constructor; [ exact I | constructor ].
  - apply body_scrolls_forward.
Qed.

Local Open Scope Q_scope.

Lemma scrolled_app t1 t2 :
  trace.scrolled (t1 ++ t2) == trace.scrolled t1 + trace.scrolled t2.
Proof.
  induction t1 as [| ev t1 IH]; cbn [app trace.scrolled].
  - lra.
  - destruct (trace.scroll_delta ev); rewrite IH; lra.
Qed.

Lemma scrolled_nonneg t : Forall scrolls_forward t -> 0 <= trace.scrolled t.
Proof.
  induction 1 as [| ev t Hev _ IH]; cbn [trace.scrolled]; [ lra | ].
  unfold scrolls_forward in Hev. destruct (trace.scroll_delta ev); lra.
Qed.

End Cursor.

(** C2. Monotonic cursor. In every run of [run], in any environment, in
    which each group located by [SelectFirstVisibleDate] has a position of
    80 or more (it comes from the scan band), every scroll the program
    issues has a positive amount, 600 for [ScrollDown] and [y - 50] for
    [ScrollToPosition(y)], so that the cumulative scroll offset never
    decreases: the offset after any prefix of the run is at most the
    offset after the run. *)
Theorem monotonic_cursor (E : Env) fuel nowYear dateRange (w : World E) t1 t2 :
  trace_of (interp E (main.run fuel nowYear dateRange) w) = t1 ++ t2 ->
  Forall cursor.located_in_band (t1 ++ t2) ->
  Forall cursor.scrolls_forward (t1 ++ t2)
  /\ (trace.scrolled t1 <= trace.scrolled (t1 ++ t2))%Q
  /\ navigation.ScrollDown_delta = 600%Q
  /\ forall y, navigation.ScrollToPosition_delta y = (y - 50)%Q.
Proof.
  intros Ht HB.
  pose proof (run_scrolls_forward E fuel nowYear dateRange w) as H.
  apply wp_interp in H. rewrite Ht in H. specialize (H HB).
  split; [ exact H | split; [ | split; reflexivity ] ].
  apply Forall_app in H as [_ H2]. apply scrolled_nonneg in H2.
  rewrite scrolled_app. lra.
Qed.

Lemma monotonic_cursor_witness :
  let t := trace_of (interp scripted.env (main.run 3 2026 examples.june2024)
                            (scripted.presents (examples.threeGroups 120 95 300))) in
  Forall cursor.located_in_band t
  /\ Forall cursor.scrolls_forward t
  /\ (trace.scrolled (firstn 20 t) <= trace.scrolled t)%Q.
Proof.
  cbv zeta.
  assert (HB : Forall cursor.located_in_band
                 (trace_of (interp scripted.env (main.run 3 2026 examples.june2024)
                              (scripted.presents (examples.threeGroups 120 95 300))))).
  { vm_compute.
    repeat (constructor; [ try exact I; try discriminate | ]); constructor. }
  split; [ exact HB | ].
  match goal with |- Forall _ ?t /\ _ =>
    rewrite <- (firstn_skipn 20 t) at 1 3 end.
  refine ((fun H => conj (proj1 H) (proj1 (proj2 H)))
            (monotonic_cursor scripted.env 3 2026 examples.june2024 _ _ _ _ _)).
  - symmetry. apply firstn_skipn.
  - rewrite firstn_skipn. exact HB.
Defined.

(** ** The end of [run]: report and session *)

Section Teardown.
Context (E : Env).
Import cursor.

Lemma closes_cons ev t :
  trace.closes (ev :: t) = ((if trace.is_close ev then 1 else 0) + trace.closes t)%nat.
Proof. unfold trace.closes. cbn [filter]. destruct (trace.is_close ev); reflexivity. Qed.

Lemma closes_app t1 t2 :
  trace.closes (t1 ++ t2) = (trace.closes t1 + trace.closes t2)%nat.
Proof. unfold trace.closes. rewrite filter_app, length_app. reflexivity. Qed.

Lemma reports_cons ev t :
  trace.reports (ev :: t) = ((if trace.is_report ev then 1 else 0) + trace.reports t)%nat.
Proof. unfold trace.reports. cbn [filter]. destruct (trace.is_report ev); reflexivity. Qed.

Lemma reports_app t1 t2 :
  trace.reports (t1 ++ t2) = (trace.reports t1 + trace.reports t2)%nat.
Proof. unfold trace.reports. rewrite filter_app, length_app. reflexivity. Qed.

Lemma untouched_app t1 t2 : untouched t1 -> untouched t2 -> untouched (t1 ++ t2).
Proof.
  unfold untouched. rewrite closes_app, reports_app. lia.
Qed.

Lemma quiet_untouched t : Forall quiet_event t -> untouched t.
Proof.
  induction 1 as [| [R c r] t Hev _ [IH1 IH2]]; [ split; reflexivity | ].
  split; [ rewrite closes_cons | rewrite reports_cons ];
    destruct c; cbn in Hev |- *; tauto.
Qed.

Ltac untouched_trace :=
  repeat lazymatch goal with
         | |- untouched (@nil Event) => split; reflexivity
         | |- untouched (@cons Event ?ev ?t) =>
             change (untouched ([ev] ++ t)); apply untouched_app;
             [ split; reflexivity | ]
         | |- untouched (@app Event _ _) => apply untouched_app
         | |- untouched _ => idtac
         end.

(** An iteration of the loop neither prints the report nor closes the
    session. *)
Lemma body_untouched nowYear dateRange st w :
  wp E (main.body nowYear dateRange st) (fun _ _ t => untouched t) w.
Proof.
  unfold main.body.
  repeat wp_step.
  all: try (eapply wp_conseq; [ apply deselectRetry_quiet | cbn beta; intros ? ? td Htd ];
            apply quiet_untouched in Htd; repeat wp_step).
  all: cbn [wp app].
  all: untouched_trace; assumption.
Qed.

Lemma loop_untouched fuel nowYear dateRange st w :
  wp E (main.loop fuel nowYear dateRange st) (fun _ _ t => untouched t) w.
Proof.
  apply loop_wp.
  - split; reflexivity.
  - apply untouched_app.
  - apply body_untouched.
Qed.

Lemma ends_with_cons ev a t : ends_with ev t -> ends_with ev (a :: t).
Proof. intros [t' ->]. exists (a :: t'). reflexivity. Qed.

Lemma ends_with_app ev t1 t : ends_with ev t -> ends_with ev (t1 ++ t).
Proof. intros [t' ->]. exists (t1 ++ t'). now rewrite app_assoc. Qed.

Lemma run_teardown fuel nowYear dateRange w :
  wp E (main.run fuel nowYear dateRange)
     (fun a _ t =>
        match a with
        | main.Blocked _ =>
            trace.closes t = 0%nat
            /\ ends_with (Ev (log_Print logProcessingComplete) tt) t
        | main.Looping _ => trace.closes t = 0%nat
        | main.Returned _ _ =>
            trace.reports t = 1%nat /\ (trace.closes t <= 1)%nat
        end) w.
Proof.
  unfold main.run. repeat wp_step.
  all: try (eapply wp_conseq; [ apply loop_untouched | ];
            cbn beta; intros [st' | st'] ? tl [Hc Hp]; repeat wp_step).
  all: cbn [wp app].
  all: repeat match goal with u : unit |- _ => destruct u end.
  all: try (split; [ | repeat apply ends_with_cons; apply ends_with_app;
                       exists []; reflexivity ]).
  all: rewrite ?closes_cons, ?closes_app, ?closes_cons, ?reports_cons; cbn; try lia.
  all: rewrite ?Hc; cbn; lia.
Qed.

End Teardown.

(** C3, as amended. Whenever the traversal loop terminates (the photos are
    exhausted, a date before the range is met, or the browser is found
    closed) [run] does not return: it logs that processing is complete and
    blocks on [select {}] with the browser session left open, the
    deferred [browserCtx.Close()] has not run.  When [run] returns an
    error before the loop, the report is printed once and the session is
    closed at most once. *)
Theorem session_left_open (E : Env) fuel nowYear dateRange (w : World E) :
  match result_of (interp E (main.run fuel nowYear dateRange) w) with
  | main.Blocked _ =>
      trace.closes (trace_of (interp E (main.run fuel nowYear dateRange) w)) = 0%nat
      /\ exists t',
           trace_of (interp E (main.run fuel nowYear dateRange) w)
           = t' ++ [Ev (log_Print logProcessingComplete) tt]
  | main.Looping _ =>
      trace.closes (trace_of (interp E (main.run fuel nowYear dateRange) w)) = 0%nat
  | main.Returned _ _ =>
      trace.reports (trace_of (interp E (main.run fuel nowYear dateRange) w)) = 1%nat
      /\ (trace.closes (trace_of (interp E (main.run fuel nowYear dateRange) w)) <= 1)%nat
  end.
Proof.
  pose proof (run_teardown E fuel nowYear dateRange w) as H.
  apply wp_interp in H. exact H.
Qed.

(** C3 as the specification words it fails: on a browser that shows no
    date at all the loop ends after five empty rounds and [run] blocks;
    no report has been printed and the session has not been closed. *)
Lemma report_and_close_not_once : ~ as_stated.report_and_close_exactly_once.
Proof.
  intros H.
  specialize (H scripted.env 5%nat 2026%Z examples.allDates scripted.quiet
                report.New eq_refl).
  destruct H as [H _]. vm_compute in H. discriminate.
Qed.

(** ** The early stop and the fatal de-selection *)

(** The early stop, on the loop alone.  Were [SelectFirstVisibleDate] to
    return, scan after scan, the groups "5 June 2024", "1 June 2024" and
    "25 May 2024" (at any positions) with nothing failing, the loop with
    the range from 2024-06-01 to 2024-06-30 would process the first two
    groups (two downloads, [DatesProcessed] = 2, nothing skipped) and end
    at the third one, which is before the range: after locating it the
    loop logs, de-selects and stops; the only scrolls of the run are the
    two that move past the first two groups. *)
Theorem early_stop (fuel : nat) (nowYear : Z) (y1 y2 y3 : Q) :
  (3 <= fuel)%nat ->
  let x := interp scripted.env (main.loop fuel nowYear examples.june2024 examples.start)
                  (scripted.presents (examples.threeGroups y1 y2 y3)) in
  (exists st, result_of x = main.Finished st
              /\ report.DatesProcessed (main.stats st) = 2%Z
              /\ report.DownloadsStarted (main.stats st) = 2%Z
              /\ report.SkippedDates (main.stats st) = 0%Z)
  /\ cursor.scrolls (trace_of x)
     = [Ev (navigation_ScrollToPosition y1) None; Ev (navigation_ScrollToPosition y2) None]
  /\ cursor.downloads (trace_of x)
     = [Ev download_ClickDownloadButton None; Ev download_ClickDownloadButton None]
  /\ exists t,
       trace_of x
       = t ++ [Ev selection_SelectFirstVisibleDate
                  (Ok (Some (selection.mkDateInfo "25 May 2024" y3)));
               Ev (log_Print (logDateFound "25 May 2024")) tt;
               Ev (log_Print (logBeforeRange "25 May 2024")) tt;
               Ev selection_Deselect None].
Proof.
  intros Hfuel.
  destruct fuel as [| [| [| fuel]]]; try lia.
  cbv zeta. split; [ | split; [ | split ] ].
  - eexists. split; [ reflexivity | ]. repeat split.
  - reflexivity.
  - reflexivity.
  - eexists. vm_compute.
    match goal with |- ?l = _ =>
      let n := constr:((List.length l - 4)%nat) in
      rewrite <- (firstn_skipn n l) at 1 end.
    reflexivity.
Qed.

Lemma early_stop_witness :
  (3 <= 3)%nat
  /\ cursor.scrolls
       (trace_of (interp scripted.env
                    (main.loop 3 2026 examples.june2024 examples.start)
                    (scripted.presents (examples.threeGroups 120 95 300))))
     = [Ev (navigation_ScrollToPosition 120) None; Ev (navigation_ScrollToPosition 95) None].
Proof.
  split; [ lia | ].
  exact (proj1 (proj2 (early_stop 3 2026 120 95 300 (le_n 3)))).
Defined.

(** C6, where the code departs from it.  A page shows the three groups
    "5 June 2024", "1 June 2024" and "25 May 2024", all of them in the
    scan band, on a browser on which nothing fails.  The test of the
    locating script of [SelectFirstVisibleDate] wants the month name to
    end the label (the date pattern of [ParseYandexDate] allows a year
    after it), so none of the three labels is a date label for it: no
    group is handed to the loop, which scrolls down five times, logs the
    end of the photos and ends with [DatesProcessed] = 0 and no
    download, whatever the current year. *)
Theorem groups_with_a_year_are_not_processed (nowYear : Z) :
  let x := interp (surface.env surface.quiet)
                  (main.loop 5 nowYear examples.june2024 examples.start)
                  (surface.mkPage examples.page2024 800 0 0 []) in
  map (fun el => selection.isDateLabel (strings.TrimSpace (selection.textContent el)))
      examples.page2024 = [false; false; false]
  /\ map (selection.inBand 800 0) examples.page2024 = [true; true; true]
  /\ map (fun el => datefilter.IsInRange nowYear examples.june2024
                       (selection.textContent el))
         examples.page2024 = [Ok true; Ok true; Ok false]
  /\ cursor.located (trace_of x) = []
  /\ cursor.downloads (trace_of x) = []
  /\ result_of x = main.Finished (main.mkLoopState report.New 5 0 "")
  /\ cursor.ends_with (Ev (log_Print logEndOfPhotos) tt) (trace_of x).
Proof.
  cbv zeta. repeat split.
  eexists. vm_compute.
  match goal with |- ?l = _ =>
    let n := constr:((List.length l - 1)%nat) in
    rewrite <- (firstn_skipn n l) at 1 end.
  reflexivity.
Qed.

(** The same page with the labels of the current year, "5 June", "1 June"
    and "25 May" in 2024: the groups are located one after the other,
    the first two are processed and the loop ends at the third. *)
Example early_stop_on_labels_of_the_current_year :
  let x := interp (surface.env surface.quiet)
                  (main.loop 5 2024 examples.june2024 examples.start)
                  (surface.mkPage examples.pageThisYear 800 0 0 []) in
  map selection.Text (cursor.located (trace_of x)) = ["5 June"; "1 June"; "25 May"]%string
  /\ List.length (cursor.scrolls (trace_of x)) = 2%nat
  /\ List.length (cursor.downloads (trace_of x)) = 2%nat
  /\ result_of x
     = main.Finished (main.mkLoopState (report.mkStats 2 2 0 0 []) 0 0 "25 May").
Proof. repeat split. Qed.

(** C7, where the code departs from it. [Deselect] fails in the retry loop
    with an error that [IsBrowserClosed] classifies as fatal, while the
    context is not cancelled: the loop logs that the browser was closed,
    leaves the retry loop only, and goes on to call [ScrollToPosition] on
    the page and to count the date as processed; the traversal loop is
    not left. *)
Theorem fatal_deselect_keeps_going (nowYear : Z) :
  let x := interp scripted.env (main.loop 1 nowYear examples.allDates examples.start)
                  examples.fatalDeselect in
  browser.IsBrowserClosed (Some examples.websocketClosed) = true
  /\ trace_of x
     = [ Ev browser_IsContextCanceled false;
         Ev (log_Print (logProcessingDate 1)) tt;
         Ev selection_ClearPendingSelection tt;
         Ev selection_SelectFirstVisibleDate
            (Ok (Some (selection.mkDateInfo "12 January" 100)));
         Ev (log_Print (logDateFound "12 January")) tt;
         Ev (log_Print (logDateSelected "12 January")) tt;
         Ev (time_Sleep 1500) tt;
         Ev download_ClickDownloadButton None;
         Ev (log_Print logDownloadStarted) tt;
         Ev (time_Sleep 4000) tt;
         Ev selection_Deselect (Some examples.websocketClosed);
         Ev (log_Print logBrowserClosed) tt;
         Ev browser_IsContextCanceled false;
         Ev (log_Print logDeselected) tt;
         Ev (navigation_ScrollToPosition 100) None;
         Ev (time_Sleep 1000) tt ]
  /\ result_of x
     = main.StillRunning
         (main.mkLoopState (report.mkStats 1 1 0 0 []) 0 0 "12 January").
Proof. repeat split. Qed.

(** ** Labels that do not parse *)

Section Conservatism.
Context (E : Env).
Import cursor conservatism.

Lemma processed_anyway_app di e rest more :
  processed_anyway di e rest -> processed_anyway di e (rest ++ more).
Proof.
  intros (r & rest' & ->). exists r, (rest' ++ more). reflexivity.
Qed.

Lemma after_location_app nowYear ev rest more :
  after_location nowYear ev rest -> after_location nowYear ev (rest ++ more).
Proof.
  destruct ev as [R c r]. destruct c; cbn; auto.
  destruct r as [[di |] | ?]; auto.
  intros H e He. apply processed_anyway_app. auto.
Qed.

Lemma conservative_app nowYear t1 t2 :
  conservative nowYear t1 -> conservative nowYear t2 ->
  conservative nowYear (t1 ++ t2).
Proof.
  induction t1 as [| ev t1 IH]; cbn [app conservative]; [ tauto | ].
  intros [H1 H2] H3. split; [ apply after_location_app | ]; auto.
Qed.

Lemma conservative_split nowYear t1 ev t2 :
  conservative nowYear (t1 ++ ev :: t2) -> after_location nowYear ev t2.
Proof.
  induction t1 as [| a t1 IH]; cbn [app conservative]; tauto.
Qed.

Lemma quiet_conservative nowYear t : Forall quiet_event t -> conservative nowYear t.
Proof.
  induction 1 as [| [R c r] t Hev _ IH]; cbn [conservative]; [ exact I | ].
  split; [ | exact IH ]. destruct c; cbn in Hev |- *; tauto.
Qed.

Lemma IsInRange_parse nowYear dr text :
  datefilter.Enabled dr = true ->
  match datefilter.IsInRange nowYear dr text with
  | Err err => datefilter.ParseYandexDate nowYear text = Err err
  | Ok _ => exists t, datefilter.ParseYandexDate nowYear text = Ok t
  end.
Proof.
  intros Hen. unfold datefilter.IsInRange. rewrite Hen. cbn [negb].
  destruct (datefilter.ParseYandexDate nowYear text) as [t | err]; [ | reflexivity ].
  destruct (time.Before _ _); [ eauto | ]. destruct (time.After _ _); eauto.
Qed.

Lemma body_conservative nowYear dateRange st w :
  wp E (main.body nowYear dateRange st)
     (fun _ _ t => datefilter.Enabled dateRange = true -> conservative nowYear t) w.
Proof.
  unfold main.body.
  repeat wp_step.
  all: try (eapply wp_conseq; [ apply deselectRetry_quiet | cbn beta; intros ? ? td Htd ];
            apply (quiet_conservative nowYear) in Htd; repeat wp_step).
  all: cbn [wp app]; intros Hen.
  all: repeat match goal with u : unit |- _ => destruct u end.
  all: try congruence.
  all: match goal with
       | H : datefilter.IsInRange _ _ ?text = _,
         Hd : datefilter.Enabled _ = true |- _ =>
           let P := fresh "P" in
           pose proof (IsInRange_parse nowYear dateRange text Hd) as P;
           rewrite H in P
       | _ => idtac
       end.
  all: cbn [conservative after_location].
  all: repeat lazymatch goal with
              | |- _ /\ _ => split
              | |- True => exact I
              | |- conservative _ (@app Event _ _) => apply conservative_app; [ assumption | ]
              | |- conservative _ _ => cbn [conservative after_location]
              end.
  all: try exact I.
  all: intros perr Hperr.
  all: try (destruct P; congruence).
  all: assert (perr = e) by congruence; subst perr.
  all: eexists; eexists; reflexivity.
Qed.

End Conservatism.

(** C8. Parse-failure conservatism. In every run of the loop with the
    range enabled, in any environment, each group handed over by
    [SelectFirstVisibleDate] whose label [ParseYandexDate] rejects is
    treated as within the range: the loop logs the group, logs that the
    date could not be parsed (with the label and the error), logs it as
    within range and selected, and goes on to click the download button;
    the group is neither skipped nor a reason to stop. *)
Theorem parse_failure_conservatism (E : Env) fuel nowYear dateRange st (w : World E)
    t1 di e t2 :
  datefilter.Enabled dateRange = true ->
  datefilter.ParseYandexDate nowYear (selection.Text di) = Err e ->
  trace_of (interp E (main.loop fuel nowYear dateRange st) w)
  = t1 ++ Ev selection_SelectFirstVisibleDate (Ok (Some di)) :: t2 ->
  conservatism.processed_anyway di e t2.
Proof.
  intros Hen Hparse Ht.
  assert (H : wp E (main.loop fuel nowYear dateRange st)
                (fun _ _ t => datefilter.Enabled dateRange = true
                              -> conservatism.conservative nowYear t) w).
  { apply (loop_wp E (fun t => datefilter.Enabled dateRange = true
                               -> conservatism.conservative nowYear t)).
    - intros _. exact I.
    - intros ta tb Ha Hb H. apply conservative_app; auto.
    - apply body_conservative. }
  apply wp_interp in H. rewrite Ht in H.
  apply conservative_split in H; [ | exact Hen ].
  exact (H e Hparse).
Qed.

Lemma parse_failure_conservatism_witness :
  exists rest,
    conservatism.processed_anyway
      (selection.mkDateInfo "yesterday" 100)
      (datefilter.errInvalidFormat "yesterday") rest.
Proof.
  eexists.
  eapply (parse_failure_conservatism scripted.env 1 2026
            examples.june2024 examples.start
            (scripted.presents [selection.mkDateInfo "yesterday" 100])
            [Ev browser_IsContextCanceled false;
             Ev (log_Print (logProcessingDate 1)) tt;
             Ev selection_ClearPendingSelection tt]).
  - reflexivity.
  - reflexivity.
  - reflexivity.
Defined.

(** ** Groups are handed over at most once *)

Section Locator.
Import selection.
Local Open Scope Q_scope.

Lemma In_insertByY a l c : In c (insertByY a l) -> c = a \/ In c l.
Proof.
  induction l as [| b r IH]; cbn [insertByY].
  - intros [<- | []]. auto.
  - destruct (Qle_bool (c_y a) (c_y b)).
    + intros [<- | H]; auto.
    + intros [<- | H]; [ right; left; reflexivity | ].
      destruct (IH H); [ auto | right; right; assumption ].
Qed.

Lemma In_sortByY l c : In c (sortByY l) -> In c l.
Proof.
  induction l as [| a r IH]; cbn [sortByY]; [ auto | ].
  intros H. apply In_insertByY in H as [-> | H]; [ left; reflexivity | right; auto ].
Qed.

(** What the locating script returns is a date label of the scan band. *)
Lemma firstVisibleDate_sound elements innerHeight scrollY c :
  firstVisibleDate elements innerHeight scrollY = Some c ->
  exists el, In el elements
             /\ isDateLabel (strings.TrimSpace (textContent el)) = true
             /\ inBand innerHeight scrollY el = true
             /\ c = candidate scrollY el.
Proof.
  unfold firstVisibleDate. intros H.
  assert (Hin : In c (sortByY (map (candidate scrollY)
                 (filter (fun el => isDateLabel (strings.TrimSpace (textContent el))
                                    && inBand innerHeight scrollY el) elements)))).
  { destruct (sortByY _) as [| x l]; [ discriminate | ].
    injection H as ->. left; reflexivity. }
  apply In_sortByY, in_map_iff in Hin. destruct Hin as (el & <- & Hel).
  apply filter_In in Hel as [Hel Hb]. apply andb_prop in Hb as [Hlabel Hband].
  exists el. auto.
Qed.




End Locator.

Section Once.
Context (o : surface.Oracle).
Import cursor once.
Local Open Scope Q_scope.


Lemma quiet_scrolls t : Forall quiet_event t -> forallb scroll_succeeded t = true.
Proof.
  induction 1 as [| [R c r] t Hev _ IH]; [ reflexivity | ].
  cbn [forallb]. rewrite IH. destruct c; cbn in Hev |- *; tauto.
Qed.

















End Once.




(** That run, as the loop sees it: the first group twice, then the
    second; three downloads for two groups. *)
Example failed_scroll_repeats_a_group :
  let x := interp (surface.env (examples.failsAt 15 examples.nodeDetached))
                  (main.loop 3 2026 examples.allDates examples.start)
                  (surface.mkPage examples.twoGroups 800 0 0 []) in
  browser.IsBrowserClosed (Some examples.nodeDetached) = false
  /\ nth_error (trace_of x) 15
     = Some (Ev (navigation_ScrollToPosition (220 # 2)) (Some examples.nodeDetached))
  /\ map once.pair (cursor.located (trace_of x))
     = [ ("12 January"%string, 110%Q); ("12 January"%string, 110%Q);
         ("11 January"%string, 350%Q) ]
  /\ List.length (cursor.downloads (trace_of x)) = 3%nat
  /\ result_of x
     = main.StillRunning
         (main.mkLoopState (report.mkStats 3 3 0 0 []) 0 0 "11 January").
Proof. repeat split. Qed.

(** Two groups that carry the same label can be handed over at the same
    position of the window, one after the other, on a page on which
    nothing fails: the place on the page tells them apart, the position
    in the window does not. *)
Example same_pair_for_two_groups :
  map once.pair
      (cursor.located
         (trace_of (interp (surface.env surface.quiet)
                      (main.loop 2 2026 examples.allDates examples.start)
                      (surface.mkPage
                         [ selection.mkElement "12 January" 40 100 200 20;
                           selection.mkElement "12 January" 40 160 200 20 ]
                         800 0 0 []))))
  = [ ("12 January"%string, 110%Q); ("12 January"%string, 110%Q) ].
Proof. reflexivity. Qed.

(** On the page of the examples the two groups labelled "12 January" are
    both handed over, once each: they stand at different places of the
    page. *)
Example same_label_twice_on_the_page :
  map once.placed
      (surface.handed
         (world_of (interp (surface.env surface.quiet)
                      (main.loop 10 2026 examples.allDates examples.start)
                      (surface.mkPage examples.page 800 0 0 []))))
  = [ ("12 January"%string, 110%Q); ("11 January"%string, 410%Q);
      ("12 January"%string, 710%Q) ].
Proof. reflexivity. Qed.

(** ** Fatal answers at the other call sites *)

Section Fatal.
Context (E : Env).
Import cursor fatal.

Lemma no_fatal_stops t1 t2 : no_fatal t1 -> fatal_stops t2 -> fatal_stops (t1 ++ t2).
Proof.
  induction 1 as [| ev t1 Hev _ IH]; cbn [app fatal_stops]; [ auto | ].
  intros H2. split; [ | auto ]. unfold stops_after. congruence.
Qed.

Lemma quiet_no_fatal t : Forall quiet_event t -> no_fatal t.
Proof.
  apply Forall_impl. intros [R c r]. destruct c; cbn; tauto.
Qed.

Lemma fatal_stops_split t1 ev t2 :
  fatal_stops (t1 ++ ev :: t2) -> stops_after ev t2.
Proof.
  induction t1 as [| a t1 IH]; cbn [app fatal_stops]; tauto.
Qed.

Ltac fatal_trace :=
  repeat lazymatch goal with
         | |- _ /\ _ => split
         | |- True => exact I
         | |- fatal_stops (@nil Event) => exact I
         | |- fatal_stops (@cons Event _ _) => cbn [fatal_stops]
         | |- fatal_stops (@app Event _ _) =>
             apply no_fatal_stops; [ assumption | ]
         | |- Forall _ (@nil Event) => constructor
         | |- Forall _ (@cons Event _ _) => constructor
         | |- Forall _ (@app Event _ _) => apply Forall_app; split; [ assumption | ]
         | |- _ => idtac
         end.

(** In an iteration, a fatal answer to locating a date, to scrolling down
    or to clicking the download button is followed by one log line and
    nothing else; an iteration that goes on to the next one has met no
    such answer. *)
Lemma body_fatal_stops nowYear dateRange st w :
  wp E (main.body nowYear dateRange st)
     (fun s _ t =>
        fatal_stops t
        /\ match s with
           | main.Continue _ => no_fatal t
           | main.Break _ => True
           end) w.
Proof.
  unfold main.body.
  repeat wp_step.
  all: try (eapply wp_conseq; [ apply deselectRetry_quiet | cbn beta; intros ? ? td Htd ];
            apply quiet_no_fatal in Htd; repeat wp_step).
  all: cbn [wp app].
  all: repeat match goal with u : unit |- _ => destruct u end.
  all: unfold no_fatal in *.
  all: fatal_trace.
  all: unfold stops_after; cbn [classified_fatal]; try congruence.
  all: try (intros _; reflexivity).
Qed.

Lemma loop_fatal_stops fuel nowYear dateRange st w :
  wp E (main.loop fuel nowYear dateRange st)
     (fun e _ t =>
        fatal_stops t
        /\ match e with
           | main.StillRunning _ => no_fatal t
           | main.Finished _ => True
           end) w.
Proof.
  revert st w. induction fuel as [| fuel IH]; intros st w.
  - cbn [main.loop wp]. split; [ exact I | constructor ].
  - cbn [main.loop wp]. eapply wp_conseq; [ apply body_fatal_stops | ].
    cbn beta. intros [st' | st'] w1 t1 [H1 H2].
    + cbn [wp]. rewrite app_nil_r. auto.
    + eapply wp_conseq; [ apply IH | ]. cbn beta. intros e _ t2 [H3 H4].
      split; [ apply no_fatal_stops; assumption | ].
      destruct e; [ exact I | apply Forall_app; split; assumption ].
Qed.

End Fatal.

(** The call sites that do leave the loop: in every run of the loop, in any
    environment, an answer that [IsBrowserClosed] classifies as fatal,
    given to [SelectFirstVisibleDate], [ScrollDown] or
    [ClickDownloadButton], is followed by the log line "Browser was
    closed" and by no other call, and the loop is left. *)
Theorem fatal_answer_stops (E : Env) fuel nowYear dateRange st (w : World E) t1 ev t2 :
  trace_of (interp E (main.loop fuel nowYear dateRange st) w) = t1 ++ ev :: t2 ->
  fatal.classified_fatal ev = true ->
  t2 = [Ev (log_Print logBrowserClosed) tt]
  /\ exists st', result_of (interp E (main.loop fuel nowYear dateRange st) w)
                 = main.Finished st'.
Proof.
  intros Ht Hev.
  pose proof (loop_fatal_stops E fuel nowYear dateRange st w) as H.
  apply wp_interp in H. rewrite Ht in H. destruct H as [H1 H2].
  split; [ exact (fatal_stops_split _ _ _ H1 Hev) | ].
  destruct (result_of _) as [st' | st']; [ eauto | ].
  apply Forall_app in H2 as [_ H2]. apply Forall_cons_iff in H2 as [H2 _].
  congruence.
Qed.

(** * More of the code *)

(** ** More on the date filter *)

Module datefilter_facts.
Import strings label strings_facts parse_facts parse_label parse_dates time datefilter.
Local Open Scope string_scope.
Local Open Scope Z_scope.

Lemma span_spec p s a b :
  span p s = (a, b) -> s = a ++ b /\ forallb p a = true /\ starts_outside p b.
Proof.
  revert a b. induction s as [| c s IH]; cbn [span]; intros a b.
  - intros [= <- <-]. repeat split.
  - destruct (p c) eqn:Hc.
    + destruct (span p s) as [a' b'] eqn:Hs. intros [= <- <-].
      destruct (IH _ _ eq_refl) as (-> & Ha & Hb).
      cbn. rewrite Hc. auto.
    + intros [= <- <-]. cbn. auto.
Qed.

Lemma forallb_app p a b : forallb p (a ++ b) = forallb p a && forallb p b.
Proof. induction a as [| c a IH]; cbn; [ reflexivity | ]. now rewrite IH, andb_assoc. Qed.

Lemma forallb_rev p s : forallb p (rev s) = forallb p s.
Proof.
  induction s as [| c s IH]; [ reflexivity | ].
  change (String c s) with (String c "" ++ s).
  rewrite rev_app, !forallb_app, IH. cbn. now rewrite andb_comm.
Qed.

Lemma TrimLeft_spaces sp s : forallb isSpace sp = true -> TrimLeft (sp ++ s) = TrimLeft s.
Proof.
  unfold TrimLeft. induction sp as [| c sp IH]; cbn [append forallb span]; [ reflexivity | ].
  intros H. apply andb_prop in H as [Hc Hsp]. rewrite Hc.
  specialize (IH Hsp). destruct (span isSpace (sp ++ s)). exact IH.
Qed.

Lemma TrimLeft_spec s :
  exists sp, s = sp ++ TrimLeft s /\ forallb isSpace sp = true
             /\ starts_outside isSpace (TrimLeft s).
Proof.
  unfold TrimLeft. destruct (span isSpace s) as [a b] eqn:H.
  apply span_spec in H. exists a. cbn. tauto.
Qed.

Lemma TrimLeft_all sp : forallb isSpace sp = true -> TrimLeft sp = "".
Proof. intros H. unfold TrimLeft. now rewrite (span_all _ _ H). Qed.

(** [TrimSpace] forgets the blanks around a text. *)
Lemma TrimSpace_around pre s post :
  forallb isSpace pre = true -> forallb isSpace post = true ->
  TrimSpace (pre ++ s ++ post) = TrimSpace s.
Proof.
  intros Hpre Hpost. unfold TrimSpace. f_equal.
  rewrite (TrimLeft_spaces _ _ Hpre).
  destruct (TrimLeft_spec s) as (sp & Hs & Hsp & Hout).
  rewrite Hs at 1. rewrite append_assoc, (TrimLeft_spaces _ _ Hsp).
  destruct (TrimLeft s) as [| c u] eqn:Hu.
  - cbn [append]. rewrite (TrimLeft_all _ Hpost). reflexivity.
  - rewrite (TrimLeft_id (String c u ++ post)) by exact Hout.
    rewrite rev_app. apply TrimLeft_spaces. now rewrite forallb_rev.
Qed.

Lemma TrimSpace_ends s :
  starts_outside isSpace (TrimSpace s) /\ starts_outside isSpace (rev (TrimSpace s)).
Proof.
  unfold TrimSpace.
  destruct (TrimLeft_spec s) as (sp & Hs & Hsp & Hout).
  destruct (TrimLeft_spec (rev (TrimLeft s))) as (sq & Hr & Hsq & Hout').
  split; [ | now rewrite rev_involutive ].
  set (v := TrimLeft (rev (TrimLeft s))) in *.
  assert (Hu : TrimLeft s = rev v ++ rev sq).
  { rewrite <- (rev_involutive (TrimLeft s)), Hr. apply rev_app. }
  destruct (rev v) as [| c r]; [ exact I | ].
  rewrite Hu in Hout. exact Hout.
Qed.

Lemma TrimSpace_idempotent s : TrimSpace (TrimSpace s) = TrimSpace s.
Proof. apply TrimSpace_id; apply TrimSpace_ends. Qed.

Lemma shape_intro day ws name yp :
  (String.length day = 1 \/ String.length day = 2)%nat ->
  forallb isDigit day = true ->
  isEmpty ws = false -> forallb reSpace ws = true ->
  isEmpty name = false -> forallb isLetter name = true ->
  match yp with
  | None => True
  | Some (ws', ys) =>
      isEmpty ws' = false /\ forallb reSpace ws' = true
      /\ String.length ys = 4%nat /\ forallb isDigit ys = true
  end ->
  label.shape day ws name yp = true.
Proof.
  intros Hlen Hd Ews Hws Enm Hnm Hyp. unfold label.shape, label.nonEmpty.
  rewrite Hd, Ews, Hws, Enm, Hnm.
  replace ((String.length day =? 1)%nat || (String.length day =? 2)%nat) with true
    by (symmetry; apply orb_true_iff; rewrite !Nat.eqb_eq; exact Hlen).
  destruct yp as [[ws' ys] |]; [ | reflexivity ].
  destruct Hyp as (E1 & E2 & E3 & E4). rewrite E1, E2, E3, E4. reflexivity.
Qed.

(** What the date pattern accepts has the shape of a label. *)
Lemma datePattern_inv s day name ys :
  datePattern s = Some (day, name, ys) ->
  exists ws yp,
    s = label.make day ws name yp
    /\ label.shape day ws name yp = true
    /\ ys = match yp with None => "" | Some (_, y) => y end.
Proof.
  unfold datePattern.
  destruct (span isDigit s) as [ds r1] eqn:Hds.
  apply span_spec in Hds as (-> & Hdig & Hr1).
  destruct ds as [| a [| b [| c t]]].
  - cbn. discriminate.
  - (* one digit *)
    cbn [isEmpty].
    destruct (span reSpace r1) as [ws r2] eqn:Hws.
    apply span_spec in Hws as (-> & Hsp & Hr2).
    destruct (isEmpty ws) eqn:Ews; [ discriminate | ].
    destruct (span isLetter r2) as [nm r3] eqn:Hnm.
    apply span_spec in Hnm as (-> & Hlet & Hr3).
    destruct (isEmpty nm) eqn:Enm; [ discriminate | ].
    destruct (isEmpty r3) eqn:Er3.
    + intros [= <- <- <-]. destruct r3; [ | discriminate ].
      exists ws, None. split; [ reflexivity | ]. split; [ | reflexivity ].
      apply shape_intro; cbn; auto.
    + destruct (span reSpace r3) as [ws' r4] eqn:Hws'.
      apply span_spec in Hws' as (-> & Hsp' & Hr4).
      destruct (isEmpty ws') eqn:Ews'; [ discriminate | ].
      destruct r4 as [| y1 [| y2 [| y3 [| y4 [| y5 r5]]]]]; try discriminate.
      destruct (isDigit y1 && isDigit y2 && isDigit y3 && isDigit y4) eqn:Hy;
        [ | discriminate ].
      intros [= <- <- <-].
      exists ws, (Some (ws', String y1 (String y2 (String y3 (String y4 ""))))).
      split; [ reflexivity | ]. split; [ | reflexivity ].
      apply shape_intro; cbn [String.length]; auto.
      repeat split; auto. cbn [forallb]. now rewrite andb_true_r, !andb_assoc.
  - (* two digits *)
    cbn [isEmpty].
    destruct (span reSpace r1) as [ws r2] eqn:Hws.
    apply span_spec in Hws as (-> & Hsp & Hr2).
    destruct (isEmpty ws) eqn:Ews; [ discriminate | ].
    destruct (span isLetter r2) as [nm r3] eqn:Hnm.
    apply span_spec in Hnm as (-> & Hlet & Hr3).
    destruct (isEmpty nm) eqn:Enm; [ discriminate | ].
    destruct (isEmpty r3) eqn:Er3.
    + intros [= <- <- <-]. destruct r3; [ | discriminate ].
      exists ws, None. split; [ reflexivity | ]. split; [ | reflexivity ].
      apply shape_intro; cbn; auto.
    + destruct (span reSpace r3) as [ws' r4] eqn:Hws'.
      apply span_spec in Hws' as (-> & Hsp' & Hr4).
      destruct (isEmpty ws') eqn:Ews'; [ discriminate | ].
      destruct r4 as [| y1 [| y2 [| y3 [| y4 [| y5 r5]]]]]; try discriminate.
      destruct (isDigit y1 && isDigit y2 && isDigit y3 && isDigit y4) eqn:Hy;
        [ | discriminate ].
      intros [= <- <- <-].
      exists ws, (Some (ws', String y1 (String y2 (String y3 (String y4 ""))))).
      split; [ reflexivity | ]. split; [ | reflexivity ].
      apply shape_intro; cbn [String.length]; auto.
      repeat split; auto. cbn [forallb]. now rewrite andb_true_r, !andb_assoc.
  - (* three digits or more: the third one is not a blank *)
    cbn [isEmpty].
    cbn [forallb] in Hdig.
    assert (Hc : isDigit c = true).
    { apply andb_prop in Hdig as [_ H]. apply andb_prop in H as [_ H].
      apply andb_prop in H as [H _]. exact H. }
    cbn [span]. rewrite (digit_not_reSpace _ Hc). cbn. discriminate.
Qed.

End datefilter_facts.

Section DateFilterMore.
Import strings label strings_facts parse_facts parse_label parse_dates time datefilter.
Import datefilter_facts.
Local Open Scope string_scope.
Local Open Scope Z_scope.

Lemma ParseYandexDate_trimmed nowYear text :
  ParseYandexDate nowYear (TrimSpace text) = ParseYandexDate nowYear text.
Proof. unfold ParseYandexDate. now rewrite TrimSpace_idempotent. Qed.

Lemma ParseYandexDate_make_unknown nowYear day ws name yp :
  label.shape day ws name yp = true ->
  lookup (ToLower name) monthMap = None ->
  ParseYandexDate nowYear (label.make day ws name yp) = Err (errInvalidMonth name).
Proof.
  intros Hshape Hm. unfold ParseYandexDate.
  rewrite (TrimSpace_make _ _ _ _ Hshape), (datePattern_make _ _ _ _ Hshape).
  apply shape_inv in Hshape.
  destruct Hshape as (Hlen & Hday & _).
  rewrite (Atoi_digits day (day_nonempty _ Hlen) Hday ltac:(lia)), Hm.
  reflexivity.
Qed.

Lemma NewDateRange_inv now from to dr :
  NewDateRange now from to = Ok dr ->
  Enabled dr = negb (isEmpty from && isEmpty to)
  /\ (Enabled dr = true -> From dr <= To dr).
Proof.
  unfold NewDateRange.
  destruct (isEmpty from && isEmpty to) eqn:Hboth.
  - intros [= <-]. cbn. split; [ reflexivity | discriminate ].
  - repeat match goal with
           | |- context [match ?x with Ok _ => _ | Err _ => _ end] =>
               destruct x; try discriminate
           end.
    all: destruct (After _ _) eqn:Ha; try discriminate.
    all: intros [= <-]; cbn; split; [ reflexivity | intros _ ].
    all: unfold After in Ha; apply Z.ltb_ge in Ha; exact Ha.
Qed.

(** X1. A range that [NewDateRange] returns is disabled exactly when both
    bounds were left empty, and otherwise its lower bound is not after
    its upper bound, whatever the instant at which it is built. *)
Theorem NewDateRange_well_formed (now : Time) (from to : string) (dr : DateRange) :
  NewDateRange now from to = Ok dr ->
  (Enabled dr = false <-> from = "" /\ to = "")
  /\ (Enabled dr = true -> From dr <= To dr).
Proof.
  intros H. apply NewDateRange_inv in H as [He Hle]. split; [ | exact Hle ].
  rewrite He. destruct from, to; cbn; split; try tauto; try discriminate.
  all: intros [? ?]; discriminate.
Qed.

Lemma NewDateRange_well_formed_witness :
  exists dr, NewDateRange (Date 2026 October 31) "2024-06-01" "" = Ok dr
             /\ Enabled dr = true /\ From dr <= To dr.
Proof.
  eexists. split; [ reflexivity | ].
  split; [ reflexivity | ].
  apply (NewDateRange_well_formed (Date 2026 October 31) "2024-06-01" "" _ eq_refl).
  reflexivity.
Defined.

(** X2. On a range that [NewDateRange] returned enabled, a label that
    parses is classified in exactly one way: within the range, before it
    or after it. *)
Theorem classification_is_exclusive (now : Time) (from to : string) (dr : DateRange)
    (nowYear : Z) (text : string) (t : Time) :
  NewDateRange now from to = Ok dr ->
  Enabled dr = true ->
  ParseYandexDate nowYear text = Ok t ->
  (IsInRange nowYear dr text = Ok true
   /\ IsBeforeRange nowYear dr text = false /\ IsAfterRange nowYear dr text = false)
  \/ (IsInRange nowYear dr text = Ok false
      /\ IsBeforeRange nowYear dr text = true /\ IsAfterRange nowYear dr text = false)
  \/ (IsInRange nowYear dr text = Ok false
      /\ IsBeforeRange nowYear dr text = false /\ IsAfterRange nowYear dr text = true).
Proof.
  intros Hdr Hen Ht. apply NewDateRange_inv in Hdr as [_ Hle]. specialize (Hle Hen).
  unfold IsInRange, IsBeforeRange, IsAfterRange. rewrite Hen, Ht. cbn [negb].
  unfold Before, After.
  destruct (t <? From dr) eqn:E1; destruct (To dr <? t) eqn:E2; auto.
  apply Z.ltb_lt in E1, E2. lia.
Qed.

Lemma classification_is_exclusive_witness :
  IsInRange 2026 examples.june2024 "31 May 2024" = Ok false
  /\ IsBeforeRange 2026 examples.june2024 "31 May 2024" = true
  /\ IsAfterRange 2026 examples.june2024 "31 May 2024" = false.
Proof.
  destruct (classification_is_exclusive (Date 2026 October 31) "2024-06-01" "2024-06-30"
              examples.june2024 2026 "31 May 2024" (Date 2024 May 31)
              eq_refl eq_refl eq_refl) as [H | [H | H]].
  - destruct H as [H _]. vm_compute in H. discriminate.
  - exact H.
  - destruct H as (_ & H & _). vm_compute in H. discriminate.
Defined.

Lemma ParseYandexDate_inv nowYear text t :
  ParseYandexDate nowYear text = Ok t ->
  exists day ws name yp m,
    TrimSpace text = label.make day ws name yp
    /\ label.shape day ws name yp = true
    /\ lookup (ToLower name) monthMap = Some m
    /\ t = Date (label.yearOf nowYear yp) m (strconv.digits_acc day 0).
Proof.
  intros H. rewrite <- ParseYandexDate_trimmed in H.
  destruct (datePattern (TrimSpace text)) as [[[day name] ys] |] eqn:Hp.
  - apply datePattern_inv in Hp as (ws & yp & Hmake & Hshape & _).
    rewrite Hmake in H.
    destruct (lookup (ToLower name) monthMap) as [m |] eqn:Hm.
    + rewrite (ParseYandexDate_make nowYear _ _ _ _ m Hshape Hm) in H.
      injection H as <-. exists day, ws, name, yp, m. auto.
    + rewrite (ParseYandexDate_make_unknown nowYear _ _ _ _ Hshape Hm) in H.
      discriminate.
  - unfold ParseYandexDate in H. rewrite TrimSpace_idempotent, Hp in H. discriminate.
Qed.

(** X3. The labels [ParseYandexDate] accepts are exactly those that, once
    the blanks around them are removed, are made of one or two digits,
    blanks, letters that spell a month name of [monthMap] whatever their
    case and, optionally, blanks and four digits; the date is
    [time.Date] of the year (the current one when absent), that month
    and that day. *)
Theorem ParseYandexDate_accepts (nowYear : Z) (text : string) (t : Time) :
  ParseYandexDate nowYear text = Ok t <->
  exists day ws name yp m,
    TrimSpace text = label.make day ws name yp
    /\ label.shape day ws name yp = true
    /\ lookup (ToLower name) monthMap = Some m
    /\ t = Date (label.yearOf nowYear yp) m (strconv.digits_acc day 0).
Proof.
  split.
  - apply ParseYandexDate_inv.
  - intros (day & ws & name & yp & m & Hmake & Hshape & Hm & ->).
    rewrite <- ParseYandexDate_trimmed, Hmake.
    now apply ParseYandexDate_make.
Qed.

(** X4. [ParseYandexDate] fails in two ways only: the text does not match
    the date pattern, or the word after the day is not a month name.
    The errors "invalid day" and "invalid year" are never returned: the
    pattern only lets digits through. *)
Theorem ParseYandexDate_errors (nowYear : Z) (text : string) (e : datefilter.error) :
  ParseYandexDate nowYear text = Err e ->
  (datePattern (TrimSpace text) = None /\ e = errInvalidFormat (TrimSpace text))
  \/ exists day name ys,
       datePattern (TrimSpace text) = Some (day, name, ys)
       /\ lookup (ToLower name) monthMap = None
       /\ e = errInvalidMonth name.
Proof.
  intros H.
  destruct (datePattern (TrimSpace text)) as [[[day name] ys] |] eqn:Hp.
  - right. exists day, name, ys. split; [ reflexivity | ].
    pose proof Hp as Hp'.
    apply datePattern_inv in Hp' as (ws & yp & Hmake & Hshape & _).
    rewrite <- ParseYandexDate_trimmed, Hmake in H.
    destruct (lookup (ToLower name) monthMap) as [m |] eqn:Hm.
    + rewrite (ParseYandexDate_make nowYear _ _ _ _ m Hshape Hm) in H. discriminate.
    + rewrite (ParseYandexDate_make_unknown nowYear _ _ _ _ Hshape Hm) in H.
      injection H as <-. auto.
  - left. unfold ParseYandexDate in H. rewrite Hp in H. injection H as <-. auto.
Qed.

Lemma ParseYandexDate_errors_witness :
  (datePattern (TrimSpace "12 Smarch") = None
   /\ errInvalidMonth "Smarch" = errInvalidFormat (TrimSpace "12 Smarch"))
  \/ exists day name ys,
       datePattern (TrimSpace "12 Smarch") = Some (day, name, ys)
       /\ lookup (ToLower name) monthMap = None
       /\ errInvalidMonth "Smarch" = errInvalidMonth name.
Proof. exact (ParseYandexDate_errors 2026 "12 Smarch" _ eq_refl). Defined.

(** X5. Blanks before and after a label do not matter to
    [ParseYandexDate]: tabs, line feeds, vertical tabs, form feeds,
    carriage returns and spaces around the text are dropped before it is
    matched. *)
Theorem ParseYandexDate_ignores_blanks (nowYear : Z) (pre text post : string) :
  forallb isSpace pre = true -> forallb isSpace post = true ->
  ParseYandexDate nowYear (pre ++ text ++ post) = ParseYandexDate nowYear text.
Proof.
  intros Hpre Hpost. unfold ParseYandexDate.
  now rewrite (TrimSpace_around pre text post Hpre Hpost).
Qed.

Lemma ParseYandexDate_ignores_blanks_witness :
  ParseYandexDate 2026 ("  " ++ "12 January" ++ " ") = ParseYandexDate 2026 "12 January".
Proof. exact (ParseYandexDate_ignores_blanks 2026 "  " "12 January" " " eq_refl eq_refl). Defined.

(** X6. The case of the letters of the month name does not matter: two
    labels that differ only by it parse to the same date, or both fail. *)
Theorem month_name_case_is_ignored (nowYear : Z) (day ws name1 name2 : string)
    (yp : label.YearPart) (t : Time) :
  label.shape day ws name1 yp = true ->
  label.shape day ws name2 yp = true ->
  ToLower name1 = ToLower name2 ->
  ParseYandexDate nowYear (label.make day ws name1 yp) = Ok t
  <-> ParseYandexDate nowYear (label.make day ws name2 yp) = Ok t.
Proof.
  intros H1 H2 Hlow.
  destruct (lookup (ToLower name1) monthMap) as [m |] eqn:Hm.
  - rewrite (ParseYandexDate_make nowYear _ _ _ _ m H1 Hm).
    rewrite Hlow in Hm. rewrite (ParseYandexDate_make nowYear _ _ _ _ m H2 Hm).
    tauto.
  - rewrite (ParseYandexDate_make_unknown nowYear _ _ _ _ H1 Hm).
    rewrite Hlow in Hm. rewrite (ParseYandexDate_make_unknown nowYear _ _ _ _ H2 Hm).
    split; discriminate.
Qed.

Lemma month_name_case_is_ignored_witness :
  ParseYandexDate 2026 "5 JUNE 2024" = Ok (Date 2024 June 5)
  <-> ParseYandexDate 2026 "5 June 2024" = Ok (Date 2024 June 5).
Proof.
  exact (month_name_case_is_ignored 2026 "5" " " "JUNE" "June" (Some (" ", "2024"))
           (Date 2024 June 5) eq_refl eq_refl eq_refl).
Defined.

End DateFilterMore.

Ltac calc_days :=
  repeat match goal with
         | |- context [time.daysBefore ?k] =>
             let v := eval vm_compute in (time.daysBefore k) in
             change (time.daysBefore k) with v
         | H : context [time.daysBefore ?k] |- _ =>
             let v := eval vm_compute in (time.daysBefore k) in
             change (time.daysBefore k) with v in H
         | |- context [(?a <=? ?b)%Z] =>
             let v := eval vm_compute in (a <=? b)%Z in
             change (a <=? b)%Z with v
         | H : context [(?a =? ?b)%Z] |- _ =>
             let v := eval vm_compute in (a =? b)%Z in
             change (a =? b)%Z with v in H
         end;
  cbn [andb orb] in *.

Section Calendar.
Import time calendar.
Local Open Scope Z_scope.

Lemma daysBeforeYear_succ y :
  daysBeforeYear (y + 1) = daysBeforeYear y + 365 + (if isLeap y then 1 else 0).
Proof.
  unfold daysBeforeYear, isLeap.
  replace (y + 1 - 1) with y by lia.
  destruct (y mod 4 =? 0) eqn:E4; destruct (y mod 100 =? 0) eqn:E100;
    destruct (y mod 400 =? 0) eqn:E400; cbn [andb orb negb];
    rewrite ?Z.eqb_eq, ?Z.eqb_neq in *;
    Z.to_euclidean_division_equations; lia.
Qed.

Lemma daysBeforeYear_mono y1 y2 : y1 <= y2 -> daysBeforeYear y1 <= daysBeforeYear y2.
Proof.
  intros H. unfold daysBeforeYear. Z.to_euclidean_division_equations. lia.
Qed.

(** The day of the year, from 0. *)
Lemma dateDays_valid y m d :
  1 <= m <= 12 ->
  dateDays y m d
  = daysBeforeYear y + daysBefore (m - 1)
    + (if isLeap y && (3 <=? m) then 1 else 0) + (d - 1) - unixEpochDays.
Proof.
  intros Hm. unfold dateDays.
  rewrite (Z.div_small (m - 1) 12), (Z.mod_small (m - 1) 12) by lia.
  replace (y + 0) with y by lia. replace (m - 1 + 1) with m by lia.
  reflexivity.
Qed.

Lemma month_cases m : 1 <= m <= 12 ->
  m = 1 \/ m = 2 \/ m = 3 \/ m = 4 \/ m = 5 \/ m = 6 \/ m = 7 \/ m = 8 \/ m = 9
  \/ m = 10 \/ m = 11 \/ m = 12.
Proof. lia. Qed.

(** Where the months start and end in the year. *)
Lemma month_span y m d :
  valid (y, m, d) = true ->
  daysBefore (m - 1) + (if isLeap y && (3 <=? m) then 1 else 0) + 1
  <= daysBefore (m - 1) + (if isLeap y && (3 <=? m) then 1 else 0) + d
  <= daysBefore m + (if isLeap y && (3 <=? m + 1) then 1 else 0).
Proof.
  unfold valid. intros H.
  apply andb_prop in H as [H H4]. apply andb_prop in H as [H H3].
  apply andb_prop in H as [H1 H2].
  apply Z.leb_le in H1, H2, H3, H4.
  split; [ lia | ].
  unfold daysIn in H4.
  destruct (month_cases m ltac:(lia)) as
    [-> | [-> | [-> | [-> | [-> | [-> | [-> | [-> | [-> | [-> | [-> | ->]]]]]]]]]]];
    destruct (isLeap y); calc_days; lia.
Qed.

Lemma month_starts_mono y m1 m2 :
  1 <= m1 -> m1 < m2 -> m2 <= 12 ->
  daysBefore m1 + (if isLeap y && (3 <=? m1 + 1) then 1 else 0)
  <= daysBefore (m2 - 1) + (if isLeap y && (3 <=? m2) then 1 else 0).
Proof.
  intros H1 H2 H3.
  destruct (month_cases m1 ltac:(lia)) as
    [-> | [-> | [-> | [-> | [-> | [-> | [-> | [-> | [-> | [-> | [-> | ->]]]]]]]]]]];
  destruct (month_cases m2 ltac:(lia)) as
    [-> | [-> | [-> | [-> | [-> | [-> | [-> | [-> | [-> | [-> | [-> | ->]]]]]]]]]]];
  try lia; destruct (isLeap y); calc_days; lia.
Qed.

Lemma year_span y m d :
  valid (y, m, d) = true ->
  daysBeforeYear y - unixEpochDays <= dateDays y m d
  < daysBeforeYear (y + 1) - unixEpochDays.
Proof.
  intros H. pose proof (month_span y m d H) as Hs.
  unfold valid in H.
  apply andb_prop in H as [H H4]. apply andb_prop in H as [H H3].
  apply andb_prop in H as [H1 H2].
  apply Z.leb_le in H1, H2, H3, H4.
  rewrite (dateDays_valid y m d) by lia. rewrite daysBeforeYear_succ.
  assert (0 <= daysBefore (m - 1)).
  { destruct (month_cases m ltac:(lia)) as
      [-> | [-> | [-> | [-> | [-> | [-> | [-> | [-> | [-> | [-> | [-> | ->]]]]]]]]]]];
      calc_days; lia. }
  assert (daysBefore m + (if isLeap y && (3 <=? m + 1) then 1 else 0)
          <= 365 + (if isLeap y then 1 else 0)).
  { destruct (month_cases m ltac:(lia)) as
      [-> | [-> | [-> | [-> | [-> | [-> | [-> | [-> | [-> | [-> | [-> | ->]]]]]]]]]]];
      destruct (isLeap y); calc_days; lia. }
  destruct (isLeap y && (3 <=? m)); lia.
Qed.

(** Earlier in the calendar, earlier in time. *)
Lemma dateDays_lt a b :
  valid a = true -> valid b = true -> leb b a = false ->
  (let '(y, m, d) := a in dateDays y m d) < (let '(y, m, d) := b in dateDays y m d).
Proof.
  destruct a as [[y1 m1] d1], b as [[y2 m2] d2]. intros Ha Hb Hlt.
  pose proof (year_span _ _ _ Ha) as Sa. pose proof (year_span _ _ _ Hb) as Sb.
  pose proof (month_span _ _ _ Ha) as Ma. pose proof (month_span _ _ _ Hb) as Mb.
  unfold leb in Hlt.
  apply orb_false_elim in Hlt as [Hy Hlt]. apply Z.ltb_ge in Hy.
  destruct (Z.eq_dec y1 y2) as [-> | Hne].
  - rewrite Z.eqb_refl in Hlt. cbn [andb] in Hlt.
    apply orb_false_elim in Hlt as [Hm Hlt]. apply Z.ltb_ge in Hm.
    unfold valid in Ha, Hb.
    apply andb_prop in Ha as [Ha _]. apply andb_prop in Ha as [Ha _].
    apply andb_prop in Ha as [A1 A2].
    apply andb_prop in Hb as [Hb _]. apply andb_prop in Hb as [Hb _].
    apply andb_prop in Hb as [B1 B2].
    apply Z.leb_le in A1, A2, B1, B2.
    rewrite (dateDays_valid y2 m1 d1), (dateDays_valid y2 m2 d2) by lia.
    destruct (Z.eq_dec m1 m2) as [-> | Hmne].
    + rewrite Z.eqb_refl in Hlt. cbn [andb] in Hlt. apply Z.leb_gt in Hlt. lia.
    + pose proof (month_starts_mono y2 m1 m2 ltac:(lia) ltac:(lia) ltac:(lia)). lia.
  - pose proof (daysBeforeYear_mono (y1 + 1) y2 ltac:(lia)). lia.
Qed.

Lemma leb_antisym a b : leb a b = true -> leb b a = true -> a = b.
Proof.
  destruct a as [[y1 m1] d1], b as [[y2 m2] d2]. unfold leb.
  rewrite !orb_true_iff, !andb_true_iff, !orb_true_iff, !andb_true_iff.
  rewrite !Z.ltb_lt, !Z.eqb_eq, !Z.leb_le.
  intros H1 H2. assert (y1 = y2 /\ m1 = m2 /\ d1 = d2) by lia.
  destruct H as (-> & -> & ->). reflexivity.
Qed.

Lemma Date_ltb a b :
  valid a = true -> valid b = true ->
  ((let '(y, m, d) := a in Date y m d) <? (let '(y, m, d) := b in Date y m d))
  = negb (leb b a).
Proof.
  intros Ha Hb.
  assert (Hpos : forall x y, x < y <-> x * secondsPerDay * nanosPerSecond
                                       < y * secondsPerDay * nanosPerSecond).
  { intros x y. unfold secondsPerDay, nanosPerSecond. lia. }
  destruct (leb b a) eqn:E; cbn [negb].
  - apply Z.ltb_ge.
    destruct (leb a b) eqn:E2.
    + rewrite (leb_antisym _ _ E E2). lia.
    + pose proof (dateDays_lt b a Hb Ha E2) as H.
      destruct a as [[y1 m1] d1], b as [[y2 m2] d2]. unfold Date.
      apply Hpos in H. lia.
  - apply Z.ltb_lt.
    pose proof (dateDays_lt a b Ha Hb E) as H.
    destruct a as [[y1 m1] d1], b as [[y2 m2] d2]. unfold Date.
    apply Hpos in H. exact H.
Qed.

Lemma substring_all s : String.substring 0 (String.length s) s = s.
Proof. induction s as [| c s IH]; cbn; [ reflexivity | now rewrite IH ]. Qed.

Lemma substring_split n s :
  (String.substring 0 n s ++ String.substring n (String.length s - n) s)%string = s.
Proof.
  revert s. induction n as [| n IH]; intros s.
  - rewrite Nat.sub_0_r, substring_all. now destruct s.
  - destruct s as [| c s]; [ reflexivity | ].
    cbn [String.substring String.length Nat.sub String.append].
    now rewrite IH.
Qed.

Lemma take_digits_inv n s a b :
  take_digits n s = Some (a, b) -> s = (a ++ b)%string /\ String.length a = n.
Proof.
  unfold take_digits.
  destruct (String.length (String.substring 0 n s) =? n)%nat eqn:E; [ | discriminate ].
  destruct (strings.forallb _ _); [ | discriminate ].
  intros [= <- <-]. split; [ symmetry; apply substring_split | now apply Nat.eqb_eq ].
Qed.

Lemma expect_inv c s r : expect c s = Some r -> s = String c r.
Proof.
  destruct s as [| d s]; [ discriminate | ]. cbn.
  destruct (Ascii.eqb c d) eqn:E; [ | discriminate ].
  apply Ascii.eqb_eq in E. now intros [= <-]; subst.
Qed.

(** What [time.Parse] accepts for the layout 2006-01-02 names a day that
    exists, and is read as that day. *)
Lemma Parse_inv s t :
  Parse_2006_01_02 s = Ok t ->
  valid (ofText s) = true
  /\ t = (let '(y, m, d) := ofText s in Date y m d).
Proof.
  unfold Parse_2006_01_02.
  destruct (take_digits 4 s) as [[ys s1] |] eqn:T1; [ | discriminate ].
  destruct (expect "-" s1) as [s2 |] eqn:X1; [ | discriminate ].
  destruct (take_digits 2 s2) as [[ms s3] |] eqn:T2; [ | discriminate ].
  destruct ((strconv.digits_acc ms 0 <=? 0) || (12 <? strconv.digits_acc ms 0)) eqn:Hm;
    [ discriminate | ].
  destruct (expect "-" s3) as [s4 |] eqn:X2; [ | discriminate ].
  destruct (take_digits 2 s4) as [[ds s5] |] eqn:T3; [ | discriminate ].
  destruct s5; [ | discriminate ].
  destruct ((strconv.digits_acc ds 0 <? 1)
            || (daysIn (strconv.digits_acc ms 0) (strconv.digits_acc ys 0)
                <? strconv.digits_acc ds 0)) eqn:Hd; [ discriminate | ].
  intros [= <-].
  assert (E : ofText s = (strconv.digits_acc ys 0, strconv.digits_acc ms 0,
                          strconv.digits_acc ds 0)).
  { clear Hm Hd.
    apply take_digits_inv in T1 as [-> L1], T2 as [-> L2], T3 as [-> L3].
    apply expect_inv in X1 as ->, X2 as ->.
    destruct ys as [| a1 [| a2 [| a3 [| a4 [| ? ?]]]]]; try discriminate L1.
    destruct ms as [| b1 [| b2 [| ? ?]]]; try discriminate L2.
    destruct ds as [| e1 [| e2 [| ? ?]]]; try discriminate L3.
    reflexivity. }
  rewrite E. split; [ | reflexivity ].
  unfold valid.
  apply orb_false_elim in Hm as [M1 M2], Hd as [D1 D2].
  apply Z.leb_gt in M1. apply Z.ltb_ge in M2, D1, D2.
  rewrite !andb_true_iff, !Z.leb_le. lia.
Qed.

End Calendar.

(** X7. With both bounds given, the range that [NewDateRange] returns
    holds exactly the days of the calendar from the [from] day to the
    [to] day, both included: for a label that names a day that exists,
    [IsInRange] answers whether that day lies between the two,
    [IsBeforeRange] whether it is earlier than the [from] day and
    [IsAfterRange] whether it is later than the [to] day. *)
Theorem range_holds_the_calendar_days_between (now : time.Time) (from to : string)
    (dr : datefilter.DateRange) (nowYear : Z) (day ws name : string)
    (yp : label.YearPart) (m : time.Month) :
  from <> ""%string -> to <> ""%string ->
  datefilter.NewDateRange now from to = Ok dr ->
  label.shape day ws name yp = true ->
  datefilter.lookup (strings.ToLower name) datefilter.monthMap = Some m ->
  calendar.valid (label.yearOf nowYear yp, m, strconv.digits_acc day 0) = true ->
  let c := (label.yearOf nowYear yp, m, strconv.digits_acc day 0) in
  let text := label.make day ws name yp in
  datefilter.IsInRange nowYear dr text
  = Ok (calendar.leb (calendar.ofText from) c && calendar.leb c (calendar.ofText to))
  /\ datefilter.IsBeforeRange nowYear dr text = negb (calendar.leb (calendar.ofText from) c)
  /\ datefilter.IsAfterRange nowYear dr text = negb (calendar.leb c (calendar.ofText to)).
Proof.
  intros Hf Ht Hdr Hshape Hm Hv c text.
  unfold datefilter.NewDateRange in Hdr.
  destruct from as [| f0 from']; [ contradiction | ].
  destruct to as [| t0 to']; [ contradiction | ].
  cbn [datefilter.isEmpty andb negb] in Hdr.
  destruct (time.Parse_2006_01_02 (String f0 from')) as [fd |] eqn:Pf; [ | discriminate ].
  destruct (time.Parse_2006_01_02 (String t0 to')) as [td |] eqn:Pt; [ | discriminate ].
  destruct (time.After fd td); [ discriminate | ].
  injection Hdr as <-.
  apply Parse_inv in Pf as [Vf ->], Pt as [Vt ->].
  unfold datefilter.IsInRange, datefilter.IsBeforeRange, datefilter.IsAfterRange.
  cbn [datefilter.Enabled datefilter.From datefilter.To negb].
  unfold text. rewrite (parse_dates.ParseYandexDate_make nowYear _ _ _ _ m Hshape Hm).
  unfold time.Before, time.After.
  pose proof (Date_ltb c (calendar.ofText (String f0 from')) Hv Vf) as B.
  pose proof (Date_ltb (calendar.ofText (String t0 to')) c Vt Hv) as A.
  unfold c in A, B. cbv beta iota in A, B.
  destruct (calendar.ofText (String f0 from')) as [[fy fm] fday].
  destruct (calendar.ofText (String t0 to')) as [[ty tm] tday].
  rewrite A, B. fold c.
  destruct (calendar.leb (fy, fm, fday) c), (calendar.leb c (ty, tm, tday)); auto.
Qed.

Lemma range_holds_the_calendar_days_between_witness :
  let c := (label.yearOf 2026 (Some (" ", "2024")%string), time.June,
            strconv.digits_acc "30" 0) in
  let text := label.make "30" " " "June" (Some (" ", "2024")%string) in
  datefilter.IsInRange 2026 examples.june2024 text
  = Ok (calendar.leb (calendar.ofText "2024-06-01") c
        && calendar.leb c (calendar.ofText "2024-06-30"))
  /\ datefilter.IsBeforeRange 2026 examples.june2024 text
     = negb (calendar.leb (calendar.ofText "2024-06-01") c)
  /\ datefilter.IsAfterRange 2026 examples.june2024 text
     = negb (calendar.leb c (calendar.ofText "2024-06-30")).
Proof.
  apply (range_holds_the_calendar_days_between
           (time.Date 2026 time.October 31) "2024-06-01" "2024-06-30"
           examples.june2024 2026 "30" " " "June" (Some (" ", "2024")%string) time.June).
  - discriminate.
  - discriminate.
  - reflexivity.
  - reflexivity.
  - reflexivity.
  - reflexivity.
Defined.

Section Locator2.
Import strings label strings_facts parse_facts parse_label parse_dates time datefilter.
Import datefilter_facts selection.
Local Open Scope string_scope.
Local Open Scope Z_scope.

Lemma toLowerChar_letter c : isLetter (toLowerChar c) = true -> isLetter c = true.
Proof.
  unfold toLowerChar, isLetter. destruct (isUpper c) eqn:E; [ reflexivity | ].
  rewrite E. auto.
Qed.

Lemma ToLower_letters s : forallb isLetter (ToLower s) = true -> forallb isLetter s = true.
Proof.
  induction s as [| c s IH]; cbn; [ reflexivity | ].
  intros H. apply andb_prop in H as [Hc Hs].
  now rewrite (toLowerChar_letter _ Hc), IH.
Qed.

Lemma ToLower_nonempty s : ToLower s <> "" -> s <> "".
Proof. destruct s; cbn; congruence. Qed.

Lemma monthNames_letters n :
  In n monthNames -> n <> "" /\ forallb isLetter n = true.
Proof.
  unfold monthNames. cbn [In]. intros H.
  repeat (destruct H as [<- | H]; [ split; [ discriminate | reflexivity ] | ]).
  destruct H.
Qed.

Lemma existsb_eqb_In (k : string) l : existsb (String.eqb k) l = true -> In k l.
Proof.
  intros H. apply existsb_exists in H as (x & Hx & E).
  apply String.eqb_eq in E. now subst.
Qed.

(** What the test of the locating script accepts: a day, blanks and a
    month name, nothing after it. *)
Lemma isDateLabel_inv text :
  isDateLabel text = true ->
  exists day ws name,
    text = day ++ ws ++ name
    /\ (String.length day = 1 \/ String.length day = 2)%nat
    /\ forallb isDigit day = true
    /\ isEmpty ws = false /\ forallb isSpace ws = true
    /\ name <> "" /\ forallb isLetter name = true
    /\ In (ToLower name) monthNames.
Proof.
  unfold isDateLabel.
  destruct (span isDigit text) as [ds r1] eqn:Hds.
  apply span_spec in Hds as (-> & Hdig & Hr1).
  assert (Hfin : forall day r,
             (String.length day = 1 \/ String.length day = 2)%nat ->
             forallb isDigit day = true ->
             (let '(ws, r2) := span isSpace r in
              if isEmpty ws then false
              else existsb (String.eqb (ToLower r2)) monthNames) = true ->
             exists ws name,
               r = ws ++ name
               /\ isEmpty ws = false /\ forallb isSpace ws = true
               /\ name <> "" /\ forallb isLetter name = true
               /\ In (ToLower name) monthNames).
  { intros day r Hlen Hd.
    destruct (span isSpace r) as [ws r2] eqn:Hws.
    apply span_spec in Hws as (-> & Hsp & _).
    destruct (isEmpty ws) eqn:Ews; [ discriminate | ].
    intros H. apply existsb_eqb_In in H.
    destruct (monthNames_letters _ H) as [Hne Hlet].
    exists ws, r2. repeat split; auto.
    - now apply ToLower_nonempty.
    - now apply ToLower_letters. }
  destruct ds as [| a [| b [| c t]]].
  - cbn. discriminate.
  - cbn [isEmpty]. intros H.
    destruct (Hfin (String a "") r1 (or_introl eq_refl) Hdig H) as (ws & name & -> & Hrest).
    exists (String a ""), ws, name. repeat split; try tauto; cbn; auto.
  - cbn [isEmpty]. intros H.
    destruct (Hfin (String a (String b "")) r1 (or_intror eq_refl) Hdig H)
      as (ws & name & -> & Hrest).
    exists (String a (String b "")), ws, name. repeat split; try tauto; cbn; auto.
  - cbn [isEmpty]. cbn [forallb] in Hdig.
    assert (Hc : isDigit c = true).
    { apply andb_prop in Hdig as [_ H]. apply andb_prop in H as [_ H].
      apply andb_prop in H as [H _]. exact H. }
    cbn [span]. rewrite (digit_not_isSpace _ Hc). cbn. discriminate.
Qed.

Lemma letter_not_digit c : isLetter c = true -> isDigit c = false.
Proof.
  intros H. apply isLetter_code in H. unfold isDigit.
  apply andb_false_intro2. apply Nat.leb_gt. lia.
Qed.

(** A label that ends with a year fails the test of the locating script. *)
Lemma isDateLabel_no_year day ws name ws' ys :
  label.shape day ws name (Some (ws', ys)) = true ->
  isDateLabel (label.make day ws name (Some (ws', ys))) = false.
Proof.
  intros Hshape. destruct (isDateLabel _) eqn:H; [ exfalso | reflexivity ].
  apply isDateLabel_inv in H
    as (day2 & ws2 & name2 & Heq & _ & _ & _ & _ & Hne & Hlet & _).
  apply shape_inv in Hshape as (_ & _ & _ & _ & _ & _ & _ & _ & Hlen & Hys).
  assert (Hys_ne : ys <> "") by (destruct ys; cbn in *; congruence).
  destruct (forallb_last isDigit ys Hys_ne Hys) as (pre & d & -> & Hd).
  assert (Hout : starts_outside isDigit (rev (label.make day ws name (Some (ws', pre ++ String d ""))))).
  { rewrite Heq, <- append_assoc.
    apply (rev_ends isDigit isLetter _ name2 Hne Hlet letter_not_digit). }
  unfold label.make in Hout. cbn [label.suffix] in Hout.
  rewrite <- !append_assoc in Hout. rewrite rev_app in Hout. cbn in Hout.
  congruence.
Qed.

Lemma lookup_monthMap_range k m : lookup k monthMap = Some m -> 1 <= m <= 12.
Proof.
  unfold monthMap. cbn [lookup].
  repeat (destruct (String.eqb k _); [ intros [= <-]; vm_compute; split; discriminate | ]).
  discriminate.
Qed.

End Locator2.

(** X8. The locating script never offers a label that ends with a year:
    its test wants the month name to end the text, so the groups of
    other years ("12 January 2023") are not located, whatever is on the
    page. *)
Theorem labels_with_a_year_are_never_located
    (elements : list selection.Element) (innerHeight scrollY : Q)
    (c : selection.Candidate) (day ws name ws' ys : string) :
  label.shape day ws name (Some (ws', ys)) = true ->
  selection.firstVisibleDate elements innerHeight scrollY = Some c ->
  selection.c_text c <> label.make day ws name (Some (ws', ys)).
Proof.
  intros Hshape Hc Heq.
  apply firstVisibleDate_sound in Hc as (el & _ & Hlabel & _ & ->).
  cbn [selection.candidate selection.c_text] in Heq.
  rewrite Heq, (isDateLabel_no_year _ _ _ _ _ Hshape) in Hlabel. discriminate.
Qed.

Lemma labels_with_a_year_are_never_located_witness :
  selection.c_text
    (selection.candidate 0 (selection.mkElement "12 January" 40 100 200 20))
  <> label.make "12" " " "January" (Some (" ", "2023"))%string.
Proof.
  apply (labels_with_a_year_are_never_located
           [selection.mkElement "12 January" 40 100 200 20;
            selection.mkElement "12 January 2023" 40 300 200 20] 800 0).
  - reflexivity.
  - reflexivity.
Defined.

(** X9. A label the locating script offers is read by [ParseYandexDate],
    when it parses, as a date of the current year: [time.Date] of that
    year, a month from 1 to 12 and a day from 0 to 99. *)
Theorem located_labels_are_read_in_the_current_year
    (elements : list selection.Element) (innerHeight scrollY : Q)
    (c : selection.Candidate) (nowYear : Z) (t : time.Time) :
  selection.firstVisibleDate elements innerHeight scrollY = Some c ->
  datefilter.ParseYandexDate nowYear (selection.c_text c) = Ok t ->
  exists month day,
    (1 <= month <= 12)%Z /\ (0 <= day <= 99)%Z /\ t = time.Date nowYear month day.
Proof.
  intros Hc Ht.
  apply firstVisibleDate_sound in Hc as (el & _ & Hlabel & _ & ->).
  cbn [selection.candidate selection.c_text] in Ht.
  pose proof Ht as Ht'.
  apply ParseYandexDate_inv in Ht' as (day & ws & name & yp & m & Hmake & Hshape & Hm & ->).
  rewrite datefilter_facts.TrimSpace_idempotent in Hmake.
  destruct yp as [[ws' ys] |].
  { rewrite Hmake, (isDateLabel_no_year _ _ _ _ _ Hshape) in Hlabel. discriminate. }
  exists m, (strconv.digits_acc day 0).
  split; [ exact (lookup_monthMap_range _ _ Hm) | ].
  split; [ | reflexivity ].
  apply parse_label.shape_inv in Hshape as (Hlen & Hday & _).
  destruct (parse_facts.digits_acc_bound day 0 Hday ltac:(lia)) as [H1 H2].
  assert (10 ^ Z.of_nat (String.length day) <= 100)%Z.
  { destruct Hlen as [-> | ->]; cbn; lia. }
  lia.
Qed.

Lemma located_labels_are_read_in_the_current_year_witness :
  exists month day,
    (1 <= month <= 12)%Z /\ (0 <= day <= 99)%Z
    /\ time.Date 2026 time.January 12 = time.Date 2026 month day.
Proof.
  apply (located_labels_are_read_in_the_current_year
           [selection.mkElement "12 January" 40 100 200 20] 800 0
           (selection.candidate 0 (selection.mkElement "12 January" 40 100 200 20))
           2026).
  - reflexivity.
  - reflexivity.
Defined.

Section Topmost.
Import selection.
Local Open Scope Q_scope.

Lemma insertByY_hd a l :
  exists c r, insertByY a l = c :: r
              /\ c_y c <= c_y a
              /\ match l with [] => True | b :: _ => c_y c <= c_y b end.
Proof.
  destruct l as [| b l']; cbn [insertByY].
  - exists a, []. repeat split. lra.
  - destruct (Qle_bool (c_y a) (c_y b)) eqn:E.
    + apply Qle_bool_iff in E. exists a, (b :: l'). repeat split; [ lra | exact E ].
    + assert (~ c_y a <= c_y b) by (rewrite <- Qle_bool_iff; congruence).
      exists b, (insertByY a l'). repeat split; lra.
Qed.

Lemma sortByY_hd_min l c r :
  sortByY l = c :: r -> forall x, In x l -> c_y c <= c_y x.
Proof.
  revert c r. induction l as [| a l IH]; intros c r; cbn [sortByY]; [ discriminate | ].
  intros H x Hx.
  destruct (insertByY_hd a (sortByY l)) as (c' & r' & E & Ha & Hb).
  rewrite E in H. injection H as <- <-.
  destruct Hx as [<- | Hx]; [ exact Ha | ].
  destruct (sortByY l) as [| b l'] eqn:Es.
  - destruct l as [| y l'']; [ destruct Hx | ].
    cbn [sortByY] in Es.
    destruct (insertByY_hd y (sortByY l'')) as (? & ? & E' & _). congruence.
  - eapply Qle_trans; [ exact Hb | ]. eapply IH; eauto.
Qed.

Lemma sortByY_nil l : sortByY l = [] -> l = [].
Proof.
  destruct l as [| a l]; [ reflexivity | ]. cbn [sortByY].
  destruct (insertByY_hd a (sortByY l)) as (? & ? & E & _). congruence.
Qed.

End Topmost.

(** X10. The locating script returns the topmost date label of the scan
    band: when no element of the page is a date label in the band it
    returns nothing, and otherwise it returns one of them, whose middle
    is not below the middle of any other. *)
Theorem firstVisibleDate_is_the_topmost
    (elements : list selection.Element) (innerHeight scrollY : Q) :
  let qualifies el :=
    selection.isDateLabel (strings.TrimSpace (selection.textContent el))
    && selection.inBand innerHeight scrollY el in
  match selection.firstVisibleDate elements innerHeight scrollY with
  | None => forall el, In el elements -> qualifies el = false
  | Some c =>
      (exists el, In el elements /\ qualifies el = true
                  /\ c = selection.candidate scrollY el)
      /\ forall el, In el elements -> qualifies el = true ->
                    (selection.c_y c <= selection.c_y (selection.candidate scrollY el))%Q
  end.
Proof.
  intros qualifies.
  destruct (selection.firstVisibleDate elements innerHeight scrollY) as [c |] eqn:H.
  - split.
    + apply firstVisibleDate_sound in H as (el & Hin & H1 & H2 & ->).
      exists el. unfold qualifies. rewrite H1, H2. auto.
    + intros el Hin Hq. unfold selection.firstVisibleDate in H.
      destruct (selection.sortByY _) as [| c' r] eqn:Es; [ discriminate | ].
      injection H as ->.
      apply (sortByY_hd_min _ _ _ Es).
      apply in_map, filter_In. auto.
  - intros el Hin. destruct (qualifies el) eqn:Hq; [ exfalso | reflexivity ].
    unfold selection.firstVisibleDate in H.
    destruct (selection.sortByY _) as [| c' r] eqn:Es; [ | discriminate ].
    apply sortByY_nil in Es.
    assert (Hm : In (selection.candidate scrollY el)
                    (map (selection.candidate scrollY)
                       (filter (fun el => selection.isDateLabel
                                            (strings.TrimSpace (selection.textContent el))
                                          && selection.inBand innerHeight scrollY el)
                               elements))).
    { apply in_map, filter_In. auto. }
    rewrite Es in Hm. destruct Hm.
Qed.

Section Wrapping.
Import strings strings_facts wrapping.
Local Open Scope string_scope.

Lemma ToLower_app a b : ToLower (a ++ b) = ToLower a ++ ToLower b.
Proof. induction a as [| c a IH]; cbn; congruence. Qed.

Lemma HasPrefix_agree a m p : HasPrefix (a ++ m) p = true -> agree a p = true.
Proof.
  revert p. induction a as [| x a IH]; intros p; [ reflexivity | ].
  destruct p as [| y p]; [ reflexivity | ].
  cbn. intros H. apply andb_prop in H as [H1 H2].
  rewrite H1. cbn. auto.
Qed.

Lemma Contains_clear pre m p :
  clear pre p = true -> Contains (pre ++ m) p = Contains m p.
Proof.
  induction pre as [| c pre IH]; [ reflexivity | ].
  cbn [clear]. intros H. apply andb_prop in H as [H1 H2].
  change (String c pre ++ m) with (String c (pre ++ m)).
  cbn [Contains]. fold (append pre m).
  destruct (HasPrefix (String c (pre ++ m)) p) eqn:E.
  - apply (HasPrefix_agree (String c pre) m p) in E. rewrite E in H1. discriminate.
  - cbn. auto.
Qed.

Lemma Contains_app_r pre m p : Contains m p = true -> Contains (pre ++ m) p = true.
Proof.
  rewrite !Contains_iff. intros (a & b & ->). exists (pre ++ a), b.
  now rewrite append_assoc.
Qed.

Lemma Errorf_same_class prefix e :
  In prefix prefixes ->
  browser.IsBrowserClosed (Some (Errorf prefix e)) = browser.IsBrowserClosed (Some e).
Proof.
  intros Hin.
  assert (Hclear : List.forallb (clear (ToLower prefix)) browser.closedPatterns = true).
  { unfold prefixes in Hin. cbn [In] in Hin.
    repeat (destruct Hin as [<- | Hin]; [ reflexivity | ]). destruct Hin. }
  unfold browser.IsBrowserClosed, Errorf.
  destruct e as [| | msg].
  - cbn [Error]. apply existsb_exists. exists "context canceled".
    split; [ left; reflexivity | ].
    rewrite ToLower_app. apply Contains_app_r. reflexivity.
  - cbn [Error]. apply existsb_exists. exists "context deadline exceeded".
    split; [ right; left; reflexivity | ].
    rewrite ToLower_app. apply Contains_app_r. reflexivity.
  - cbn [Error]. rewrite ToLower_app.
    rewrite forallb_forall in Hclear.
    induction browser.closedPatterns as [| p l IH]; [ reflexivity | ].
    cbn [existsb]. rewrite (Contains_clear _ _ _ (Hclear p (or_introl eq_refl))).
    f_equal. apply IH. intros x Hx. apply Hclear. now right.
Qed.

End Wrapping.

(** X11. The prefix that [SelectFirstVisibleDate] puts before the error
    of a failed browser call does not change how [IsBrowserClosed]
    classifies it: the error returned is fatal exactly when the error of
    the call that failed is. *)
Theorem SelectFirstVisibleDate_error_keeps_its_class
    (a : selection.Answers) (e : error) :
  selection.SelectFirstVisibleDate a = Err e ->
  exists u, wrapping.underlying a = Some u
            /\ browser.IsBrowserClosed (Some e) = browser.IsBrowserClosed (Some u).
Proof.
  unfold selection.SelectFirstVisibleDate, wrapping.underlying.
  destruct (selection.ansLocate a) as [[cand |] | u].
  - destruct (selection.ansHover a) as [u |].
    + intros [= <-]. exists u. split; [ reflexivity | ].
      apply Errorf_same_class. cbn. tauto.
    + destruct (selection.ansClick a) as [[] | u].
      * discriminate.
      * destruct (selection.ansFallback a); discriminate.
      * intros [= <-]. exists u. split; [ reflexivity | ].
        apply Errorf_same_class. cbn. tauto.
  - discriminate.
  - intros [= <-]. exists u. split; [ reflexivity | ].
    apply Errorf_same_class. cbn. tauto.
Qed.

Lemma SelectFirstVisibleDate_error_keeps_its_class_witness :
  exists u,
    wrapping.underlying
      (selection.mkAnswers (Err context_Canceled) None (Ok true) None) = Some u
    /\ browser.IsBrowserClosed
         (Some (errorString "error fetching dates: context canceled"))
       = browser.IsBrowserClosed (Some u).
Proof.
  exact (SelectFirstVisibleDate_error_keeps_its_class
           (selection.mkAnswers (Err context_Canceled) None (Ok true) None) _ eq_refl).
Defined.

(** X12. [ScrollDown] and [ScrollToPosition] return no error when the
    browser call succeeds, and otherwise an error that [IsBrowserClosed]
    classifies as it classifies the error of the call. *)
Theorem scroll_errors_keep_their_class (yPosition : Q) (answer : option error) :
  browser.IsBrowserClosed (wrapping.ScrollDown answer) = browser.IsBrowserClosed answer
  /\ browser.IsBrowserClosed (wrapping.ScrollToPosition yPosition answer)
     = browser.IsBrowserClosed answer
  /\ (wrapping.ScrollDown answer = None <-> answer = None)
  /\ (wrapping.ScrollToPosition yPosition answer = None <-> answer = None).
Proof.
  destruct answer as [e |]; cbn [wrapping.ScrollDown wrapping.ScrollToPosition].
  - split; [ apply Errorf_same_class; cbn; tauto | ].
    split; [ apply Errorf_same_class; cbn; tauto | ].
    split; split; discriminate.
  - repeat split.
Qed.

Section Filtering.
Context (E : Env).
Import cursor filtering.

Lemma clicked_app t1 t2 :
  clicked_before_next_scan t1 = false -> clicked_before_next_scan t2 = false ->
  clicked_before_next_scan (t1 ++ t2) = false.
Proof.
  induction t1 as [| [R c r] t1 IH]; cbn [app]; [ auto | ].
  destruct c; cbn [clicked_before_next_scan]; auto.
Qed.

Lemma kept_out_app nowYear dr ev rest more :
  clicked_before_next_scan more = false ->
  kept_out nowYear dr ev rest -> kept_out nowYear dr ev (rest ++ more).
Proof.
  intros Hm. destruct ev as [R c r]. destruct c; cbn; auto.
  destruct r as [[di |] | ?]; auto.
  intros H Hin. apply clicked_app; auto.
Qed.

Lemma safe_app nowYear dr t1 t2 :
  safe nowYear dr t1 -> safe nowYear dr t2 -> clicked_before_next_scan t2 = false ->
  safe nowYear dr (t1 ++ t2).
Proof.
  induction t1 as [| ev t1 IH]; cbn [app safe]; [ tauto | ].
  intros [H1 H2] H3 H4. split; [ apply kept_out_app | ]; auto.
Qed.

Lemma quiet_safe nowYear dr td rest :
  Forall quiet_event td -> safe nowYear dr rest -> safe nowYear dr (td ++ rest).
Proof.
  induction 1 as [| [R c r] t Hev _ IH]; cbn [app safe]; [ auto | ].
  intros H. split; [ | auto ]. destruct c; cbn in Hev |- *; tauto.
Qed.

Lemma safe_split nowYear dr t1 ev t2 :
  safe nowYear dr (t1 ++ ev :: t2) -> kept_out nowYear dr ev t2.
Proof.
  induction t1 as [| a t1 IH]; cbn [app safe]; tauto.
Qed.

Lemma IsInRange_disabled nowYear dr text :
  datefilter.Enabled dr = false -> datefilter.IsInRange nowYear dr text = Ok true.
Proof. intros H. unfold datefilter.IsInRange. now rewrite H. Qed.

Lemma body_safe nowYear dateRange st w :
  wp E (main.body nowYear dateRange st)
     (fun _ _ t => safe nowYear dateRange t /\ clicked_before_next_scan t = false) w.
Proof.
  unfold main.body.
  repeat wp_step.
  all: try (eapply wp_conseq; [ apply deselectRetry_quiet | cbn beta; intros ? ? td Htd ];
            repeat wp_step).
  all: cbn [wp app].
  all: repeat match goal with u : unit |- _ => destruct u end.
  all: match goal with
       | Hd : datefilter.Enabled _ = false |- _ =>
           pose proof (fun text => IsInRange_disabled nowYear dateRange text Hd)
       | _ => idtac
       end.
  all: split; [ | reflexivity ].
  all: cbn [safe kept_out clicked_before_next_scan].
  all: repeat lazymatch goal with
              | |- _ /\ _ => split
              | |- True => exact I
              | |- safe _ _ (@app Event _ _) =>
                  apply quiet_safe; [ assumption | cbn [safe kept_out] ]
              | |- _ => idtac
              end.
  all: try exact I.
  all: try reflexivity.
  all: intros Hout; congruence.
Qed.

Lemma loop_safe fuel nowYear dateRange st w :
  wp E (main.loop fuel nowYear dateRange st)
     (fun _ _ t => safe nowYear dateRange t /\ clicked_before_next_scan t = false) w.
Proof.
  apply (loop_wp E (fun t => safe nowYear dateRange t /\ clicked_before_next_scan t = false)).
  - split; [ exact I | reflexivity ].
  - intros t1 t2 [H1 H2] [H3 H4]. split; [ apply safe_app | apply clicked_app ]; auto.
  - apply body_safe.
Qed.

End Filtering.

(** X13. No group outside the range is downloaded.  In every run of the
    loop, in any environment, once [SelectFirstVisibleDate] has handed
    over a group for whose label [IsInRange] answers false, the download
    button is not clicked before the page is scanned again. *)
Theorem out_of_range_is_never_downloaded (E : Env) fuel nowYear dateRange st
    (w : World E) t1 di t2 :
  datefilter.IsInRange nowYear dateRange (selection.Text di) = Ok false ->
  trace_of (interp E (main.loop fuel nowYear dateRange st) w)
  = t1 ++ Ev selection_SelectFirstVisibleDate (Ok (Some di)) :: t2 ->
  filtering.clicked_before_next_scan t2 = false.
Proof.
  intros Hout Ht.
  pose proof (loop_safe E fuel nowYear dateRange st w) as H.
  apply wp_interp in H. rewrite Ht in H. destruct H as [H _].
  apply safe_split in H. exact (H Hout).
Qed.

Lemma out_of_range_is_never_downloaded_witness :
  filtering.clicked_before_next_scan
    [ Ev (log_Print (logDateFound "1 July 2024")) tt;
      Ev (log_Print (logAfterRange "1 July 2024")) tt;
      Ev selection_Deselect None;
      Ev (time_Sleep 500) tt;
      Ev (navigation_ScrollToPosition 100) None;
      Ev (time_Sleep 1000) tt ] = false.
Proof.
  apply (out_of_range_is_never_downloaded scripted.env 1 2026 examples.june2024
           examples.start
           (scripted.presents [selection.mkDateInfo "1 July 2024" 100])
           [Ev browser_IsContextCanceled false;
            Ev (log_Print (logProcessingDate 1)) tt;
            Ev selection_ClearPendingSelection tt]
           (selection.mkDateInfo "1 July 2024" 100)).
  - reflexivity.
  - reflexivity.
Defined.

Section Complete.
Context (E : Env).
Import cursor filtering.

Lemma let_through_app nowYear dr ev rest more :
  let_through nowYear dr ev rest -> let_through nowYear dr ev (rest ++ more).
Proof.
  destruct ev as [R c r]. destruct c; cbn; auto.
  destruct r as [[di |] | ?]; auto.
  intros H Hin. destruct (H Hin) as (r & rest' & ->).
  exists r, (rest' ++ more). now rewrite app_assoc.
Qed.

Lemma complete_app nowYear dr t1 t2 :
  complete nowYear dr t1 -> complete nowYear dr t2 -> complete nowYear dr (t1 ++ t2).
Proof.
  induction t1 as [| ev t1 IH]; cbn [app complete]; [ tauto | ].
  intros [H1 H2] H3. split; [ apply let_through_app | ]; auto.
Qed.

Lemma quiet_complete nowYear dr td : Forall quiet_event td -> complete nowYear dr td.
Proof.
  induction 1 as [| [R c r] t Hev _ IH]; cbn [complete]; [ exact I | ].
  split; [ | exact IH ]. destruct c; cbn in Hev |- *; tauto.
Qed.

Lemma complete_split nowYear dr t1 ev t2 :
  complete nowYear dr (t1 ++ ev :: t2) -> let_through nowYear dr ev t2.
Proof.
  induction t1 as [| a t1 IH]; cbn [app complete]; tauto.
Qed.

Lemma body_complete nowYear dateRange st w :
  wp E (main.body nowYear dateRange st) (fun _ _ t => complete nowYear dateRange t) w.
Proof.
  unfold main.body.
  repeat wp_step.
  all: try (eapply wp_conseq; [ apply deselectRetry_quiet | cbn beta; intros ? ? td Htd ];
            apply (quiet_complete nowYear dateRange) in Htd; repeat wp_step).
  all: cbn [wp app].
  all: repeat match goal with u : unit |- _ => destruct u end.
  all: cbn [complete let_through].
  all: repeat lazymatch goal with
              | |- _ /\ _ => split
              | |- True => exact I
              | |- complete _ _ (@app Event _ _) =>
                  apply complete_app; [ assumption | cbn [complete let_through] ]
              | |- _ => idtac
              end.
  all: try exact I.
  all: intros Hin; try congruence.
  all: unfold steps_to_download;
       match goal with Hd : datefilter.Enabled _ = _ |- _ => rewrite Hd end;
       cbn [app]; eexists; eexists; reflexivity.
Qed.

End Complete.

(** X14. Every group within the range is downloaded.  In every run of the
    loop, in any environment, once [SelectFirstVisibleDate] has handed
    over a group for whose label [IsInRange] answers true (which it does
    for every label when no range is set), the loop logs the group and
    goes on to click the download button, 1.5 seconds later. *)
Theorem in_range_is_always_downloaded (E : Env) fuel nowYear dateRange st
    (w : World E) t1 di t2 :
  datefilter.IsInRange nowYear dateRange (selection.Text di) = Ok true ->
  trace_of (interp E (main.loop fuel nowYear dateRange st) w)
  = t1 ++ Ev selection_SelectFirstVisibleDate (Ok (Some di)) :: t2 ->
  exists r rest,
    t2 = filtering.steps_to_download dateRange (selection.Text di) r ++ rest.
Proof.
  intros Hin Ht.
  assert (H : wp E (main.loop fuel nowYear dateRange st)
                (fun _ _ t => filtering.complete nowYear dateRange t) w).
  { apply (loop_wp E (filtering.complete nowYear dateRange)).
    - exact I.
    - apply complete_app.
    - apply body_complete. }
  apply wp_interp in H. rewrite Ht in H.
  apply complete_split in H. exact (H Hin).
Qed.

Lemma in_range_is_always_downloaded_witness :
  exists r rest,
    [ Ev (log_Print (logDateFound "5 June 2024")) tt;
      Ev (log_Print (logWithinRange "5 June 2024")) tt;
      Ev (log_Print (logDateSelected "5 June 2024")) tt;
      Ev (time_Sleep 1500) tt;
      Ev download_ClickDownloadButton None;
      Ev (log_Print logDownloadStarted) tt;
      Ev (time_Sleep 4000) tt;
      Ev selection_Deselect None;
      Ev (time_Sleep 1000) tt;
      Ev selection_HasActiveSelection false;
      Ev browser_IsContextCanceled false;
      Ev (log_Print logDeselected) tt;
      Ev (navigation_ScrollToPosition 100) None;
      Ev (time_Sleep 1000) tt ]
    = filtering.steps_to_download examples.june2024 "5 June 2024" r ++ rest.
Proof.
  apply (in_range_is_always_downloaded scripted.env 1 2026 examples.june2024
           examples.start
           (scripted.presents [selection.mkDateInfo "5 June 2024" 100])
           [Ev browser_IsContextCanceled false;
            Ev (log_Print (logProcessingDate 1)) tt;
            Ev selection_ClearPendingSelection tt]
           (selection.mkDateInfo "5 June 2024" 100)).
  - reflexivity.
  - reflexivity.
Defined.

Section Stops.
Context (E : Env).
Import cursor filtering.

Lemma none_before_stops nowYear dr t1 t2 :
  none_before nowYear dr t1 -> stops nowYear dr t2 -> stops nowYear dr (t1 ++ t2).
Proof.
  induction 1 as [| ev t1 Hev _ IH]; cbn [app stops]; [ auto | ].
  intros H2. split; [ | auto ]. congruence.
Qed.

Lemma quiet_none_before nowYear dr t : Forall quiet_event t -> none_before nowYear dr t.
Proof.
  apply Forall_impl. intros [R c r]. destruct c; cbn; tauto.
Qed.

Lemma stops_split nowYear dr t1 ev t2 :
  stops nowYear dr (t1 ++ ev :: t2) ->
  before_range nowYear dr ev = true -> last_steps ev t2.
Proof.
  induction t1 as [| a t1 IH]; cbn [app stops]; tauto.
Qed.

Lemma IsBeforeRange_out nowYear dr text :
  datefilter.IsBeforeRange nowYear dr text = true ->
  datefilter.IsInRange nowYear dr text = Ok false.
Proof.
  unfold datefilter.IsBeforeRange, datefilter.IsInRange.
  destruct (negb (datefilter.Enabled dr)); [ discriminate | ].
  destruct (datefilter.ParseYandexDate nowYear text); [ | discriminate ].
  now intros ->.
Qed.

Lemma body_stops nowYear dateRange st w :
  wp E (main.body nowYear dateRange st)
     (fun s _ t =>
        stops nowYear dateRange t
        /\ match s with
           | main.Continue _ => none_before nowYear dateRange t
           | main.Break _ => True
           end) w.
Proof.
  unfold main.body.
  repeat wp_step.
  all: try (eapply wp_conseq; [ apply deselectRetry_quiet | cbn beta; intros ? ? td Htd ];
            apply (quiet_none_before nowYear dateRange) in Htd; repeat wp_step).
  all: cbn [wp app].
  all: repeat match goal with u : unit |- _ => destruct u end.
  all: unfold none_before in *.
  all: repeat lazymatch goal with
              | |- _ /\ _ => split
              | |- True => exact I
              | |- stops _ _ (@nil Event) => exact I
              | |- stops _ _ (@cons Event _ _) => cbn [stops]
              | |- stops _ _ (@app Event _ _) =>
                  apply none_before_stops; [ assumption | ]
              | |- Forall _ (@nil Event) => constructor
              | |- Forall _ (@cons Event _ _) => constructor
              | |- Forall _ (@app Event _ _) => apply Forall_app; split; [ assumption | ]
              | |- _ => idtac
              end.
  all: cbn [before_range last_steps]; try discriminate; try reflexivity.
  all: try (intros _; eexists; reflexivity).
  all: match goal with
       | Hd : datefilter.Enabled _ = false |- _ =>
           pose proof (fun text => IsInRange_disabled nowYear dateRange text Hd)
       | _ => idtac
       end.
  all: try (intros Hb; pose proof (IsBeforeRange_out _ _ _ Hb); congruence).
  all: try (destruct (datefilter.IsBeforeRange _ _ _) eqn:Hb; [ | reflexivity ];
            pose proof (IsBeforeRange_out _ _ _ Hb); congruence).
Qed.

Lemma loop_stops fuel nowYear dateRange st w :
  wp E (main.loop fuel nowYear dateRange st)
     (fun e _ t =>
        stops nowYear dateRange t
        /\ match e with
           | main.StillRunning _ => none_before nowYear dateRange t
           | main.Finished _ => True
           end) w.
Proof.
  revert st w. induction fuel as [| fuel IH]; intros st w.
  - cbn [main.loop wp]. split; [ exact I | constructor ].
  - cbn [main.loop wp]. eapply wp_conseq; [ apply body_stops | ].
    cbn beta. intros [st' | st'] w1 t1 [H1 H2].
    + cbn [wp]. rewrite app_nil_r. auto.
    + eapply wp_conseq; [ apply IH | ]. cbn beta. intros e _ t2 [H3 H4].
      split; [ apply none_before_stops; assumption | ].
      destruct e; [ exact I | apply Forall_app; split; assumption ].
Qed.

End Stops.

(** X15. The traversal ends at the first group older than the range.  In
    every run of the loop, in any environment, once
    [SelectFirstVisibleDate] has handed over a group whose label
    [IsBeforeRange] places before the range, the loop logs the group,
    logs that it stops, calls [Deselect] once and is left: nothing is
    downloaded or scrolled any more and the page is not scanned again. *)
Theorem first_older_group_ends_the_traversal (E : Env) fuel nowYear dateRange st
    (w : World E) t1 di t2 :
  datefilter.IsBeforeRange nowYear dateRange (selection.Text di) = true ->
  trace_of (interp E (main.loop fuel nowYear dateRange st) w)
  = t1 ++ Ev selection_SelectFirstVisibleDate (Ok (Some di)) :: t2 ->
  (exists r,
     t2 = [ Ev (log_Print (logDateFound (selection.Text di))) tt;
            Ev (log_Print (logBeforeRange (selection.Text di))) tt;
            Ev selection_Deselect r ])
  /\ exists st', result_of (interp E (main.loop fuel nowYear dateRange st) w)
                 = main.Finished st'.
Proof.
  intros Hb Ht.
  pose proof (loop_stops E fuel nowYear dateRange st w) as H.
  apply wp_interp in H. rewrite Ht in H. destruct H as [H1 H2].
  split; [ exact (stops_split _ _ _ _ _ H1 Hb) | ].
  destruct (result_of _) as [st' | st']; [ eauto | ].
  apply Forall_app in H2 as [_ H2]. apply Forall_cons_iff in H2 as [H2 _].
  cbn in H2. congruence.
Qed.

Lemma first_older_group_ends_the_traversal_witness :
  (exists r,
     [ Ev (log_Print (logDateFound "25 May 2024")) tt;
       Ev (log_Print (logBeforeRange "25 May 2024")) tt;
       Ev selection_Deselect None ]
     = [ Ev (log_Print (logDateFound "25 May 2024")) tt;
         Ev (log_Print (logBeforeRange "25 May 2024")) tt;
         Ev selection_Deselect r ])
  /\ exists st',
       result_of (interp scripted.env (main.loop 4 2026 examples.june2024 examples.start)
                         (scripted.presents [selection.mkDateInfo "25 May 2024" 100]))
       = main.Finished st'.
Proof.
  apply (first_older_group_ends_the_traversal scripted.env 4 2026 examples.june2024
           examples.start
           (scripted.presents [selection.mkDateInfo "25 May 2024" 100])
           [Ev browser_IsContextCanceled false;
            Ev (log_Print (logProcessingDate 1)) tt;
            Ev selection_ClearPendingSelection tt]
           (selection.mkDateInfo "25 May 2024" 100)).
  - reflexivity.
  - reflexivity.
Defined.

Section Accounting.
Context (E : Env).
Import cursor accounting.
Local Open Scope Z_scope.

Lemma count_app f t1 t2 : count f (t1 ++ t2) = count f t1 + count f t2.
Proof. induction t1 as [| ev t1 IH]; cbn [app count]; lia. Qed.

Lemma quiet_count f t :
  (forall ev, quiet_event ev -> f ev = false) -> Forall quiet_event t -> count f t = 0.
Proof.
  intros Hf. induction 1 as [| ev t Hev _ IH]; cbn [count]; [ reflexivity | ].
  rewrite (Hf _ Hev). lia.
Qed.

Lemma quiet_not_started ev : quiet_event ev -> is_started ev = false.
Proof. destruct ev as [R c r]. destruct c; cbn; tauto. Qed.

Lemma quiet_not_failed ev : quiet_event ev -> is_failed ev = false.
Proof. destruct ev as [R c r]. destruct c; cbn; tauto. Qed.

Lemma quiet_not_skipped ev : quiet_event ev -> is_skipped ev = false.
Proof.
  destruct ev as [R c r]. destruct c; cbn; try tauto.
  destruct l; tauto.
Qed.

Lemma accounted_trans s0 s1 s2 t1 t2 k :
  accounted s0 s1 t1 0 -> accounted s1 s2 t2 k -> accounted s0 s2 (t1 ++ t2) k.
Proof.
  unfold accounted, started, failed, skipped.
  intros (A1 & A2 & A3 & A4 & new1 & A5 & A6 & A7)
         (B1 & B2 & B3 & B4 & new2 & B5 & B6 & B7).
  rewrite !count_app. repeat split; try lia.
  exists (new1 ++ new2). rewrite B5, A5, <- app_assoc, length_app, Nat2Z.inj_add.
  repeat split; [ lia | apply Forall_app; auto ].
Qed.

Lemma accounted_refl s : accounted s s [] 0.
Proof.
  unfold accounted. cbn. repeat split; try lia.
  exists []. rewrite app_nil_r. repeat split. constructor.
Qed.

Ltac acct :=
  unfold accounted, started, failed, skipped;
  cbn [count app is_started is_failed is_skipped];
  rewrite ?count_app;
  repeat match goal with H : count _ _ = 0%Z |- _ => rewrite H end;
  cbn [count app is_started is_failed is_skipped
       main.stats main.withStats report.DownloadsStarted
       report.DownloadsFailed report.SkippedDates report.DatesProcessed
       report.Errors report.AddError report.IncrementDownloadsFailed
       report.IncrementDownloadsStarted report.IncrementSkippedDates
       report.IncrementDatesProcessed];
  repeat match goal with
         | H : browser.IsBrowserClosed (Some _) = _ |- _ => rewrite H
         end;
  cbn [negb];
  split; [ lia | split; [ lia | split; [ lia | split; [ lia | ] ] ] ];
  first [ exists []; split; [ symmetry; apply app_nil_r
                            | split; [ reflexivity | constructor ] ]
        | eexists [_]; split; [ reflexivity
                              | split; [ reflexivity
                                       | constructor;
                                         [ apply strings_facts.HasPrefix_iff;
                                           eexists; reflexivity
                                         | constructor ] ] ] ].

Lemma body_accounted nowYear dateRange st w :
  wp E (main.body nowYear dateRange st)
     (fun s _ t =>
        match s with
        | main.Continue st' => accounted (main.stats st) (main.stats st') t 0
        | main.Break st' =>
            exists k, 0 <= k <= 1 /\ accounted (main.stats st) (main.stats st') t k
        end) w.
Proof.
  unfold main.body.
  repeat wp_step.
  all: try (eapply wp_conseq; [ apply deselectRetry_quiet | cbn beta; intros ? ? td Htd ];
            pose proof (quiet_count _ _ quiet_not_started Htd) as Hs;
            pose proof (quiet_count _ _ quiet_not_failed Htd) as Hf;
            pose proof (quiet_count _ _ quiet_not_skipped Htd) as Hk;
            repeat wp_step).
  all: cbn [wp app].
  all: repeat match goal with u : unit |- _ => destruct u end.
  all: repeat match goal with
              | H : browser.IsBrowserClosed ?r = true |- _ =>
                  is_var r; destruct r; [ | discriminate H ]
              end.
  all: try match goal with
           | H : browser.IsBrowserClosed None = true |- _ => discriminate H
           end.
  all: lazymatch goal with
       | |- exists k, _ => first [ exists 0; split; [ lia | ]; solve [ acct ]
                                 | exists 1; split; [ lia | ]; solve [ acct ] ]
       | |- _ => acct
       end.
Qed.

Lemma loop_accounted fuel nowYear dateRange st w :
  wp E (main.loop fuel nowYear dateRange st)
     (fun e _ t =>
        match e with
        | main.StillRunning st' => accounted (main.stats st) (main.stats st') t 0
        | main.Finished st' =>
            exists k, 0 <= k <= 1 /\ accounted (main.stats st) (main.stats st') t k
        end) w.
Proof.
  revert st w. induction fuel as [| fuel IH]; intros st w.
  - cbn [main.loop wp]. apply accounted_refl.
  - cbn [main.loop wp]. eapply wp_conseq; [ apply body_accounted | ].
    cbn beta. intros [st' | st'] w1 t1 H1.
    + cbn [wp]. rewrite app_nil_r. exact H1.
    + eapply wp_conseq; [ apply IH | ]. cbn beta. intros [st2 | st2] _ t2 H2.
      * destruct H2 as (k & Hk & H2). exists k. split; [ exact Hk | ].
        eapply accounted_trans; eauto.
      * eapply accounted_trans; eauto.
Qed.

End Accounting.

(** X16. The counters of the report add up with what the loop did.  In
    every run of the loop, in any environment, [DownloadsStarted] grows
    by the number of clicks on the download button that succeeded,
    [DownloadsFailed] and the list of errors by the number of clicks
    that failed with an error that is not fatal (each error recorded
    with a message that starts with "Download failed: "),
    [SkippedDates] by the number of groups logged as after the range,
    and [DatesProcessed] by the number of those clicks, less one at
    most when the loop was left. *)
Theorem report_counters_add_up (E : Env) fuel nowYear dateRange st (w : World E) :
  let x := interp E (main.loop fuel nowYear dateRange st) w in
  let s := main.stats st in
  let s' := accounting.final (result_of x) in
  let clicks := (accounting.started (trace_of x) + accounting.failed (trace_of x))%Z in
  let processed := (report.DatesProcessed s' - report.DatesProcessed s)%Z in
  report.DownloadsStarted s'
  = (report.DownloadsStarted s + accounting.started (trace_of x))%Z
  /\ report.DownloadsFailed s'
     = (report.DownloadsFailed s + accounting.failed (trace_of x))%Z
  /\ report.SkippedDates s'
     = (report.SkippedDates s + accounting.skipped (trace_of x))%Z
  /\ (exists new,
        report.Errors s' = report.Errors s ++ new
        /\ Z.of_nat (List.length new) = accounting.failed (trace_of x)
        /\ Forall (fun en => strings.HasPrefix (report.Message en) "Download failed: "
                              = true) new)
  /\ match result_of x with
     | main.StillRunning _ => processed = clicks
     | main.Finished _ => (processed <= clicks <= processed + 1)%Z
     end.
Proof.
  cbv zeta.
  pose proof (loop_accounted E fuel nowYear dateRange st w) as H.
  apply wp_interp in H.
  destruct (result_of (interp E (main.loop fuel nowYear dateRange st) w)) as [st' | st'];
    cbn [accounting.final].
  - destruct H as (k & Hk & H1 & H2 & H3 & H4 & H5). repeat split; auto; lia.
  - destruct H as (H1 & H2 & H3 & H4 & H5). repeat split; auto; lia.
Qed.

Section Exhaustion.
Context (E : Env).
Import cursor exhaustion.
Local Open Scope Z_scope.

Lemma streak_app n t1 t2 : streak n (t1 ++ t2) = streak (streak n t1) t2.
Proof.
  revert n. induction t1 as [| [R c r] t1 IH]; intros n; cbn [app]; [ reflexivity | ].
  destruct c; cbn [streak]; auto.
  destruct r as [[di |] | e]; auto.
Qed.

Lemma quiet_streak t : Forall quiet_event t -> forall n, streak n t = n.
Proof.
  induction 1 as [| [R c r] t Hev _ IH]; intros n; cbn [streak]; [ reflexivity | ].
  destruct c; cbn in Hev |- *; auto; tauto.
Qed.

Lemma ended_app t1 t2 : ended (t1 ++ t2) = ended t1 || ended t2.
Proof. apply existsb_app. Qed.

Lemma quiet_ended t : Forall quiet_event t -> existsb is_end t = false.
Proof.
  induction 1 as [| [R c r] t Hev _ IH]; cbn [existsb]; [ reflexivity | ].
  rewrite IH, orb_false_r. destruct c; cbn in Hev |- *; try tauto.
  destruct l; tauto.
Qed.

Lemma body_streak nowYear dateRange st w :
  wp E (main.body nowYear dateRange st)
     (fun s _ t =>
        main.emptyRounds st < 5 ->
        match s with
        | main.Continue st' =>
            main.emptyRounds st' = streak (main.emptyRounds st) t
            /\ main.emptyRounds st' < 5
            /\ ended t = false
        | main.Break st' => ended t = true -> streak (main.emptyRounds st) t = 5
        end) w.
Proof.
  unfold main.body.
  repeat wp_step.
  all: try (eapply wp_conseq; [ apply deselectRetry_quiet | cbn beta; intros ? ? td Htd ];
            pose proof (quiet_streak _ Htd) as Hs;
            pose proof (quiet_ended _ Htd) as He;
            repeat wp_step).
  all: cbn [wp app]; intros Hlt.
  all: repeat match goal with u : unit |- _ => destruct u end.
  all: unfold ended; cbn [streak existsb is_end orb app main.emptyRounds main.withStats].
  all: rewrite ?existsb_app, ?streak_app.
  all: repeat match goal with
              | H : forall n, streak n _ = n |- _ => rewrite ?H; clear H
              | H : existsb is_end _ = false |- _ => rewrite ?H; clear H
              end.
  all: cbn [streak existsb is_end orb app].
  all: repeat match goal with
              | H : (_ <=? _) = true |- _ =>
                  cbn [main.emptyRounds] in H; apply Z.leb_le in H
              | H : (_ <=? _) = false |- _ =>
                  cbn [main.emptyRounds] in H; apply Z.leb_gt in H
              end.
  all: try (intros Hend; try discriminate Hend; lia).
  all: repeat split; try reflexivity; try lia.
Qed.

Lemma loop_streak fuel nowYear dateRange st w :
  wp E (main.loop fuel nowYear dateRange st)
     (fun e _ t =>
        main.emptyRounds st < 5 ->
        match e with
        | main.StillRunning st' =>
            main.emptyRounds st' = streak (main.emptyRounds st) t
            /\ main.emptyRounds st' < 5
            /\ ended t = false
        | main.Finished st' => ended t = true -> streak (main.emptyRounds st) t = 5
        end) w.
Proof.
  revert st w. induction fuel as [| fuel IH]; intros st w.
  - cbn [main.loop wp]. intros Hlt. repeat split. exact Hlt.
  - cbn [main.loop wp]. eapply wp_conseq; [ apply body_streak | ].
    cbn beta. intros [st' | st'] w1 t1 H1.
    + cbn [wp]. rewrite app_nil_r. exact H1.
    + eapply wp_conseq; [ apply IH | ]. cbn beta. intros e _ t2 H2 Hlt.
      destruct (H1 Hlt) as (A1 & A2 & A3). specialize (H2 A2).
      rewrite ended_app, A3, streak_app, <- A1. cbn [orb]. exact H2.
Qed.

End Exhaustion.

(** X17. "End of photos!" means five empty scans in a row.  In every run
    of the loop that starts with fewer than five empty rounds, in any
    environment, the loop logs the end of the photos only when the last
    five scans that did not fail found no date, with no scan that found
    one between them; and as long as the loop goes on, fewer than five
    such scans have been made since the last date was found. *)
Theorem end_of_photos_after_five_empty_scans (E : Env) fuel nowYear dateRange st
    (w : World E) :
  (main.emptyRounds st < 5)%Z ->
  let x := interp E (main.loop fuel nowYear dateRange st) w in
  match result_of x with
  | main.StillRunning st' =>
      main.emptyRounds st' = exhaustion.streak (main.emptyRounds st) (trace_of x)
      /\ (main.emptyRounds st' < 5)%Z
      /\ exhaustion.ended (trace_of x) = false
  | main.Finished st' =>
      exhaustion.ended (trace_of x) = true ->
      exhaustion.streak (main.emptyRounds st) (trace_of x) = 5%Z
  end.
Proof.
  intros Hlt. cbv zeta.
  pose proof (loop_streak E fuel nowYear dateRange st w) as H.
  apply wp_interp in H. exact (H Hlt).
Qed.

Lemma end_of_photos_after_five_empty_scans_witness :
  let x := interp scripted.env (main.loop 7 2026 examples.allDates examples.start)
                  scripted.quiet in
  match result_of x with
  | main.StillRunning st' =>
      main.emptyRounds st' = exhaustion.streak (main.emptyRounds examples.start) (trace_of x)
      /\ (main.emptyRounds st' < 5)%Z
      /\ exhaustion.ended (trace_of x) = false
  | main.Finished st' =>
      exhaustion.ended (trace_of x) = true ->
      exhaustion.streak (main.emptyRounds examples.start) (trace_of x) = 5%Z
  end.
Proof.
  apply (end_of_photos_after_five_empty_scans scripted.env 7 2026 examples.allDates
           examples.start scripted.quiet).
  reflexivity.
Defined.

Section Persistence.
Context (E : Env).
Import cursor persistence.
Local Open Scope Z_scope.

Lemma body_calm nowYear dateRange st w :
  wp E (main.body nowYear dateRange st)
     (fun s _ t =>
        forallb calm t = true ->
        s = main.Continue
              (main.mkLoopState (main.stats st) (main.emptyRounds st)
                                (main.consecutiveErrors st + 1) (main.currentDateInfo st))
        /\ accounting.count is_scan t = 1) w.
Proof.
  unfold main.body.
  repeat wp_step.
  all: try (eapply wp_conseq; [ apply deselectRetry_quiet | cbn beta; intros ? ? td Htd ];
            repeat wp_step).
  all: cbn [wp app]; intros Hcalm.
  all: repeat match goal with u : unit |- _ => destruct u end.
  all: cbn [forallb calm andb negb] in Hcalm.
  all: try discriminate Hcalm.
  all: repeat match goal with
              | H : browser.IsBrowserClosed (Some _) = _ |- _ =>
                  rewrite H in Hcalm; cbn [negb andb] in Hcalm
              end.
  all: try discriminate Hcalm.
  all: split; reflexivity.
Qed.

Lemma loop_calm fuel nowYear dateRange st w :
  wp E (main.loop fuel nowYear dateRange st)
     (fun e _ t =>
        forallb calm t = true ->
        e = main.StillRunning
              (main.mkLoopState (main.stats st) (main.emptyRounds st)
                                (main.consecutiveErrors st + Z.of_nat fuel)
                                (main.currentDateInfo st))
        /\ accounting.count is_scan t = Z.of_nat fuel) w.
Proof.
  revert st w. induction fuel as [| fuel IH]; intros st w.
  - cbn [main.loop wp]. intros _. rewrite Z.add_0_r. destruct st; split; reflexivity.
  - cbn [main.loop wp]. eapply wp_conseq; [ apply body_calm | ].
    cbn beta. intros s w1 t1 H1.
    destruct s as [st' | st'].
    + cbn [wp]. rewrite app_nil_r. intros Hc. destruct (H1 Hc) as [H _]. discriminate H.
    + eapply wp_conseq; [ apply IH | ]. cbn beta. intros e _ t2 H2 Hc.
      rewrite forallb_app in Hc. apply andb_prop in Hc as [Hc1 Hc2].
      destruct (H1 Hc1) as [Hs Hn]. injection Hs as ->.
      destruct (H2 Hc2) as [-> Hm]. cbn [main.stats main.emptyRounds
        main.consecutiveErrors main.currentDateInfo].
      rewrite count_app, Hn, Hm. split; [ | lia ].
      f_equal. f_equal. lia.
Qed.

End Persistence.

(** X18. A scan that keeps failing is retried without limit.  In a run of
    the loop in which every [SelectFirstVisibleDate] fails with an error
    that is not fatal and the context is never found cancelled, the loop
    is still going after any number of iterations: it has scanned once
    per iteration, counted the errors and changed nothing else;
    reaching [maxConsecutiveErrors] adds a warning and a check of the
    context, not an end. *)
Theorem failing_scans_are_retried_without_limit (E : Env) fuel nowYear dateRange st
    (w : World E) :
  let x := interp E (main.loop fuel nowYear dateRange st) w in
  forallb persistence.calm (trace_of x) = true ->
  result_of x
  = main.StillRunning
      (main.mkLoopState (main.stats st) (main.emptyRounds st)
                        (main.consecutiveErrors st + Z.of_nat fuel)
                        (main.currentDateInfo st))
  /\ accounting.count persistence.is_scan (trace_of x) = Z.of_nat fuel.
Proof.
  cbv zeta. intros Hc.
  pose proof (loop_calm E fuel nowYear dateRange st w) as H.
  apply wp_interp in H. exact (H Hc).
Qed.

Lemma failing_scans_are_retried_without_limit_witness :
  let x := interp scripted.env (main.loop 5 2026 examples.allDates examples.start)
             (scripted.mkScript [] [] [] [] [] [] []
                (repeat (Err (errorString "could not find node")) 5) [] [] [] [] []) in
  result_of x
  = main.StillRunning
      (main.mkLoopState (main.stats examples.start) (main.emptyRounds examples.start)
                        (main.consecutiveErrors examples.start + Z.of_nat 5)
                        (main.currentDateInfo examples.start))
  /\ accounting.count persistence.is_scan (trace_of x) = Z.of_nat 5.
Proof.
  apply (failing_scans_are_retried_without_limit scripted.env 5 2026 examples.allDates
           examples.start).
  vm_compute. reflexivity.
Defined.

Section Setup.
Context (E : Env).
Import cursor setup persistence.
Local Open Scope Z_scope.

Lemma wp_any {A} (p : Prog A) w : wp E p (fun _ _ _ => True) w.
Proof. apply wp_interp. exact I. Qed.

Lemma run_setup fuel nowYear dateRange w :
  wp E (main.run fuel nowYear dateRange)
     (fun a _ t =>
        match a with
        | main.Returned e s =>
            s = report.New
            /\ accounting.count is_scan t = 0
            /\ exists t' ev, cause e ev /\ t = t' ++ ev :: teardown ev
        | _ => True
        end) w.
Proof.
  unfold main.run. repeat wp_step.
  all: try (eapply wp_conseq; [ apply wp_any | ];
            cbn beta; intros [st' | st'] ? tl _; repeat wp_step).
  all: cbn [wp app].
  all: repeat match goal with u : unit |- _ => destruct u end.
  all: try exact I.
  all: split; [ reflexivity | split; [ reflexivity | ] ].
  all: unfold cause.
  all: match goal with
       | |- exists t' ev, _ /\ ?t = _ =>
           first
             [ exists []; eexists; split; [ left; reflexivity | reflexivity ]
             | eexists [_; _]; eexists; split; [ right; left; reflexivity | reflexivity ]
             | eexists [_; _; _; _; _]; eexists;
               split; [ right; right; reflexivity | reflexivity ]
             | eexists [_; _; _; _; _; _]; eexists;
               split; [ right; right; reflexivity | reflexivity ]
             | eexists [_; _; _; _; _; _; _]; eexists;
               split; [ right; right; reflexivity | reflexivity ] ]
       end.
Qed.

End Setup.

(** X19. [run] returns only when the set-up fails.  In every run, in any
    environment, [run] returns (instead of blocking after the loop) only
    with the error of a call to [browser.New], [browser.Navigate] or
    [auth.WaitForLogin]; that call is the last one before the deferred
    calls, which close the session if it was opened and then print the
    report, whose counters are all zero; the loop has not started (the
    page was never scanned).  Failing to configure the downloads, to
    check the login or to apply the filter does not make [run] return. *)
Theorem run_returns_only_on_setup_failure (E : Env) fuel nowYear dateRange (w : World E) :
  let x := interp E (main.run fuel nowYear dateRange) w in
  match result_of x with
  | main.Returned e s =>
      s = report.New
      /\ accounting.count persistence.is_scan (trace_of x) = 0%Z
      /\ exists t' ev, setup.cause e ev /\ trace_of x = t' ++ ev :: setup.teardown ev
  | _ => True
  end.
Proof.
  cbv zeta. pose proof (run_setup E fuel nowYear dateRange w) as H.
  apply wp_interp in H. exact H.
Qed.

(** X20. [CheckLoginStatus] answers that the user is signed in in two
    cases only: the location of the page was read and holds neither
    "passport" nor "auth", the page shows no element of the login form,
    and either it shows elements of Yandex Disk or the script that looks
    for them failed.  A location that holds "auth" anywhere means not
    signed in, whatever the page shows. *)
Theorem CheckLoginStatus_signed_in (a : auth.Answers) :
  fst (auth.CheckLoginStatus a) = Ok true
  <-> exists url,
        auth.ansLocation a = Ok url
        /\ strings.Contains url "passport" = false
        /\ strings.Contains url "auth" = false
        /\ auth.ansLoginPage a = Ok false
        /\ auth.ansDiskElements a <> Ok false.
Proof.
  unfold auth.CheckLoginStatus. split.
  - destruct (auth.ansLocation a) as [url | err]; [ | discriminate ].
    destruct (strings.Contains url "passport") eqn:E1; [ discriminate | ].
    destruct (strings.Contains url "auth") eqn:E2; [ discriminate | ].
    cbn [orb].
    destruct (auth.ansLoginPage a) as [[] | err]; try discriminate.
    destruct (auth.ansDiskElements a) as [[] | err]; try discriminate;
      intros _; exists url; repeat split; try assumption; discriminate.
  - intros (url & -> & -> & -> & -> & H). cbn [orb].
    destruct (auth.ansDiskElements a) as [[] | err]; try reflexivity.
    now destruct H.
Qed.

Section WaitForLogin.
Import auth.

Lemma waiting_spec wakes :
  match fst (waiting wakes) with
  | None => forallb (fun w => negb (signedIn w) && negb (isTimeout w)) wakes = true
  | Some r =>
      exists pre w rest,
        wakes = pre ++ w :: rest
        /\ forallb (fun w => negb (signedIn w) && negb (isTimeout w)) pre = true
        /\ ((r = None /\ signedIn w = true)
            \/ (r = Some errLoginTimeout /\ w = Expired))
  end.
Proof.
  induction wakes as [| w wakes IH]; [ reflexivity | ].
  destruct w as [| a].
  - cbn. exists [], Expired, wakes. repeat split. right. auto.
  - cbn [waiting signedIn].
    destruct (CheckLoginStatus a) as [r logs] eqn:Hc.
    destruct r as [[] | err].
    + cbn [fst]. exists [], (Tick a), wakes. repeat split. left.
      split; [ reflexivity | ]. cbn [signedIn]. now rewrite Hc.
    + destruct (waiting wakes) as [out logs'] eqn:Hw. cbn [fst] in IH |- *.
      destruct out as [r |].
      * destruct IH as (pre & w & rest & -> & Hpre & Hw').
        exists (Tick a :: pre), w, rest. repeat split; auto.
        cbn [forallb signedIn isTimeout]. rewrite Hc. cbn. exact Hpre.
      * cbn [forallb signedIn isTimeout]. rewrite Hc. cbn. exact IH.
    + destruct (waiting wakes) as [out logs'] eqn:Hw. cbn [fst] in IH |- *.
      destruct out as [r |].
      * destruct IH as (pre & w & rest & -> & Hpre & Hw').
        exists (Tick a :: pre), w, rest. repeat split; auto.
        cbn [forallb signedIn isTimeout]. rewrite Hc. cbn. exact Hpre.
      * cbn [forallb signedIn isTimeout]. rewrite Hc. cbn. exact IH.
Qed.

End WaitForLogin.

(** X21. [WaitForLogin] returns without error only when a check of the
    login, made on a tick, finds the user signed in, and with an error
    only when the timer of the time-out fires first; the error is then
    the time-out.  A check that fails is logged and does not end the
    wait: its error is never returned. *)
Theorem WaitForLogin_ends (wakes : list auth.Wake) (r : option error) :
  fst (auth.WaitForLogin wakes) = Some r ->
  exists pre w rest,
    wakes = pre ++ w :: rest
    /\ forallb (fun w => negb (auth.signedIn w) && negb (auth.isTimeout w)) pre = true
    /\ ((r = None /\ auth.signedIn w = true)
        \/ (r = Some auth.errLoginTimeout /\ w = auth.Expired)).
Proof.
  unfold auth.WaitForLogin. intros H.
  pose proof (waiting_spec wakes) as Hs.
  destruct (auth.waiting wakes) as [out logs]. cbn [fst] in H, Hs.
  subst out. exact Hs.
Qed.

Lemma WaitForLogin_ends_witness :
  let failing := auth.mkAnswers (Err (errorString "no page")) (Ok false) (Ok false) in
  let signed := auth.mkAnswers (Ok "https://disk.yandex.com/client/photo"%string)
                              (Ok false) (Ok true) in
  exists pre w rest,
    [auth.Tick failing; auth.Tick signed; auth.Expired] = pre ++ w :: rest
    /\ forallb (fun w => negb (auth.signedIn w) && negb (auth.isTimeout w)) pre = true
    /\ ((@None error = None /\ auth.signedIn w = true)
        \/ (@None error = Some auth.errLoginTimeout /\ w = auth.Expired)).
Proof.
  cbv zeta.
  apply (WaitForLogin_ends
           [auth.Tick (auth.mkAnswers (Err (errorString "no page")) (Ok false) (Ok false));
            auth.Tick (auth.mkAnswers (Ok "https://disk.yandex.com/client/photo"%string)
                                      (Ok false) (Ok true));
            auth.Expired] None).
  reflexivity.
Defined.

Ltac plain_const :=
  vm_compute; repeat (constructor; [ discriminate | ]); constructor.

Section Printing.
Import printing.
Local Open Scope Z_scope.

Lemma strip_plain s : plain s -> strip false s = s.
Proof.
  induction 1 as [| r s Hr _ IH]; cbn [strip]; [ reflexivity | ].
  apply Z.eqb_neq in Hr. rewrite Hr, IH. reflexivity.
Qed.

Lemma strip_is_plain b s : plain (strip b s).
Proof.
  revert b. induction s as [| r s IH]; intros b; cbn [strip]; [ constructor | ].
  destruct (r =? ESC) eqn:E; [ apply IH | ].
  destruct b; [ apply IH | ].
  constructor; [ now apply Z.eqb_neq | apply IH ].
Qed.

Lemma strip_app b s t : strip b (s ++ t) = strip b s ++ strip (escaping b s) t.
Proof.
  revert b. induction s as [| r s IH]; intros b; cbn [app strip escaping]; [ reflexivity | ].
  destruct (r =? ESC); [ apply IH | ].
  destruct b; [ apply IH | ].
  rewrite IH. reflexivity.
Qed.

Lemma escaping_plain s : plain s -> escaping false s = false.
Proof.
  induction 1 as [| r s Hr _ IH]; cbn [escaping]; [ reflexivity | ].
  apply Z.eqb_neq in Hr. now rewrite Hr.
Qed.

Lemma strip_plain_app p t : plain p -> strip false (p ++ t) = p ++ strip false t.
Proof.
  intros H. now rewrite strip_app, (strip_plain _ H), (escaping_plain _ H).
Qed.

(** An escape sequence without ['m'] swallows what follows it. *)
Lemma strip_no_m t : ~ In 109 t -> strip true t = [].
Proof.
  induction t as [| r t IH]; cbn [strip]; [ reflexivity | ].
  intros H. destruct (r =? ESC); [ apply IH; intros ?; apply H; now right | ].
  destruct (r =? 109) eqn:E.
  - apply Z.eqb_eq in E. exfalso. apply H. now left.
  - cbn [negb]. apply IH. intros ?; apply H; now right.
Qed.

Lemma plain_app a b : plain a -> plain b -> plain (a ++ b).
Proof. intros; apply Forall_app; auto. Qed.

Lemma plain_Repeat_space n : plain (Repeat (lit " ") n).
Proof.
  unfold Repeat. induction (Z.to_nat n) as [| k IH]; cbn [repeat concat]; [ constructor | ].
  apply plain_app; [ plain_const | exact IH ].
Qed.

Lemma visualLength_app a b : visualLength (a ++ b) = visualLength a + visualLength b.
Proof. induction a as [| r a IH]; cbn [app visualLength]; lia. Qed.

Lemma visualLength_spaces k :
  visualLength (List.concat (List.repeat (lit " ") k)) = Z.of_nat k.
Proof.
  induction k as [| k IH]; [ reflexivity | ].
  cbn [List.repeat List.concat]. rewrite visualLength_app, IH, Nat2Z.inj_succ.
  change (visualLength (lit " ")) with 1. lia.
Qed.

Lemma visualLength_Repeat_space n : 0 <= n -> visualLength (Repeat (lit " ") n) = n.
Proof.
  intros Hn. unfold Repeat. rewrite visualLength_spaces. now apply Z2Nat.id.
Qed.

Lemma plain_fullLabel emoji label : plain emoji -> plain label -> plain (fullLabel emoji label).
Proof.
  intros He Hl. unfold fullLabel. destruct emoji as [| r e]; [ exact Hl | ].
  apply plain_app; [ exact He | apply plain_app; [ plain_const | exact Hl ] ].
Qed.

Lemma plain_labelField emoji label : plain emoji -> plain label -> plain (labelField emoji label).
Proof.
  intros He Hl. unfold labelField.
  apply plain_app; [ now apply plain_fullLabel | apply plain_Repeat_space ].
Qed.

Lemma strip_colour c b t :
  In c [colorReset; colorGreen; colorYellow; colorRed; colorCyan; colorBold; colorDim] ->
  strip b (c ++ t) = strip false t.
Proof.
  cbn [In]. intros H.
  repeat (destruct H as [<- | H]; [ destruct b; reflexivity | ]). destruct H.
Qed.

Lemma strip_valueField value valueColor t :
  plain value -> In valueColor colours ->
  strip false (valueField value valueColor ++ t) = value ++ strip false t.
Proof.
  intros Hv Hc. unfold colours in Hc. cbn [In] in Hc.
  destruct Hc as [<- | [<- | [<- | [<- | []]]]]; cbn [valueField colorGreen colorYellow colorRed].
  - now apply strip_plain_app.
  - rewrite <- !app_assoc. change (ESC :: lit "[32m") with colorGreen.
    rewrite (strip_colour colorGreen) by (cbn; tauto).
    rewrite (strip_plain_app _ _ Hv). reflexivity.
  - rewrite <- !app_assoc. change (ESC :: lit "[33m") with colorYellow.
    rewrite (strip_colour colorYellow) by (cbn; tauto).
    rewrite (strip_plain_app _ _ Hv). reflexivity.
  - rewrite <- !app_assoc. change (ESC :: lit "[31m") with colorRed.
    rewrite (strip_colour colorRed) by (cbn; tauto).
    rewrite (strip_plain_app _ _ Hv). reflexivity.
Qed.

Lemma errorLines_spec errors width total i :
  0 <= i <= 5 ->
  errorLines i total errors width
  = map (fun e => shown e width) (firstn (Z.to_nat (5 - i)) errors)
    ++ (if 5 - i <? Z.of_nat (List.length errors) then [ more (total - 5) width ] else []).
Proof.
  revert i. induction errors as [| err rest IH]; intros i Hi; cbn [errorLines].
  - rewrite firstn_nil. cbn [map app List.length].
    destruct (5 - i <? Z.of_nat 0) eqn:E; [ apply Z.ltb_lt in E; lia | reflexivity ].
  - destruct (5 <=? i) eqn:E.
    + apply Z.leb_le in E. assert (i = 5) by lia. subst i.
      cbn [Z.sub Z.to_nat firstn map app]. change (5 - 5) with 0.
      cbn [Z.to_nat firstn map app].
      destruct (0 <? Z.of_nat (List.length (err :: rest))) eqn:E2;
        [ reflexivity | apply Z.ltb_ge in E2; cbn [List.length] in E2; lia ].
    + apply Z.leb_gt in E.
      rewrite (IH (i + 1)) by lia.
      replace (Z.to_nat (5 - i)) with (S (Z.to_nat (5 - (i + 1)))) by lia.
      cbn [firstn map app List.length].
      replace (5 - (i + 1) <? Z.of_nat (List.length rest))
        with (5 - i <? Z.of_nat (S (List.length rest))).
      2:{ destruct (5 - i <? _) eqn:A; destruct (5 - (i + 1) <? _) eqn:B; try reflexivity;
          rewrite ?Z.ltb_lt, ?Z.ltb_ge in *; lia. }
      f_equal. unfold shown.
      destruct (datefilter.isEmpty (report.DateInfo err)).
      * now rewrite app_nil_r.
      * now rewrite <- !app_assoc.
Qed.

End Printing.

Section Durations.
Import printing.
Local Open Scope Z_scope.

Lemma wrap64_small z : - 2 ^ 63 <= z < 2 ^ 63 -> wrap64 z = z.
Proof.
  intros H. unfold wrap64. rewrite Z.mod_small; lia.
Qed.

Lemma lessThanHalf_small r m :
  0 <= r < 2 ^ 62 -> 0 <= m < 2 ^ 63 -> lessThanHalf r m = (2 * r <? m).
Proof.
  intros Hr Hm. unfold lessThanHalf.
  rewrite (Z.mod_small r), (Z.mod_small m), (Z.mod_small (r + r)) by lia.
  f_equal. lia.
Qed.

(** Rounding a duration that is not negative to the second. *)
Lemma Round_Second d :
  0 <= d <= maxDuration - 500000000 -> Round d Second = seconds d * Second.
Proof.
  unfold maxDuration, seconds. intros Hd.
  unfold Round. change (Second <=? 0) with false. cbv iota.
  destruct (d <? 0) eqn:E; [ apply Z.ltb_lt in E; lia | clear E ].
  rewrite Z.rem_mod_nonneg by (unfold Second; lia).
  assert (Hr : 0 <= d mod Second < Second) by (apply Z.mod_pos_bound; reflexivity).
  rewrite lessThanHalf_small by (unfold Second in *; lia).
  pose proof (Z.div_mod d Second ltac:(discriminate)) as Hdm.
  unfold Second in *.
  destruct (2 * (d mod 1000000000) <? 1000000000) eqn:E.
  - apply Z.ltb_lt in E. rewrite wrap64_small by lia.
    assert ((d + 500000000) / 1000000000 = d / 1000000000).
    { symmetry. apply (Z.div_unique _ _ _ (d mod 1000000000 + 500000000)); lia. }
    lia.
  - apply Z.ltb_ge in E. rewrite wrap64_small by lia.
    assert ((d + 500000000) / 1000000000 = d / 1000000000 + 1).
    { symmetry. apply (Z.div_unique _ _ _ (d mod 1000000000 - 500000000)); lia. }
    destruct (d <? d + 1000000000 - d mod 1000000000) eqn:E2;
      [ lia | apply Z.ltb_ge in E2; lia ].
Qed.

Lemma Round_Second_neg d :
  minDuration + 500000000 <= d < 0 -> Round d Second = - (seconds (- d) * Second).
Proof.
  unfold minDuration, seconds. intros Hd.
  unfold Round. change (Second <=? 0) with false. cbv iota.
  destruct (d <? 0) eqn:E; [ clear E | apply Z.ltb_ge in E; lia ].
  assert (Hrem : - Z.rem d Second = (- d) mod Second).
  { rewrite <- Z.rem_opp_l' . apply Z.rem_mod_nonneg; unfold Second; lia. }
  cbv zeta. rewrite Hrem.
  assert (Hr : 0 <= (- d) mod Second < Second) by (apply Z.mod_pos_bound; reflexivity).
  rewrite lessThanHalf_small by (unfold Second in *; lia).
  pose proof (Z.div_mod (- d) Second ltac:(discriminate)) as Hdm.
  unfold Second in *.
  destruct (2 * ((- d) mod 1000000000) <? 1000000000) eqn:E.
  - apply Z.ltb_lt in E. rewrite wrap64_small by lia.
    assert ((- d + 500000000) / 1000000000 = (- d) / 1000000000).
    { symmetry. apply (Z.div_unique _ _ _ ((- d) mod 1000000000 + 500000000)); lia. }
    lia.
  - apply Z.ltb_ge in E. rewrite wrap64_small by lia.
    assert ((- d + 500000000) / 1000000000 = (- d) / 1000000000 + 1).
    { symmetry. apply (Z.div_unique _ _ _ ((- d) mod 1000000000 - 500000000)); lia. }
    destruct (d - 1000000000 + (- d) mod 1000000000 <? d) eqn:E2;
      [ lia | apply Z.ltb_ge in E2; lia ].
Qed.

(** Hours, minutes and seconds of a whole number of seconds. *)
Lemma hms_of_seconds T :
  0 <= T <= 9223372036 ->
  (let d := T * Second in
   let h := Z.quot d Hour in
   let d := wrap64 (d - wrap64 (h * Hour)) in
   let m := Z.quot d Minute in
   let d := wrap64 (d - wrap64 (m * Minute)) in
   let s := Z.quot d Second in
   (h, m, s)) = (T / 3600, T / 60 mod 60, T mod 60).
Proof.
  intros HT. cbv zeta. unfold Hour, Minute, Second.
  change (60 * (60 * 1000000000)) with 3600000000000.
  change (60 * 1000000000) with 60000000000.
  assert (Hh : Z.quot (T * 1000000000) 3600000000000 = T / 3600).
  { rewrite Z.quot_div_nonneg by lia.
    change 3600000000000 with (3600 * 1000000000).
    rewrite Z.div_mul_cancel_r by lia. reflexivity. }
  rewrite Hh.
  pose proof (Z.div_mod T 3600 ltac:(discriminate)) as H1.
  pose proof (Z.mod_pos_bound T 3600 ltac:(reflexivity)) as B1.
  assert (0 <= T / 3600) by (apply Z.div_pos; lia).
  rewrite (wrap64_small (T / 3600 * 3600000000000)) by lia.
  rewrite wrap64_small by lia.
  assert (E1 : T * 1000000000 - T / 3600 * 3600000000000 = (T mod 3600) * 1000000000) by lia.
  rewrite E1.
  assert (Hm : Z.quot ((T mod 3600) * 1000000000) 60000000000 = (T mod 3600) / 60).
  { rewrite Z.quot_div_nonneg by lia.
    change 60000000000 with (60 * 1000000000).
    rewrite Z.div_mul_cancel_r by lia. reflexivity. }
  rewrite Hm.
  pose proof (Z.div_mod (T mod 3600) 60 ltac:(discriminate)) as H2.
  pose proof (Z.mod_pos_bound (T mod 3600) 60 ltac:(reflexivity)) as B2.
  assert (0 <= T mod 3600 / 60) by (apply Z.div_pos; lia).
  rewrite (wrap64_small (T mod 3600 / 60 * 60000000000)) by lia.
  rewrite wrap64_small by lia.
  assert (E2 : T mod 3600 * 1000000000 - T mod 3600 / 60 * 60000000000
               = ((T mod 3600) mod 60) * 1000000000) by lia.
  rewrite E2.
  rewrite Z.quot_div_nonneg by lia.
  rewrite Z.div_mul by lia.
  assert (E3 : (T mod 3600) mod 60 = T mod 60)
    by (clear; Z.to_euclidean_division_equations; lia).
  assert (E4 : T mod 3600 / 60 = T / 60 mod 60)
    by (clear; Z.to_euclidean_division_equations; lia).
  rewrite E3, E4. reflexivity.
Qed.

Lemma hms_of_negative_seconds T :
  0 <= T <= 9223372036 ->
  (let d := - (T * Second) in
   let h := Z.quot d Hour in
   let d := wrap64 (d - wrap64 (h * Hour)) in
   let m := Z.quot d Minute in
   let d := wrap64 (d - wrap64 (m * Minute)) in
   let s := Z.quot d Second in
   (h, m, s)) = (- (T / 3600), - (T / 60 mod 60), - (T mod 60)).
Proof.
  intros HT. cbv zeta. unfold Hour, Minute, Second.
  change (60 * (60 * 1000000000)) with 3600000000000.
  change (60 * 1000000000) with 60000000000.
  assert (Hh : Z.quot (- (T * 1000000000)) 3600000000000 = - (T / 3600)).
  { rewrite Z.quot_opp_l by lia. rewrite Z.quot_div_nonneg by lia.
    change 3600000000000 with (3600 * 1000000000).
    rewrite Z.div_mul_cancel_r by lia. reflexivity. }
  rewrite Hh.
  pose proof (Z.div_mod T 3600 ltac:(discriminate)) as H1.
  pose proof (Z.mod_pos_bound T 3600 ltac:(reflexivity)) as B1.
  assert (0 <= T / 3600) by (apply Z.div_pos; lia).
  rewrite (wrap64_small (- (T / 3600) * 3600000000000)) by lia.
  rewrite wrap64_small by lia.
  assert (E1 : - (T * 1000000000) - - (T / 3600) * 3600000000000
               = - ((T mod 3600) * 1000000000)) by lia.
  rewrite E1.
  assert (Hm : Z.quot (- ((T mod 3600) * 1000000000)) 60000000000 = - ((T mod 3600) / 60)).
  { rewrite Z.quot_opp_l by lia. rewrite Z.quot_div_nonneg by lia.
    change 60000000000 with (60 * 1000000000).
    rewrite Z.div_mul_cancel_r by lia. reflexivity. }
  rewrite Hm.
  pose proof (Z.div_mod (T mod 3600) 60 ltac:(discriminate)) as H2.
  pose proof (Z.mod_pos_bound (T mod 3600) 60 ltac:(reflexivity)) as B2.
  assert (0 <= T mod 3600 / 60) by (apply Z.div_pos; lia).
  rewrite (wrap64_small (- (T mod 3600 / 60) * 60000000000)) by lia.
  rewrite wrap64_small by lia.
  assert (E2 : - (T mod 3600 * 1000000000) - - (T mod 3600 / 60) * 60000000000
               = - (((T mod 3600) mod 60) * 1000000000)) by lia.
  rewrite E2.
  rewrite Z.quot_opp_l by lia. rewrite Z.quot_div_nonneg by lia.
  rewrite Z.div_mul by lia.
  assert (E3 : (T mod 3600) mod 60 = T mod 60)
    by (clear; Z.to_euclidean_division_equations; lia).
  assert (E4 : T mod 3600 / 60 = T / 60 mod 60)
    by (clear; Z.to_euclidean_division_equations; lia).
  rewrite E3, E4. reflexivity.
Qed.

Lemma seconds_bound d :
  0 <= d <= maxDuration - 500000000 -> 0 <= seconds d <= 9223372036.
Proof.
  unfold maxDuration, seconds. change (2 ^ 63) with 9223372036854775808. intros H.
  Z.to_euclidean_division_equations. lia.
Qed.

Lemma hms_nonneg d :
  0 <= d <= maxDuration - 500000000 ->
  hms d = (seconds d / 3600, seconds d / 60 mod 60, seconds d mod 60).
Proof.
  intros Hd. unfold hms. rewrite (Round_Second d Hd).
  exact (hms_of_seconds _ (seconds_bound d Hd)).
Qed.

Lemma hms_negative d :
  minDuration + 500000000 < d < 0 ->
  hms d = (- (seconds (- d) / 3600), - (seconds (- d) / 60 mod 60), - (seconds (- d) mod 60)).
Proof.
  intros Hd. unfold hms. rewrite (Round_Second_neg d ltac:(lia)).
  apply hms_of_negative_seconds. apply seconds_bound.
  unfold maxDuration, minDuration in *. lia.
Qed.

End Durations.

(** X22. [formatDuration] on a duration that is not negative: the
    duration is rounded to the nearest second, halves up, and printed as
    hours, minutes and seconds that add up to it, the minutes and the
    seconds below 60; the hours are left out below one hour, and the
    minutes as well below one minute. *)
Theorem formatDuration_adds_up (d : Z) :
  (0 <= d <= printing.maxDuration - 500000000)%Z ->
  let T := printing.seconds d in
  printing.formatDuration d
  = (if (3600 <=? T)%Z then
       printing.itoa (T / 3600) ++ printing.lit "h "
       ++ printing.itoa (T / 60 mod 60) ++ printing.lit "m "
       ++ printing.itoa (T mod 60) ++ printing.lit "s"
     else if (60 <=? T)%Z then
       printing.itoa (T / 60) ++ printing.lit "m "
       ++ printing.itoa (T mod 60) ++ printing.lit "s"
     else printing.itoa T ++ printing.lit "s")
  /\ (T = T / 3600 * 3600 + T / 60 mod 60 * 60 + T mod 60)%Z
  /\ (Z.abs (T * printing.Second - d) <= 500000000)%Z.
Proof.
  intros Hd T.
  assert (HT : (0 <= T <= 9223372036)%Z).
  { apply seconds_bound. exact Hd. }
  split; [ | split ].
  - unfold printing.formatDuration. rewrite (hms_nonneg d Hd). fold T.
    destruct (3600 <=? T)%Z eqn:E1.
    + apply Z.leb_le in E1.
      assert (0 < T / 3600)%Z by (apply Z.div_str_pos; lia).
      destruct (0 <? T / 3600)%Z eqn:E; [ reflexivity | apply Z.ltb_ge in E; lia ].
    + apply Z.leb_gt in E1.
      rewrite (Z.div_small T 3600) by lia. cbn [Z.ltb Z.compare].
      assert (Hm : (T / 60 mod 60 = T / 60)%Z).
      { apply Z.mod_small. split; [ apply Z.div_pos; lia | ].
        apply Z.div_lt_upper_bound; lia. }
      rewrite Hm.
      destruct (60 <=? T)%Z eqn:E2.
      * apply Z.leb_le in E2.
        assert (0 < T / 60)%Z by (apply Z.div_str_pos; lia).
        destruct (0 <? T / 60)%Z eqn:E; [ reflexivity | apply Z.ltb_ge in E; lia ].
      * apply Z.leb_gt in E2.
        rewrite (Z.div_small T 60), (Z.mod_small T 60) by lia. reflexivity.
  - clear. Z.to_euclidean_division_equations. lia.
  - unfold T, printing.seconds, printing.Second. clear.
    Z.to_euclidean_division_equations. lia.
Qed.

Lemma formatDuration_adds_up_witness :
  printing.formatDuration 3725499999999 = printing.lit "1h 2m 5s".
Proof.
  refine (eq_trans (proj1 (formatDuration_adds_up 3725499999999 _)) _).
  - unfold printing.maxDuration. lia.
  - reflexivity.
Defined.

(** X23. [formatDuration] on a negative duration prints the seconds
    only: the hours and the minutes it computes are negative or zero,
    fail both tests and are dropped, so that minus one hour, thirty
    minutes and fifteen seconds reads "-15s". *)
Theorem formatDuration_drops_negative_hours (d : Z) :
  (printing.minDuration + 500000000 < d < 0)%Z ->
  printing.formatDuration d
  = printing.itoa (- (printing.seconds (- d) mod 60)) ++ printing.lit "s".
Proof.
  intros Hd.
  assert (HT : (0 <= printing.seconds (- d) <= 9223372036)%Z).
  { apply seconds_bound. unfold printing.maxDuration, printing.minDuration in *. lia. }
  unfold printing.formatDuration. rewrite (hms_negative d Hd).
  assert (0 <= printing.seconds (- d) / 3600)%Z by (apply Z.div_pos; lia).
  assert (0 <= printing.seconds (- d) / 60 mod 60)%Z by (apply Z.mod_pos_bound; lia).
  destruct (0 <? - (printing.seconds (- d) / 3600))%Z eqn:E1;
    [ apply Z.ltb_lt in E1; lia | ].
  destruct (0 <? - (printing.seconds (- d) / 60 mod 60))%Z eqn:E2;
    [ apply Z.ltb_lt in E2; lia | ].
  reflexivity.
Qed.

Lemma formatDuration_drops_negative_hours_witness :
  printing.formatDuration (- 5415000000000) = printing.lit "-15s".
Proof.
  refine (eq_trans (formatDuration_drops_negative_hours (- 5415000000000) _) _).
  - unfold printing.minDuration. lia.
  - reflexivity.
Defined.

(** X24. What [stripAnsiCodes] returns holds no escape character, and
    stripping it again changes nothing.  An escape sequence runs from
    the escape character to the next 'm', whatever stands between them:
    it is removed with the 'm', and what stands before and after it is
    kept as if it were not there. *)
Theorem stripAnsiCodes_removes_escape_sequences (s t u : printing.text) :
  ~ In 109%Z t ->
  printing.plain (printing.stripAnsiCodes s)
  /\ printing.stripAnsiCodes (printing.stripAnsiCodes s) = printing.stripAnsiCodes s
  /\ printing.stripAnsiCodes (s ++ printing.ESC :: t ++ 109%Z :: u)
     = printing.stripAnsiCodes s ++ printing.stripAnsiCodes u.
Proof.
  intros Ht. split; [ apply strip_is_plain | ].
  split; [ apply strip_plain, strip_is_plain | ].
  unfold printing.stripAnsiCodes. rewrite strip_app. f_equal.
  cbn [printing.strip]. change (printing.ESC =? printing.ESC)%Z with true. cbv iota.
  rewrite strip_app, (strip_no_m _ Ht). cbn [app].
  assert (He : printing.escaping true t = true).
  { clear - Ht. induction t as [| r t IH]; [ reflexivity | ].
    cbn [printing.escaping]. destruct (r =? printing.ESC)%Z.
    - apply IH. intros ?; apply Ht; now right.
    - destruct (r =? 109)%Z eqn:E.
      + apply Z.eqb_eq in E. exfalso. apply Ht. now left.
      + apply IH. intros ?; apply Ht; now right. }
  rewrite He. cbn [printing.strip].
  change (109 =? printing.ESC)%Z with false. cbv iota.
  change (109 =? 109)%Z with true. reflexivity.
Qed.

Lemma stripAnsiCodes_removes_escape_sequences_witness :
  printing.stripAnsiCodes
    (printing.lit "a" ++ printing.ESC :: printing.lit "[2K" ++ 109%Z :: printing.lit "b")
  = printing.stripAnsiCodes (printing.lit "a") ++ printing.stripAnsiCodes (printing.lit "b").
Proof.
  apply (stripAnsiCodes_removes_escape_sequences
           (printing.lit "a") (printing.lit "[2K") (printing.lit "b")).
  vm_compute. intros [H | [H | [H | []]]]; discriminate H.
Defined.

(** X25. An escape character that no 'm' follows takes the rest of the
    text with it: [stripAnsiCodes] drops everything from that character
    on, and [measureString] does not count it. *)
Theorem unfinished_escape_hides_the_rest (s t : printing.text) :
  ~ In 109%Z t ->
  printing.stripAnsiCodes (s ++ printing.ESC :: t) = printing.stripAnsiCodes s
  /\ printing.measureString (s ++ printing.ESC :: t) = printing.measureString s.
Proof.
  intros Ht.
  assert (H : printing.stripAnsiCodes (s ++ printing.ESC :: t) = printing.stripAnsiCodes s).
  { unfold printing.stripAnsiCodes. rewrite strip_app.
    cbn [printing.strip]. change (printing.ESC =? printing.ESC)%Z with true. cbv iota.
    rewrite (strip_no_m _ Ht). apply app_nil_r. }
  split; [ exact H | ]. unfold printing.measureString. now rewrite H.
Qed.

Lemma unfinished_escape_hides_the_rest_witness :
  printing.measureString (printing.lit "Label" ++ printing.ESC :: printing.lit "[31") = 5%Z.
Proof.
  refine (eq_trans (proj2 (unfinished_escape_hides_the_rest
                             (printing.lit "Label") (printing.lit "[31") _)) _).
  - vm_compute. intros [H | [H | [H | []]]]; discriminate H.
  - reflexivity.
Defined.

(** X26. The columns of a row of the report.  For an emoji, a label and a
    value without escape character and one of the colours that [Print]
    uses, what is left of the line that [printDataRow] writes once its
    colour codes are stripped is: two spaces, the emoji and the label
    padded with spaces to 22 columns (and left as they are when they
    are wider), three spaces, and the value.  The value so starts at
    column 27 in every row whose label fits. *)
Theorem printDataRow_columns (emoji label value : printing.text) (width : Z)
    (valueColor : printing.text) :
  printing.plain emoji -> printing.plain label -> printing.plain value ->
  In valueColor printing.colours ->
  printing.stripAnsiCodes (printing.printDataRow emoji label value width valueColor)
  = printing.lit "  " ++ printing.labelField emoji label ++ printing.lit "   " ++ value
  /\ printing.visualLength (printing.labelField emoji label)
     = Z.max 22 (printing.visualLength (printing.fullLabel emoji label)).
Proof.
  intros He Hl Hv Hc. split.
  - unfold printing.stripAnsiCodes, printing.printDataRow.
    rewrite (strip_colour printing.colorCyan) by (cbn; tauto).
    rewrite strip_plain_app by plain_const. f_equal.
    rewrite <- app_assoc.
    rewrite (strip_colour printing.colorReset) by (cbn; tauto).
    rewrite strip_plain_app by (now apply plain_labelField). f_equal.
    rewrite strip_plain_app by plain_const. f_equal.
    rewrite (strip_valueField _ _ _ Hv Hc). rewrite <- (app_nil_r value) at 2.
    f_equal.
  - unfold printing.labelField, printing.measureString, printing.stripAnsiCodes.
    rewrite (strip_plain _ (plain_fullLabel _ _ He Hl)), visualLength_app.
    destruct (22 - printing.visualLength (printing.fullLabel emoji label) <? 0)%Z eqn:E.
    + apply Z.ltb_lt in E. change (printing.visualLength (printing.Repeat _ 0)) with 0%Z. lia.
    + apply Z.ltb_ge in E. rewrite visualLength_Repeat_space by lia. lia.
Qed.

Lemma printDataRow_columns_witness :
  printing.visualLength
    (printing.labelField printing.calendarSign (printing.lit "Dates processed"))
  = Z.max 22 (printing.visualLength
                (printing.fullLabel printing.calendarSign (printing.lit "Dates processed"))).
Proof.
  refine (proj2 (printDataRow_columns printing.calendarSign (printing.lit "Dates processed")
                   (printing.lit "3") 52 [] _ _ _ _)).
  - plain_const.
  - plain_const.
  - plain_const.
  - left. reflexivity.
Defined.

(** X27. [Print] lists five errors at most.  Without error its errors
    section is the one row "No errors occurred"; otherwise it is a row
    with the number of errors, then the lines of the first five, in the
    order in which they were recorded, each with its message and, when
    there is one, the date in brackets; when there are more than five,
    one more line tells how many were left out. *)
Theorem Print_lists_five_errors_at_most (s : printing.Stats) (width : Z) :
  let errors := report.Errors (printing.counters s) in
  let n := Z.of_nat (List.length errors) in
  printing.errorsSection s width
  = match errors with
    | [] => [ printing.printDataRow printing.checkMark (printing.lit "No errors occurred")
                [] width printing.colorGreen ]
    | _ :: _ =>
        printing.printDataRow printing.crossMark
          (printing.lit "Errors (" ++ printing.itoa n ++ printing.lit "):")
          [] width printing.colorRed
        :: map (fun e => printing.shown e width) (firstn 5 errors)
        ++ (if (5 <? n)%Z then [ printing.more (n - 5) width ] else [])
    end.
Proof.
  cbv zeta. unfold printing.errorsSection.
  destruct (report.Errors (printing.counters s)) as [| e errors] eqn:E.
  - reflexivity.
  - replace (0 <? Z.of_nat (List.length (e :: errors)))%Z with true
      by (symmetry; apply Z.ltb_lt; cbn [List.length]; lia).
    f_equal. apply errorLines_spec. lia.
Qed.
